(** * AstroTuxLauncher: the launcher supervisor, embedded and verified

    A shallow embedding of [AstroTuxLauncher.py].  The methods of the class
    [AstroTuxLauncher] are functions in a small monad that threads the
    launcher object and the installation on disk, records every call to a
    collaborator (logger, dedicated server, status thread, steam, network
    probes, subprocess) as an event, and ends in one of three outcomes: a
    normal return, [sys.exit] with a code, or a propagating exception. *)

From Stdlib Require Import String Ascii List ZArith NArith Bool Lia.
From Stdlib Require Import DecimalString.
Import ListNotations.

Set Warnings "-register-all".
Local Open Scope string_scope.
Local Open Scope Z_scope.

(** ** Python values *)

(** Exceptions derived from [Exception].  [SystemExit] is not among them:
    it derives from [BaseException], passes through [except Exception], and
    is an outcome of its own below. *)
Inductive PyExn : Type :=
| AttributeError (msg : string)
| ValueError (msg : string)
| TypeError (msg : string)
| KeyError (msg : string)
| InvalidVersion (msg : string)
| TimeoutExpired
| OtherException (cls msg : string).

(** [type(e).__name__] *)
Definition exn_name (e : PyExn) : string :=
  match e with
  | AttributeError _ => "AttributeError"
  | ValueError _ => "ValueError"
  | TypeError _ => "TypeError"
  | KeyError _ => "KeyError"
  | InvalidVersion _ => "InvalidVersion"
  | TimeoutExpired => "TimeoutExpired"
  | OtherException cls _ => cls
  end.

(** [str(e)] *)
Definition exn_str (e : PyExn) : string :=
  match e with
  | AttributeError m | ValueError m | TypeError m | KeyError m
  | InvalidVersion m | OtherException _ m => m
  | TimeoutExpired => "Command timed out"
  end.

Definition is_timeout_expired (e : PyExn) : bool :=
  match e with TimeoutExpired => true | _ => false end.

(** Truth value of an [Optional[str]]: [None] and the empty string are false. *)
Definition truthy_str (s : option string) : bool :=
  match s with
  | Some s => negb (String.eqb s "")
  | None => false
  end.

(** Truth value of an optional object without [__bool__] or [__len__]. *)
Definition truthy {A : Type} (o : option A) : bool :=
  match o with Some _ => true | None => false end.

(** The text an f-string gives an [int]. *)
Definition str_of_Z (z : Z) : string := NilZero.string_of_int (Z.to_int z).

(** An attribute of an object: unbound until the first assignment. *)
Inductive pyattr (A : Type) : Type :=
| Unbound
| Bound (v : A).
Arguments Unbound {A}.
Arguments Bound {A} v.

(** ** Paths, dictionaries and JSON *)

Definition DEPOTDL_PATH : string := "libs/depotdownloader".
Definition DS_EXECUTABLE : string := "AstroServer.exe".
Definition ASTRO_SERVER_STATS_URL : string :=
  "https://astroservercheck.joejoetv.de/api/stats".

Definition slash : ascii := "/"%char.

(** [posixpath.split]: the head keeps the last slash, the tail has none. *)
Fixpoint split_last_slash (p : string) : string * string :=
  match p with
  | EmptyString => ("", "")
  | String c r =>
      let '(h, t) := split_last_slash r in
      if String.eqb h "" then
        if Ascii.eqb c slash then (String c "", t) else ("", String c t)
      else (String c h, t)
  end.

Fixpoint all_slashes (p : string) : bool :=
  match p with
  | EmptyString => true
  | String c r => Ascii.eqb c slash && all_slashes r
  end.

Fixpoint rstrip_slashes (p : string) : string :=
  match p with
  | EmptyString => ""
  | String c r =>
      let r' := rstrip_slashes r in
      if String.eqb r' "" && Ascii.eqb c slash then "" else String c r'
  end.

(** [os.path.dirname] and [os.path.basename] *)
Definition dirname (p : string) : string :=
  let h := fst (split_last_slash p) in
  if negb (String.eqb h "") && negb (all_slashes h) then rstrip_slashes h else h.

Definition basename (p : string) : string := snd (split_last_slash p).

Fixpoint ends_with_slash (p : string) : bool :=
  match p with
  | EmptyString => false
  | String c EmptyString => Ascii.eqb c slash
  | String _ r => ends_with_slash r
  end.

(** [os.path.join] of two components *)
Definition path_join (a b : string) : string :=
  match b with
  | String c _ =>
      if Ascii.eqb c slash then b
      else if String.eqb a "" || ends_with_slash a then a ++ b
      else a ++ "/" ++ b
  | EmptyString =>
      if String.eqb a "" || ends_with_slash a then a else a ++ "/"
  end.

(** A [dict] of strings, in insertion order. *)
Definition dict : Type := list (string * string).

Definition dict_has (k : string) (d : dict) : bool :=
  existsb (fun kv => String.eqb (fst kv) k) d.

Definition dict_del (k : string) (d : dict) : dict :=
  filter (fun kv => negb (String.eqb (fst kv) k)) d.

Definition dict_set (k v : string) (d : dict) : dict :=
  if dict_has k d then
    map (fun kv => if String.eqb (fst kv) k then (k, v) else kv) d
  else (d ++ [(k, v)])%list.

(** The items of a list of strings, or the index of the first [None]. *)
Fixpoint all_strings (i : Z) (items : list (option string)) : Z + list string :=
  match items with
  | [] => inr []
  | Some s :: r =>
      match all_strings (i + 1) r with inr l => inr (s :: l) | inl k => inl k end
  | None :: _ => inl i
  end.

(** What [json.load] returns; a float behaves like [JNum] in all that
    follows. *)
Inductive json : Type :=
| JNull
| JBool (b : bool)
| JNum (z : Z)
| JStr (s : string)
| JArr (items : list json)
| JObj (fields : list (string * json)).

Fixpoint assoc_json (k : string) (fields : list (string * json)) : option json :=
  match fields with
  | [] => None
  | (k', v) :: r => if String.eqb k' k then Some v else assoc_json k r
  end.

(** [data[key]] with a string key *)
Definition subscript (data : json) (key : string) : PyExn + json :=
  match data with
  | JObj fields =>
      match assoc_json key fields with
      | Some v => inr v
      | None => inl (KeyError ("'" ++ key ++ "'"))
      end
  | JArr _ => inl (TypeError "list indices must be integers or slices, not str")
  | JStr _ => inl (TypeError "string indices must be integers, not 'str'")
  | JNull => inl (TypeError "'NoneType' object is not subscriptable")
  | JBool _ => inl (TypeError "'bool' object is not subscriptable")
  | JNum _ => inl (TypeError "'int' object is not subscriptable")
  end.

(** ** Data model *)

Inductive Level : Type := DEBUG | INFO | WARNING | ERROR | CRITICAL.

(** Modelled from the spec: the enum [ServerStatus] of [astro.dedicatedserver],
    which the launcher imports; the spec lists STOPPED, STARTING, RUNNING and
    CRASHED. *)
Inductive ServerStatus : Type := STOPPED | STARTING | RUNNING | CRASHED.

Definition ServerStatus_eqb (a b : ServerStatus) : bool :=
  match a, b with
  | STOPPED, STOPPED | STARTING, STARTING
  | RUNNING, RUNNING | CRASHED, CRASHED => true
  | _, _ => false
  end.

(** [status in [ ... ]] *)
Definition status_in (s : ServerStatus) (l : list ServerStatus) : bool :=
  existsb (ServerStatus_eqb s) l.

(** The fields of the dedicated-server object that the launcher reads. *)
Record DSConfig := { PublicIP : string; ConsolePort : Z }.
Record EngineConfig := { Port : Z }.
Record RconClient := { connected : bool }.

Record AstroDedicatedServer := {
  status : ServerStatus;
  rcon : RconClient;
  ds_config : DSConfig;
  engine_config : EngineConfig
}.

(** The status thread is created with the endpoint and the interval. *)
Record StatusUpdaterThread := { endpoint : string; interval : Z }.

Inductive NotificationMethod : Type := NONE | NTFY | DISCORD.

Record DiscordConfig := { webhookURL : option string }.
Record NTFYConfig := { topic : option string; serverURL : string }.

Record NotificationConfig := {
  method : NotificationMethod;
  name : string;
  discord : option DiscordConfig;
  ntfy : option NTFYConfig
}.

Record StatusConfig := {
  SendStatus : bool;
  Interval : Z;
  EndpointURL : string
}.

(** [LauncherConfig]; the two polling intervals, read only by the
    dedicated-server module, and the event white list are left out. *)
Record LauncherConfig := {
  AutoUpdateServer : bool;
  CheckNetwork : bool;
  OverwritePublicIP : bool;
  notifications_cfg : NotificationConfig;
  status_cfg : StatusConfig;
  LogDebugMessages : bool;
  AstroServerPath : string;
  OverrideWinePath : option string;
  WinePrefixPath : string;
  WineBootTimeout : Z;
  LogPath : string;
  DisableEncryption : bool;
  WrapperPath : option string
}.

(** The dataclass defaults. *)
Definition default_config : LauncherConfig := {|
  AutoUpdateServer := true;
  CheckNetwork := true;
  OverwritePublicIP := false;
  notifications_cfg :=
    {| method := NONE; name := "Astroneer Dedicated Server";
       discord := None; ntfy := None |};
  status_cfg := {| SendStatus := false; Interval := 120; EndpointURL := "" |};
  LogDebugMessages := false;
  AstroServerPath := "AstroneerServer";
  OverrideWinePath := None;
  WinePrefixPath := "winepfx";
  WineBootTimeout := 30;
  LogPath := "logs";
  DisableEncryption := false;
  WrapperPath := None
|}.

(** Modelled from the spec: [interface.ConsoleParser.Command], an enum over
    the console verbs that includes HELP; the other members are kept by
    their verb. *)
Inductive ConsoleCommand : Type :=
| HELP
| Verb (verb : string).

Definition is_help (c : ConsoleCommand) : bool :=
  match c with HELP => true | Verb _ => false end.

(** The dictionary a successful parse returns: ["cmd"], ["message"] and the
    arguments of the verb. *)
Record ParsedCommand := {
  cmd : ConsoleCommand;
  message : string;
  args : list string
}.

(** What [parse_input] returns: [(True, result)] or [(False, message)]. *)
Inductive ParseResult : Type :=
| ParseOk (result : ParsedCommand)
| ParseError (msg : string).

Inductive NotificationHandler : Type :=
| LoggingNotificationHandler
| DiscordNotificationHandler (url name : string)
| NTFYNotificationHandler (topic url name : string).

(** The launcher object.  [exit] can run before [__init__] is through, so
    the two attributes it reads carry whether they are bound yet. *)
Record Launcher := {
  dedicatedserver : pyattr (option AstroDedicatedServer);
  status_thread : pyattr (option StatusUpdaterThread);
  config_path : option string;
  config : LauncherConfig;
  wineexec : option string;
  wineserverexec : option string;
  launcherPath : option string;
  depotdl_path : option string;
  buildversion : option string;
  cmd_queue : list ParsedCommand;
  notifications : list NotificationHandler
}.

(** The file system, as the launcher observes it. *)
Record Disk := {
  path_exists : string -> bool;                 (* os.path.exists *)
  path_isfile : string -> bool;                 (* os.path.isfile *)
  read_build_version : string -> option string  (* utils.misc *)
}.

(** Calls to collaborators, in the order they are made. *)
Inductive Event : Type :=
| Log (lvl : Level) (msg : string)
| DsKill
| DsShutdown
| DsStart
| DsServerLoop
| DsCheckPortsFree
| StatusUpdate (healthy : bool) (msg : string)
| StatusThreadStart
| InputThreadStart
| Sleep (milliseconds : N)
| DlDepotDownloader (dir base : string)
| UpdateApp (exec_path app os directory : string)
| GetRequest (url : string)
| ApiHealth
| Popen (argv : list string) (env : dict) (cwd : string) (timeout : Z)
| NetTestLocal (ip : string) (port : Z) (tcp : bool)
| NetTestNonlocal (ip : string) (port : Z)
| LoggingSetup (step : string)
| Makedirs (dir : string).

(** ** The monad *)

Record St := { self : Launcher; disk : Disk }.

Inductive Outcome (A : Type) : Type :=
| Ret (a : A)
| Exit (code : Z)
| Raise (e : PyExn).
Arguments Ret {A} a.
Arguments Exit {A} code.
Arguments Raise {A} e.

Definition M (A : Type) : Type := St -> Outcome A * St * list Event.

Definition ret {A} (a : A) : M A := fun s => (Ret a, s, []).

Definition bind {A B} (m : M A) (f : A -> M B) : M B :=
  fun s =>
    match m s with
    | (Ret a, s1, t1) =>
        let '(o, s2, t2) := f a s1 in (o, s2, (t1 ++ t2)%list)
    | (Exit c, s1, t1) => (Exit c, s1, t1)
    | (Raise e, s1, t1) => (Raise e, s1, t1)
    end.

Declare Scope py_scope.
Delimit Scope py_scope with py.
Notation "x <- m ;; k" := (bind m (fun x => k))
  (at level 61, m at next level, right associativity) : py_scope.
Notation "m ;; k" := (bind m (fun _ => k))
  (at level 61, right associativity) : py_scope.
Local Open Scope py_scope.

(** [raise e] and [sys.exit(code)] *)
Definition raise {A} (e : PyExn) : M A := fun s => (Raise e, s, []).
Definition sys_exit {A} (code : Z) : M A := fun s => (Exit code, s, []).

(** [try: m  except Exception as e: h e]; [SystemExit] passes through. *)
Definition try_except {A} (m : M A) (h : PyExn -> M A) : M A :=
  fun s =>
    match m s with
    | (Raise e, s1, t1) =>
        let '(o, s2, t2) := h e s1 in (o, s2, (t1 ++ t2)%list)
    | r => r
    end.

Definition emit (e : Event) : M unit := fun s => (Ret tt, s, [e]).
Definition log (lvl : Level) (msg : string) : M unit := emit (Log lvl msg).
Definition sleep (ms : N) : M unit := emit (Sleep ms).

Definition get_self : M Launcher := fun s => (Ret (self s), s, []).
Definition set_self (l : Launcher) : M unit :=
  fun s => (Ret tt, {| self := l; disk := disk s |}, []).
Definition get_disk : M Disk := fun s => (Ret (disk s), s, []).
Definition set_disk (d : Disk) : M unit :=
  fun s => (Ret tt, {| self := self s; disk := d |}, []).

Definition when (c : bool) (m : M unit) : M unit := if c then m else ret tt.

(** Python's short-circuit [a and b]. *)
Definition py_and (a : bool) (b : M bool) : M bool :=
  if a then b else ret false.

(** A run that comes after the events [t]. *)
Definition prepend {A} (t : list Event) (r : Outcome A * St * list Event)
  : Outcome A * St * list Event :=
  let '(o, s, t') := r in (o, s, (t ++ t')%list).

(** The three projections of a run. *)
Definition outcome {A} (r : Outcome A * St * list Event) : Outcome A :=
  fst (fst r).
Definition final {A} (r : Outcome A * St * list Event) : St := snd (fst r).
Definition events {A} (r : Outcome A * St * list Event) : list Event := snd r.

(** ** Attribute access *)

(** [self.dedicatedserver]: an [AttributeError] while the attribute is unbound. *)
Definition get_dedicatedserver : M (option AstroDedicatedServer) :=
  l <- get_self ;;
  match dedicatedserver l with
  | Bound v => ret v
  | Unbound =>
      raise (AttributeError
        "'AstroTuxLauncher' object has no attribute 'dedicatedserver'")
  end.

Definition get_status_thread : M (option StatusUpdaterThread) :=
  l <- get_self ;;
  match status_thread l with
  | Bound v => ret v
  | Unbound =>
      raise (AttributeError
        "'AstroTuxLauncher' object has no attribute 'status_thread'")
  end.

(** [self.dedicatedserver.<attr>]: on [None] the access itself raises. *)
Definition with_ds {A} (attr : string) (f : AstroDedicatedServer -> M A) : M A :=
  o <- get_dedicatedserver ;;
  match o with
  | Some ds => f ds
  | None =>
      raise (AttributeError
        ("'NoneType' object has no attribute '" ++ attr ++ "'"))
  end.

Definition with_status_thread {A} (attr : string)
    (f : StatusUpdaterThread -> M A) : M A :=
  o <- get_status_thread ;;
  match o with
  | Some t => f t
  | None =>
      raise (AttributeError
        ("'NoneType' object has no attribute '" ++ attr ++ "'"))
  end.

(** ** [exit] *)

Definition exit (graceful : bool) (reason : option string) : M unit :=
  if graceful then
    (if truthy_str reason then
       log INFO ("Quitting gracefully... (Reason: "
                 ++ match reason with Some r => r | None => "None" end ++ ")")
     else
       log INFO "Quitting gracefully...") ;;
    ds <- get_dedicatedserver ;;
    running <- py_and (truthy ds)
                 (with_ds "status" (fun d =>
                    ret (status_in (status d) [RUNNING; STARTING]))) ;;
    if running then
      (* If no RCON is connected while running or starting, simply kill *)
      conn <- with_ds "rcon" (fun d => ret (connected (rcon d))) ;;
      if negb conn then
        with_ds "kill" (fun _ => emit DsKill)
      else
        log DEBUG "Shutting down Dedicated Server before quitting..." ;;
        with_ds "shutdown" (fun _ => emit DsShutdown)
    else
      log INFO "Goodbye!" ;;
      log DEBUG "Quitting with exit code 0..." ;;
      sys_exit 0
  else
    (if truthy_str reason then
       log INFO ("Quitting... (Reason: "
                 ++ match reason with Some r => r | None => "None" end ++ ")")
     else
       log INFO "Quitting...") ;;
    (* Kill server if it's running or not *)
    ds <- get_dedicatedserver ;;
    when (truthy ds) (with_ds "kill" (fun _ => emit DsKill)) ;;
    (* Give short time to send status update *)
    st <- get_status_thread ;;
    when (truthy st)
      (with_status_thread "update_status" (fun _ =>
         emit (StatusUpdate false "Server was forcibly closed"))) ;;
    sleep 100 ;;
    sys_exit 1.

(** [user_exit], the SIGINT handler. *)
Definition user_exit : M unit :=
  exit true (Some "Received SIGINT signal").

(** ** The collaborators *)

(** How a subprocess call ends: [Popen] or [wait] raises ([TimeoutExpired]
    when the timeout runs out), or the process exits with a code. *)
Inductive ProcResult : Type :=
| ProcRaises (e : PyExn)
| ProcExited (code : Z).

(** The answers of everything outside the launcher class.  [Version] is the
    type [packaging.version.parse] returns; [version_parse] is [None] where
    it raises [InvalidVersion].  An answer can be an exception where the
    launcher calls the collaborator inside a [try] block; the other calls
    are taken to return. *)
Set Implicit Arguments.
Record Env (Version : Type) := {
  parse_input : string -> ParseResult;
  environ : dict;
  run_process : list string -> dict -> string -> Z -> ProcResult;
  net_test_local : string -> Z -> bool -> bool;
  net_test_nonlocal : string -> Z -> bool;
  stats_response : string -> PyExn + json;
  version_parse : string -> option Version;
  version_gt : Version -> Version -> bool;
  check_api_health : bool;
  check_ports_free : bool;
  ds_start : PyExn + bool;
  dl_depotdownloader : string -> string -> Disk -> Disk;
  update_app : string -> string -> string -> string -> Disk -> bool * Disk;
  abspath : string -> string;
  which : string -> option string;
  getcwd : string;
  ensure_toml_config : string -> PyExn + LauncherConfig;
  json_dumps : LauncherConfig -> string;
  new_dedicatedserver : Launcher -> AstroDedicatedServer
}.
Unset Implicit Arguments.

(** ** Attribute assignment *)

Definition set_dedicatedserver (v : option AstroDedicatedServer) (l : Launcher)
  : Launcher :=
  {| dedicatedserver := Bound v; status_thread := status_thread l;
     config_path := config_path l; config := config l;
     wineexec := wineexec l; wineserverexec := wineserverexec l;
     launcherPath := launcherPath l; depotdl_path := depotdl_path l;
     buildversion := buildversion l; cmd_queue := cmd_queue l;
     notifications := notifications l |}.

Definition set_status_thread (v : option StatusUpdaterThread) (l : Launcher)
  : Launcher :=
  {| dedicatedserver := dedicatedserver l; status_thread := Bound v;
     config_path := config_path l; config := config l;
     wineexec := wineexec l; wineserverexec := wineserverexec l;
     launcherPath := launcherPath l; depotdl_path := depotdl_path l;
     buildversion := buildversion l; cmd_queue := cmd_queue l;
     notifications := notifications l |}.

Definition set_config_path (v : string) (l : Launcher) : Launcher :=
  {| dedicatedserver := dedicatedserver l; status_thread := status_thread l;
     config_path := Some v; config := config l;
     wineexec := wineexec l; wineserverexec := wineserverexec l;
     launcherPath := launcherPath l; depotdl_path := depotdl_path l;
     buildversion := buildversion l; cmd_queue := cmd_queue l;
     notifications := notifications l |}.

Definition set_config (v : LauncherConfig) (l : Launcher) : Launcher :=
  {| dedicatedserver := dedicatedserver l; status_thread := status_thread l;
     config_path := config_path l; config := v;
     wineexec := wineexec l; wineserverexec := wineserverexec l;
     launcherPath := launcherPath l; depotdl_path := depotdl_path l;
     buildversion := buildversion l; cmd_queue := cmd_queue l;
     notifications := notifications l |}.

Definition set_wine (w ws : option string) (l : Launcher) : Launcher :=
  {| dedicatedserver := dedicatedserver l; status_thread := status_thread l;
     config_path := config_path l; config := config l;
     wineexec := w; wineserverexec := ws;
     launcherPath := launcherPath l; depotdl_path := depotdl_path l;
     buildversion := buildversion l; cmd_queue := cmd_queue l;
     notifications := notifications l |}.

Definition set_launcherPath (v : string) (l : Launcher) : Launcher :=
  {| dedicatedserver := dedicatedserver l; status_thread := status_thread l;
     config_path := config_path l; config := config l;
     wineexec := wineexec l; wineserverexec := wineserverexec l;
     launcherPath := Some v; depotdl_path := depotdl_path l;
     buildversion := buildversion l; cmd_queue := cmd_queue l;
     notifications := notifications l |}.

Definition set_depotdl_path (v : option string) (l : Launcher) : Launcher :=
  {| dedicatedserver := dedicatedserver l; status_thread := status_thread l;
     config_path := config_path l; config := config l;
     wineexec := wineexec l; wineserverexec := wineserverexec l;
     launcherPath := launcherPath l; depotdl_path := v;
     buildversion := buildversion l; cmd_queue := cmd_queue l;
     notifications := notifications l |}.

Definition set_buildversion (v : option string) (l : Launcher) : Launcher :=
  {| dedicatedserver := dedicatedserver l; status_thread := status_thread l;
     config_path := config_path l; config := config l;
     wineexec := wineexec l; wineserverexec := wineserverexec l;
     launcherPath := launcherPath l; depotdl_path := depotdl_path l;
     buildversion := v; cmd_queue := cmd_queue l;
     notifications := notifications l |}.

Definition set_cmd_queue (v : list ParsedCommand) (l : Launcher) : Launcher :=
  {| dedicatedserver := dedicatedserver l; status_thread := status_thread l;
     config_path := config_path l; config := config l;
     wineexec := wineexec l; wineserverexec := wineserverexec l;
     launcherPath := launcherPath l; depotdl_path := depotdl_path l;
     buildversion := buildversion l; cmd_queue := v;
     notifications := notifications l |}.

Definition set_notifications (v : list NotificationHandler) (l : Launcher)
  : Launcher :=
  {| dedicatedserver := dedicatedserver l; status_thread := status_thread l;
     config_path := config_path l; config := config l;
     wineexec := wineexec l; wineserverexec := wineserverexec l;
     launcherPath := launcherPath l; depotdl_path := depotdl_path l;
     buildversion := buildversion l; cmd_queue := cmd_queue l;
     notifications := v |}.

(** [self.<attr> = v] *)
Definition assign (f : Launcher -> Launcher) : M unit :=
  l <- get_self ;; set_self (f l).

(** The four configuration fields [__init__] overwrites. *)
Definition with_paths (astro wine logp : string) (dbg : bool)
    (c : LauncherConfig) : LauncherConfig :=
  {| AutoUpdateServer := AutoUpdateServer c;
     CheckNetwork := CheckNetwork c;
     OverwritePublicIP := OverwritePublicIP c;
     notifications_cfg := notifications_cfg c;
     status_cfg := status_cfg c;
     LogDebugMessages := dbg;
     AstroServerPath := astro;
     OverrideWinePath := OverrideWinePath c;
     WinePrefixPath := wine;
     WineBootTimeout := WineBootTimeout c;
     LogPath := logp;
     DisableEncryption := DisableEncryption c;
     WrapperPath := WrapperPath c |}.

Definition with_AstroServerPath (v : string) (c : LauncherConfig) :=
  with_paths v (WinePrefixPath c) (LogPath c) (LogDebugMessages c) c.
Definition with_WinePrefixPath (v : string) (c : LauncherConfig) :=
  with_paths (AstroServerPath c) v (LogPath c) (LogDebugMessages c) c.
Definition with_LogPath (v : string) (c : LauncherConfig) :=
  with_paths (AstroServerPath c) (WinePrefixPath c) v (LogDebugMessages c) c.
Definition with_LogDebugMessages (v : bool) (c : LauncherConfig) :=
  with_paths (AstroServerPath c) (WinePrefixPath c) (LogPath c) v c.

(** The object before [__init__] has assigned anything. *)
Definition blank : Launcher := {|
  dedicatedserver := Unbound; status_thread := Unbound;
  config_path := None; config := default_config;
  wineexec := None; wineserverexec := None;
  launcherPath := None; depotdl_path := None;
  buildversion := None; cmd_queue := [];
  notifications := []
|}.

(** A result of a collaborator that is a value or an exception. *)
Definition lift {A} (r : PyExn + A) : M A :=
  match r with inl e => raise e | inr a => ret a end.

Definition pair_eqb (a b : bool * bool) : bool :=
  Bool.eqb (fst a) (fst b) && Bool.eqb (snd a) (snd b).

(** ** The methods of [AstroTuxLauncher] *)

Section Methods.

Context {Version : Type}.
Variable env : Env Version.

(** [check_ds_executable] *)
Definition check_ds_executable : M bool :=
  l <- get_self ;;
  d <- get_disk ;;
  let execpath := path_join (AstroServerPath (config l)) DS_EXECUTABLE in
  ret (path_exists d execpath && path_isfile d execpath).

(** [on_input]: the callback of the console thread *)
Definition on_input (input_string : string) : M unit :=
  match parse_input env input_string with
  | ParseOk result =>
      if is_help (cmd result) then
        (* a help command has nothing to be done later *)
        log INFO (message result)
      else
        assign (fun l => set_cmd_queue (cmd_queue l ++ [result])%list l)
  | ParseError msg =>
      log WARNING msg
  end.

(** [subprocess.Popen(...)] followed by [wait(timeout=...)] *)
Definition popen_wait (argv : list string) (e : dict) (cwd : string)
    (timeout : Z) : M Z :=
  emit (Popen argv e cwd timeout) ;;
  match run_process env argv e cwd timeout with
  | ProcRaises x => raise x
  | ProcExited code => ret code
  end.

(** The command line and the environment of wineboot. *)
Definition wineboot_cmd (l : Launcher) : list (option string) :=
  let cmd := [wineexec l; Some "wineboot"] in
  if truthy_str (WrapperPath (config l)) then WrapperPath (config l) :: cmd
  else cmd.

Definition wineboot_env (l : Launcher) : dict :=
  let e := environ env in
  let e := if dict_has "DISPLAY" e then dict_del "DISPLAY" e else e in
  let e := dict_set "WINEPREFIX" (WinePrefixPath (config l)) e in
  dict_set "WINEDEBUG" "-all" e.

(** [update_wine_prefix] *)
Definition update_wine_prefix : M bool :=
  log DEBUG "Ensuring WINE prefix is setup..." ;;
  l <- get_self ;;
  let timeout := WineBootTimeout (config l) in
  let e := wineboot_env l in
  match all_strings 0 (wineboot_cmd l) with
  | inl i =>
      raise (TypeError ("sequence item " ++ str_of_Z i
                        ++ ": expected str instance, NoneType found"))
  | inr argv =>
      log DEBUG ("Executing command '" ++ String.concat " " argv
                 ++ "' in WINE prefix '" ++ WinePrefixPath (config l)
                 ++ "'...") ;;
      r <- try_except
             (code <- popen_wait argv e (AstroServerPath (config l)) timeout ;;
              ret (Some code))
             (fun x =>
                if is_timeout_expired x then
                  log DEBUG ("Wine process took longer than "
                             ++ str_of_Z timeout ++ " seconds, aborting") ;;
                  ret None
                else
                  log ERROR ("Error occurred during updating of wine prefix: "
                             ++ exn_str x) ;;
                  ret None) ;;
      match r with
      | Some code => ret (code =? 0)
      | None => ret false
      end
  end.

Definition probe_local (ip : string) (port : Z) (tcp : bool) : M bool :=
  emit (NetTestLocal ip port tcp) ;;
  ret (net_test_local env ip port tcp).

Definition probe_nonlocal (ip : string) (port : Z) : M bool :=
  emit (NetTestNonlocal ip port) ;;
  ret (net_test_nonlocal env ip port).

(** [check_network_config] *)
Definition check_network_config : M unit :=
  ds <- get_dedicatedserver ;;
  if negb (truthy ds) then
    raise (ValueError "Dedcated Server has to be created first")
  else
    log INFO "Checking Network Configuration..." ;;
    server_local_reachable <-
      with_ds "ds_config" (fun d =>
        probe_local (PublicIP (ds_config d)) (Port (engine_config d)) false) ;;
    server_nonlocal_reachable <-
      with_ds "ds_config" (fun d =>
        probe_nonlocal (PublicIP (ds_config d)) (Port (engine_config d))) ;;
    let test_res := (server_local_reachable, server_nonlocal_reachable) in
    (if pair_eqb test_res (true, true) then
       log INFO "Network configuration looks good"
     else if pair_eqb test_res (false, true) then
       log WARNING "The Server is not accessible from the local network" ;;
       log WARNING "This usually indicates an issue with NAT Loopback"
     else if pair_eqb test_res (true, false) then
       log WARNING
         "The server can be reached locally, but not from outside of the local network" ;;
       with_ds "engine_config" (fun d =>
         log WARNING ("Make sure the Server Port ("
                      ++ str_of_Z (Port (engine_config d))
                      ++ ") is forwarded for UDP traffic"))
     else if pair_eqb test_res (false, false) then
       log WARNING "The Server is completely unreachable" ;;
       with_ds "engine_config" (fun d =>
         log WARNING ("Make sure the Server Port ("
                      ++ str_of_Z (Port (engine_config d))
                      ++ ") is forwarded for UDP traffic and check firewall settings"))
     else ret tt) ;;
    reachable <-
      with_ds "ds_config" (fun d =>
        probe_local (PublicIP (ds_config d)) (ConsolePort (ds_config d)) true) ;;
    let rcon_local_blocked := negb reachable in
    if rcon_local_blocked then
      log INFO "RCON network configuration looks good"
    else
      with_ds "ds_config" (fun d =>
        log WARNING ("SECURITY ALERT: The RCON Port ("
                     ++ str_of_Z (ConsolePort (ds_config d))
                     ++ ") is accessible from outside")) ;;
      log WARNING
        "SECURITY ALERT: This potentially allows access to the Remote Console from outside your network" ;;
      log WARNING "SECURITY ALERT: Disable this ASAP to prevent issues" ;;
      (* kept from AstroLauncher *)
      sleep 5000.

(** [steam.dl_depotdownloader] and [steam.update_app] change the disk. *)
Definition steam_dl_depotdownloader (dir base : string) : M unit :=
  emit (DlDepotDownloader dir base) ;;
  d <- get_disk ;;
  set_disk (dl_depotdownloader env dir base d).

Definition steam_update_app (exec_path app os directory : string) : M bool :=
  emit (UpdateApp exec_path app os directory) ;;
  d <- get_disk ;;
  let '(success, d') := update_app env exec_path app os directory d in
  set_disk d' ;;
  ret success.

(** A path handed to [os.path]: [None] is a [TypeError]. *)
Definition as_path (p : option string) : M string :=
  match p with
  | Some s => ret s
  | None =>
      raise (TypeError
        "expected str, bytes or os.PathLike object, not NoneType")
  end.

(** [update_server] *)
Definition update_server : M unit :=
  l <- get_self ;;
  p <- as_path (depotdl_path l) ;;
  d <- get_disk ;;
  (* If DepotDownloader executable doesn't exists yet, download it *)
  when (negb (path_exists d p))
    (log INFO "DepotDownloader not found, downloading..." ;;
     steam_dl_depotdownloader (dirname p) (basename p)) ;;
  log INFO "Updating Astroneer Dedicated Server app from Steam..." ;;
  success <- steam_update_app p "728470" "windows"
               (AstroServerPath (config l)) ;;
  d <- get_disk ;;
  let bv := read_build_version d (AstroServerPath (config l)) in
  assign (set_buildversion bv) ;;
  if success && truthy bv then
    log INFO ("Sucessfully updated Astroneer Dedicated Server to version "
              ++ match bv with Some v => v | None => "None" end)
  else
    log ERROR "Error while updating Astroneer Dedicated Server".

(** [version.parse(v)]: a [TypeError] unless [v] is a string. *)
Definition version_parse_json (v : json) : PyExn + Version :=
  match v with
  | JStr s =>
      match version_parse env s with
      | Some ver => inr ver
      | None => inl (InvalidVersion ("Invalid version: '" ++ s ++ "'"))
      end
  | _ => inl (TypeError "expected string or bytes-like object")
  end.

Definition parse_version (v : json) : M Version := lift (version_parse_json v).

(** The text an f-string gives the fetched version once it has parsed. *)
Definition json_text (v : json) : string :=
  match v with JStr s => s | _ => "" end.

(** [json.load(get_request(url))] *)
Definition fetch_json (url : string) : M json :=
  emit (GetRequest url) ;;
  lift (stats_response env url).

(** Lines 420 to 442 of [check_server_update]: the values of the locals
    [do_update] and [installed] when the first [if] statement is through. *)
Definition check_update_needed : M (bool * bool) :=
  l <- get_self ;;
  d <- get_disk ;;
  let oldversion := read_build_version d (AstroServerPath (config l)) in
  missing <-
    match oldversion with
    | None => ret true
    | Some _ => ok <- check_ds_executable ;; ret (negb ok)
    end ;;
  if missing then
    (* No version is present yet or executable not present *)
    log WARNING "Astroneer Dedicated Server is not installed yet" ;;
    ret (true, false)
  else
    let old := match oldversion with Some v => v | None => "" end in
    do_update <-
      try_except
        (data <- fetch_json ASTRO_SERVER_STATS_URL ;;
         stats <- lift (subscript data "stats") ;;
         newversion <- lift (subscript stats "latestVersion") ;;
         nv <- parse_version newversion ;;
         ov <- parse_version (JStr old) ;;
         if version_gt env nv ov then
           log WARNING ("Astroneer Dedicated Server update available ("
                        ++ old ++ " -> " ++ json_text newversion ++ ")") ;;
           ret true
         else ret false)
        (fun e =>
           log ERROR ("Error occured while checking for newest version: "
                      ++ exn_str e) ;;
           log WARNING "Trying server update blindly..." ;;
           ret true) ;;
    ret (do_update, true).

(** Lines 444 to 459 of [check_server_update]. *)
Definition apply_update_decision (force_update do_update installed : bool)
  : M unit :=
  l <- get_self ;;
  if do_update then
    when (AutoUpdateServer (config l))
      (if installed then
         log INFO "Automatically updating Astroneer Dedicated Server..."
       else
         log INFO "Automatically installing Astroneer Dedicated Server...") ;;
    if AutoUpdateServer (config l) || force_update then
      update_server
    else
      log INFO "Not installing/updating automatically"
  else
    if force_update then
      log INFO "Noting to do"
    else
      log INFO
        "No update available, the Astroneer Dedicated Server is on the newest version".

(** [check_server_update] *)
Definition check_server_update (force_update : bool) : M unit :=
  r <- check_update_needed ;;
  apply_update_decision force_update (fst r) (snd r).

(** [start_server] *)
Definition start_server : M unit :=
  (* Look for a DS update and install it if wanted *)
  check_server_update false ;;
  (* If Playfab API can't be reached, we can't continue *)
  healthy <- (emit ApiHealth ;; ret (check_api_health env)) ;;
  when (negb healthy)
    (log ERROR "Playfab API is unavailable. Are you connected to the internet?" ;;
     exit false (Some "Playfab API unavailable")) ;;
  (* Make sure wine prefix is ready *)
  prefix_ok <- update_wine_prefix ;;
  when (negb prefix_ok)
    (exit false (Some "Error while updating WINE prefix")) ;;
  (* The ports of the Server and of RCON have to be available *)
  ports_free <- with_ds "check_ports_free" (fun _ =>
                  emit DsCheckPortsFree ;; ret (check_ports_free env)) ;;
  when (negb ports_free)
    (exit false (Some "Port not available")) ;;
  l <- get_self ;;
  when (CheckNetwork (config l)) check_network_config ;;
  log DEBUG "Starting input thread..." ;;
  emit InputThreadStart ;;
  (* Prepare and start dedicated server *)
  return_now <-
    try_except
      (started <- with_ds "start" (fun _ =>
                    emit DsStart ;; lift (ds_start env)) ;;
       ret (negb started))
      (fun e =>
         log ERROR ("There as an error while starting the Dedicated Server: "
                    ++ exn_str e) ;;
         exit false (Some "Error while starting Dedicated Server") ;;
         ret false) ;;
  if return_now then ret tt
  else
    log INFO "Enter 'help' to get help about command usage" ;;
    with_status_thread "update_status" (fun _ =>
      emit (StatusUpdate true "Server is running")) ;;
    (* If sending of status updates is enabled, start thread *)
    l <- get_self ;;
    when (SendStatus (status_cfg (config l)))
      (log INFO "Sending of status updates is enabled" ;;
       with_status_thread "start" (fun _ => emit StatusThreadStart)) ;;
    log DEBUG "Starting server loop..." ;;
    with_ds "server_loop" (fun _ => emit DsServerLoop).

(** The notification handlers [__init__] registers. *)
Definition setup_notifications : M unit :=
  assign (set_notifications []) ;;
  assign (fun l =>
    set_notifications (notifications l ++ [LoggingNotificationHandler])%list l) ;;
  l <- get_self ;;
  let n := notifications_cfg (config l) in
  match method n with
  | DISCORD =>
      match discord n with
      | None =>
          raise (AttributeError
            "'NoneType' object has no attribute 'webhookURL'")
      | Some dc =>
          match webhookURL dc with
          | Some url =>
              if negb (String.eqb url "") then
                assign (fun l =>
                  set_notifications
                    (notifications l
                     ++ [DiscordNotificationHandler url (name n)])%list l)
              else
                log WARNING
                  "Discord Webhook URL is not set in config, not sending Discord notifications"
          | None =>
              log WARNING
                "Discord Webhook URL is not set in config, not sending Discord notifications"
          end
      end
  | NTFY =>
      match ntfy n with
      | None =>
          raise (AttributeError "'NoneType' object has no attribute 'topic'")
      | Some nc =>
          match topic nc with
          | Some t =>
              if negb (String.eqb t "") then
                assign (fun l =>
                  set_notifications
                    (notifications l
                     ++ [NTFYNotificationHandler t (serverURL nc) (name n)])%list
                    l)
              else
                log WARNING
                  "ntfy topic is not set in config, not sending ntfy notifications"
          | None =>
              log WARNING
                "ntfy topic is not set in config, not sending ntfy notifications"
          end
      end
  | NONE => ret tt
  end.

(** [__init__], lines 191 to 213: the configuration and its overrides. *)
Definition init_config (cfg_path : string) (astro_path : option string)
    (force_debug_log : bool) : M unit :=
  try_except
    (assign (set_config_path (abspath env cfg_path)) ;;
     log INFO ("Configuration file path: " ++ abspath env cfg_path) ;;
     c <- lift (ensure_toml_config env (abspath env cfg_path)) ;;
     assign (set_config c))
    (fun e =>
       log ERROR ("Error while loading config file (" ++ exn_name e ++ "): "
                  ++ exn_str e) ;;
       log ERROR "Please check the config path parameter and/or config file" ;;
       exit false None) ;;
  (* If cli parameter is specified, it overrides the config value *)
  match astro_path with
  | Some a => assign (fun l => set_config (with_AstroServerPath a (config l)) l)
  | None => ret tt
  end ;;
  when force_debug_log
    (assign (fun l => set_config (with_LogDebugMessages true (config l)) l)) ;;
  (* Make sure we use absolute paths *)
  assign (fun l => set_config
    (with_AstroServerPath (abspath env (AstroServerPath (config l))) (config l)) l) ;;
  assign (fun l => set_config
    (with_WinePrefixPath (abspath env (WinePrefixPath (config l))) (config l)) l) ;;
  assign (fun l => set_config
    (with_LogPath (abspath env (LogPath (config l))) (config l)) l).

(** [__init__], lines 215 to 227: the wine executables. *)
Definition init_wine : M unit :=
  assign (set_wine (which env "wine") (which env "wineserver")) ;;
  l <- get_self ;;
  d <- get_disk ;;
  match OverrideWinePath (config l) with
  | Some o =>
      when (path_isfile d o)
        (assign (set_wine (Some (abspath env o))
                   (Some (path_join (dirname (abspath env o)) "wineserver"))))
  | None => ret tt
  end ;;
  l <- get_self ;;
  when (negb (truthy (wineexec l)) || negb (truthy (wineserverexec l)))
    (log ERROR "Wine (or Wineserver) executable not found!" ;;
     log ERROR "Make sure that you have wine installed and accessible" ;;
     log ERROR
       "or set 'OverrideWinePath' config option to the path of the wine executable" ;;
     exit false None).

(** [__init__], lines 235 to 253: the path of DepotDownloader. *)
Definition init_depotdl (depotdl_exec : option string) : M unit :=
  assign (set_depotdl_path None) ;;
  d <- get_disk ;;
  (* If argument is given, file has to exist *)
  when (truthy_str depotdl_exec)
    (let given := match depotdl_exec with Some x => x | None => "" end in
     let exec := match which env given with Some w => w | None => given end in
     if path_isfile d exec then
       assign (set_depotdl_path (Some (abspath env exec))) ;;
       log INFO ("DepotDownloader path overridden: " ++ abspath env exec)
     else
       log WARNING
         "The given DepotDownloader path doesn't point to a file, using default path") ;;
  l <- get_self ;;
  when (negb (truthy (depotdl_path l)))
    (assign (set_depotdl_path (Some (abspath env DEPOTDL_PATH))) ;;
     emit (Makedirs (dirname (abspath env DEPOTDL_PATH)))).

(** [__init__] *)
Definition init (cfg_path : string) (astro_path depotdl_exec : option string)
    (force_debug_log : bool) : M unit :=
  assign (set_dedicatedserver None) ;;
  assign (set_status_thread None) ;;
  (* Setup basic logging *)
  emit (LoggingSetup "prepare") ;;
  emit (LoggingSetup "setup_console") ;;
  init_config cfg_path astro_path force_debug_log ;;
  (* Apply wine path override if possible and check that is exists *)
  init_wine ;;
  (* Finish setting up logging *)
  emit (LoggingSetup "set_log_debug") ;;
  emit (LoggingSetup "setup_logfile") ;;
  assign (set_launcherPath (getcwd env)) ;;
  init_depotdl depotdl_exec ;;
  (* Log some information about loaded paths, configs, etc. *)
  log INFO ("Working directory: " ++ getcwd env) ;;
  l <- get_self ;;
  log DEBUG ("Launcher configuration (including overrides):"
             ++ String (ascii_of_nat 10) (json_dumps env (config l))) ;;
  (* Initialize console command parser *)
  assign (set_cmd_queue []) ;;
  (* Initialize thread for sending status updates to endpoint *)
  assign (fun l => set_status_thread
    (Some {| endpoint := EndpointURL (status_cfg (config l));
             interval := Interval (status_cfg (config l)) |}) l) ;;
  (* Initialize notification objects *)
  setup_notifications ;;
  (* Create Dedicated Server object *)
  assign (fun l => set_dedicatedserver (Some (new_dedicatedserver env l)) l).

End Methods.

(** ** Dotted versions

    [packaging.version] on versions that are a release segment only
    (["1.32.4.0"]): the key of a version is its tuple of numbers with the
    trailing zeros dropped, and keys compare as tuples.  Versions with an
    epoch, a pre, post or dev release or a local label are outside this
    instance. *)

Module Dotted.

Definition Version : Type := list N.

Definition digit_of (c : ascii) : option N :=
  let n := N_of_ascii c in
  if ((48 <=? n) && (n <=? 57))%N then Some (n - 48)%N else None.

Definition dot : ascii := "."%char.

(** The numbers between the dots; [cur] is the number being read. *)
Fixpoint release (s : string) (cur : option N) (acc : list N)
  : option (list N) :=
  match s with
  | EmptyString =>
      match cur with
      | Some n => Some (rev (n :: acc))
      | None => None
      end
  | String c r =>
      if Ascii.eqb c dot then
        match cur with
        | Some n => release r None (n :: acc)
        | None => None
        end
      else
        match digit_of c with
        | Some k =>
            release r
              (Some (10 * match cur with Some n => n | None => 0 end + k)%N)
              acc
        | None => None
        end
  end.

Definition parse (s : string) : option Version := release s None [].

(** Drop the trailing zeros. *)
Fixpoint key (v : list N) : list N :=
  match v with
  | [] => []
  | n :: r =>
      match key r with
      | [] => if (n =? 0)%N then [] else [n]
      | k => n :: k
      end
  end.

(** Tuple comparison. *)
Fixpoint compare (a b : list N) : comparison :=
  match a, b with
  | [], [] => Eq
  | [], _ :: _ => Lt
  | _ :: _, [] => Gt
  | x :: a', y :: b' =>
      match (x ?= y)%N with
      | Eq => compare a' b'
      | c => c
      end
  end.

Definition gt (a b : Version) : bool :=
  match compare (key a) (key b) with Gt => true | _ => false end.

End Dotted.

(** ** Observations on a run *)

Definition is_log (e : Event) : bool :=
  match e with Log _ _ => true | _ => false end.

(** The calls of a run other than the log lines. *)
Definition effects (t : list Event) : list Event :=
  filter (fun e => negb (is_log e)) t.

(** Both attributes [exit] reads are bound, to an object or to [None]. *)
Definition attrs_bound (l : Launcher) (o : option AstroDedicatedServer)
    (t : option StatusUpdaterThread) : Prop :=
  dedicatedserver l = Bound o /\ status_thread l = Bound t.

(** What [__init__] has assigned when it returns. *)
Definition constructed (l : Launcher) : Prop :=
  exists ds t w ws p,
    dedicatedserver l = Bound (Some ds) /\
    status_thread l = Bound (Some t) /\
    wineexec l = Some w /\
    wineserverexec l = Some ws /\
    depotdl_path l = Some p.

(** ** A sample installation *)

Definition sample_ds (st : ServerStatus) (conn : bool) : AstroDedicatedServer :=
  {| status := st;
     rcon := {| connected := conn |};
     ds_config := {| PublicIP := "203.0.113.7"; ConsolePort := 1234 |};
     engine_config := {| Port := 7777 |} |}.

Definition sample_thread : StatusUpdaterThread :=
  {| endpoint := ""; interval := 120 |}.

(** A launcher as [__init__] leaves it. *)
Definition sample_launcher (st : ServerStatus) (conn : bool) : Launcher :=
  {| dedicatedserver := Bound (Some (sample_ds st conn));
     status_thread := Bound (Some sample_thread);
     config_path := Some "/srv/astro/launcher.toml";
     config := default_config;
     wineexec := Some "/usr/bin/wine";
     wineserverexec := Some "/usr/bin/wineserver";
     launcherPath := Some "/srv/astro";
     depotdl_path := Some "/srv/astro/libs/depotdownloader";
     buildversion := None;
     cmd_queue := [];
     notifications := [LoggingNotificationHandler] |}.

(** The launcher after the first two assignments of [__init__]. *)
Definition early_launcher : Launcher :=
  set_status_thread None (set_dedicatedserver None blank).

(** A disk with the server installed at version [v]. *)
Definition sample_disk (v : option string) : Disk :=
  {| path_exists := fun _ => true;
     path_isfile := fun _ => true;
     read_build_version := fun _ => v |}.

Definition sample_state (st : ServerStatus) (conn : bool) : St :=
  {| self := sample_launcher st conn; disk := sample_disk (Some "1.3.0") |}.

Definition early_state : St :=
  {| self := early_launcher; disk := sample_disk None |}.


(** Collaborators for the samples: the stats endpoint answers [stats],
    wineboot ends as [proc], the health check and the port check answer
    [health] and [ports_free].  The game port is reachable from outside
    only, the remote-console port is reachable; the console knows two
    verbs. *)
Definition sample_env (stats : PyExn + json) (proc : ProcResult)
    (health ports_free : bool) : Env Dotted.Version :=
  {| parse_input := fun line =>
       if String.eqb line "help" then
         ParseOk {| cmd := HELP; message := "Available commands: ...";
                    args := [] |}
       else if String.eqb line "shutdown" then
         ParseOk {| cmd := Verb "shutdown"; message := ""; args := [] |}
       else ParseError ("Unknown command: " ++ line);
     environ := [("DISPLAY", ":0"); ("HOME", "/root")];
     run_process := fun _ _ _ _ => proc;
     net_test_local := fun _ _ tcp => tcp;
     net_test_nonlocal := fun _ _ => true;
     stats_response := fun _ => stats;
     version_parse := Dotted.parse;
     version_gt := Dotted.gt;
     check_api_health := health;
     check_ports_free := ports_free;
     ds_start := inr true;
     dl_depotdownloader := fun _ _ d => d;
     update_app := fun _ _ _ _ d => (true, d);
     abspath := fun p => p;
     which := fun c =>
       if String.eqb c "wine" then Some "/usr/bin/wine"
       else if String.eqb c "wineserver" then Some "/usr/bin/wineserver"
       else None;
     getcwd := "/srv/astro";
     ensure_toml_config := fun _ => inr default_config;
     json_dumps := fun _ => "{}";
     new_dedicatedserver := fun _ => sample_ds STOPPED false |}.

(** The stats document with [v] as the latest version. *)
Definition stats_with (v : string) : PyExn + json :=
  inr (JObj [("stats", JObj [("latestVersion", JStr v)])]).

(** ** The trace of [exit] *)

(** The first line [exit] logs. *)
Definition quitting_line (graceful : bool) (reason : option string) : Event :=
  let q := if graceful then "Quitting gracefully..." else "Quitting..." in
  if truthy_str reason then
    Log INFO (q ++ " (Reason: "
              ++ match reason with Some r => r | None => "None" end ++ ")")
  else Log INFO q.

Definition forced_report : Event :=
  StatusUpdate false "Server was forcibly closed".

(** The forced exit as claimed: the child is killed whenever the handle
    exists, the final report is pushed, the exit code is not zero. *)
Definition forced_exit_claim (s : St) (reason : option string) : Prop :=
  let r := exit false reason s in
  (forall ds, dedicatedserver (self s) = Bound (Some ds) ->
     In DsKill (events r)) /\
  In forced_report (events r) /\
  exists code, outcome r = Exit code /\ code <> 0.

(** ** The trace of [check_network_config] *)

(** The lines logged between the two probes of the game port and the probe
    of the remote-console port. *)
Fixpoint after_nonlocal_probe (t : list Event) : list Event :=
  match t with
  | [] => []
  | NetTestNonlocal _ _ :: r => r
  | _ :: r => after_nonlocal_probe r
  end.

Fixpoint until_probe (t : list Event) : list Event :=
  match t with
  | [] => []
  | NetTestLocal _ _ _ :: _ => []
  | e :: r => e :: until_probe r
  end.

Definition game_port_diagnostic (t : list Event) : list Event :=
  until_probe (after_nonlocal_probe t).

(** What follows the TCP probe of the remote-console port. *)
Fixpoint rcon_diagnostic (t : list Event) : list Event :=
  match t with
  | [] => []
  | NetTestLocal _ _ true :: r => r
  | _ :: r => rcon_diagnostic r
  end.

(** The security warning and its pause. *)
Definition security_alert (console_port : Z) : list Event :=
  [Log WARNING ("SECURITY ALERT: The RCON Port (" ++ str_of_Z console_port
                ++ ") is accessible from outside");
   Log WARNING
     "SECURITY ALERT: This potentially allows access to the Remote Console from outside your network";
   Log WARNING "SECURITY ALERT: Disable this ASAP to prevent issues";
   Sleep 5000].

(** The advisory lines of the game port, case by case. *)
Definition game_port_lines (port : Z) (local nonlocal : bool) : list Event :=
  match local, nonlocal with
  | true, true => [Log INFO "Network configuration looks good"]
  | false, true =>
      [Log WARNING "The Server is not accessible from the local network";
       Log WARNING "This usually indicates an issue with NAT Loopback"]
  | true, false =>
      [Log WARNING
         "The server can be reached locally, but not from outside of the local network";
       Log WARNING ("Make sure the Server Port (" ++ str_of_Z port
                    ++ ") is forwarded for UDP traffic")]
  | false, false =>
      [Log WARNING "The Server is completely unreachable";
       Log WARNING ("Make sure the Server Port (" ++ str_of_Z port
                    ++ ") is forwarded for UDP traffic and check firewall settings")]
  end.

(** ** The wineboot call *)

Definition wineboot_argv (l : Launcher) : list string :=
  match all_strings 0 (wineboot_cmd l) with
  | inr argv => argv
  | inl _ => []
  end.

(** How the wineboot subprocess of [update_wine_prefix] ends. *)
Definition wineboot_result {Version} (env : Env Version) (l : Launcher)
  : ProcResult :=
  run_process env (wineboot_argv l) (wineboot_env env l)
    (AstroServerPath (config l)) (WineBootTimeout (config l)).

(** The line logged when the subprocess call raises. *)
Definition wineboot_failure_line (timeout : Z) (e : PyExn) : Event :=
  if is_timeout_expired e then
    Log DEBUG ("Wine process took longer than " ++ str_of_Z timeout
               ++ " seconds, aborting")
  else
    Log ERROR ("Error occurred during updating of wine prefix: " ++ exn_str e).

(** ** The decision of [check_server_update] *)

Section Decision.

Context {Version : Type}.
Variable env : Env Version.

(** The value [newversion] is bound to, or the exception on the way. *)
Definition fetched_version : PyExn + json :=
  match stats_response env ASTRO_SERVER_STATS_URL with
  | inl e => inl e
  | inr data =>
      match subscript data "stats" with
      | inl e => inl e
      | inr stats => subscript stats "latestVersion"
      end
  end.

(** What [read_build_version] and [check_ds_executable] give in a state. *)
Definition installed_version (s : St) : option string :=
  read_build_version (disk s) (AstroServerPath (config (self s))).

Definition executable_present (s : St) : bool :=
  let execpath := path_join (AstroServerPath (config (self s))) DS_EXECUTABLE in
  path_exists (disk s) execpath && path_isfile (disk s) execpath.

(** The fetched value parses as a version. *)
Definition parsed (v : json) : option Version :=
  match version_parse_json env v with
  | inr ver => Some ver
  | inl _ => None
  end.

(** The decision as claimed: an update is needed exactly in the install
    case, when the remote version cannot be fetched or parsed, or when the
    remote version is greater than the installed one. *)
Definition update_needed_claim (s : St) : Prop :=
  forall do_update installed,
    outcome (check_update_needed env s) = Ret (do_update, installed) ->
    (do_update = true <->
     (installed_version s = None \/ executable_present s = false)
     \/ (exists e, fetched_version = inl e)
     \/ (exists v, fetched_version = inr v /\ parsed v = None)
     \/ (exists v nv old ov,
           fetched_version = inr v /\ parsed v = Some nv /\
           installed_version s = Some old /\
           version_parse env old = Some ov /\
           version_gt env nv ov = true)).

End Decision.

(** The events of a version check and of an update. *)
Definition is_update_event (e : Event) : bool :=
  match e with
  | Log _ _ | GetRequest _ | DlDepotDownloader _ _ | UpdateApp _ _ _ _ => true
  | _ => false
  end.

Definition is_update_app (e : Event) : bool :=
  match e with UpdateApp _ _ _ _ => true | _ => false end.

(** A state with [v] as the installed version, the executable in place. *)
Definition installed_state (v : string) : St :=
  {| self := sample_launcher STOPPED false; disk := sample_disk (Some v) |}.

(** ** The trace of [start_server] *)

(** The calls that launch or run the child process. *)
Definition is_launch (e : Event) : bool :=
  match e with DsStart | DsServerLoop => true | _ => false end.

(** The three checks of the start sequence. *)
Definition is_api_health (e : Event) : bool :=
  match e with ApiHealth => true | _ => false end.
Definition is_popen (e : Event) : bool :=
  match e with Popen _ _ _ _ => true | _ => false end.
Definition is_ports_check (e : Event) : bool :=
  match e with DsCheckPortsFree => true | _ => false end.

Definition count (p : Event -> bool) (t : list Event) : nat :=
  length (filter p t).

(** The wineboot call succeeds. *)
Definition wineboot_ok {Version} (env : Env Version) (l : Launcher) : bool :=
  match wineboot_result env l with
  | ProcExited code => code =? 0
  | ProcRaises _ => false
  end.

(** ** What a run of [__init__] may do *)

(** The calls on the child process and on the status thread. *)
Definition touches_handle (e : Event) : bool :=
  match e with
  | DsKill | DsShutdown | DsStart | DsServerLoop | DsCheckPortsFree
  | StatusUpdate _ _ | StatusThreadStart => true
  | _ => false
  end.

(** The two exceptions of [__init__]: the notification method names a
    section of the configuration that is not there. *)
Definition config_error (e : PyExn) : Prop :=
  e = AttributeError "'NoneType' object has no attribute 'webhookURL'" \/
  e = AttributeError "'NoneType' object has no attribute 'topic'".

(** The exceptional postcondition of [__init__]. *)
Definition init_raises (e : PyExn) (s : St) : Prop := config_error e.

(** From state [s], [m] makes no call on the two handles and ends in a
    return that satisfies [Q], in exit code 1, or in an exception that
    satisfies [X]. *)
Definition wp {A} (m : M A) (Q : A -> St -> Prop) (X : PyExn -> St -> Prop)
    (s : St) : Prop :=
  filter touches_handle (events (m s)) = [] /\
  match outcome (m s) with
  | Ret a => Q a (final (m s))
  | Exit code => code = 1
  | Raise e => X e (final (m s))
  end.

(** What holds of the launcher along [__init__]: the two handles, and
    whether the wine executables and the DepotDownloader path are set. *)
Definition init_inv (o : option AstroDedicatedServer)
    (t : option StatusUpdaterThread) (wine depot : bool) (s : St) : Prop :=
  dedicatedserver (self s) = Bound o /\
  status_thread (self s) = Bound t /\
  (wine = true ->
   exists w ws, wineexec (self s) = Some w /\ wineserverexec (self s) = Some ws) /\
  (depot = true -> exists p, depotdl_path (self s) = Some p).

(** * The rest of the launcher *)

(** ** Observations used below *)

(** [d.get(k)] *)
Fixpoint dict_get (k : string) (d : dict) : option string :=
  match d with
  | [] => None
  | (k', v) :: r => if String.eqb k' k then Some v else dict_get k r
  end.

Definition is_get_request (e : Event) : bool :=
  match e with GetRequest _ => true | _ => false end.

Definition is_dl_depotdownloader (e : Event) : bool :=
  match e with DlDepotDownloader _ _ => true | _ => false end.

Definition is_net_test (e : Event) : bool :=
  match e with NetTestLocal _ _ _ | NetTestNonlocal _ _ => true | _ => false end.

(** The command line of wineboot for a launcher whose wine is [w]. *)
Definition wineboot_command (l : Launcher) (w : string) : list string :=
  (if truthy_str (WrapperPath (config l)) then
     match WrapperPath (config l) with Some wr => [wr] | None => [] end
   else []) ++ [w; "wineboot"].

(** ** The trace of a start whose checks pass *)

(** What [start_server] does once it has called [dedicatedserver.start()]. *)
Definition start_tail {Version} (env : Env Version) (l : Launcher)
  : list Event :=
  match ds_start env with
  | inl e =>
      [Log ERROR ("There as an error while starting the Dedicated Server: "
                  ++ exn_str e);
       quitting_line false (Some "Error while starting Dedicated Server");
       DsKill; forced_report; Sleep 100]
  | inr false => []
  | inr true =>
      [Log INFO "Enter 'help' to get help about command usage";
       StatusUpdate true "Server is running"]
      ++ (if SendStatus (status_cfg (config l)) then
            [Log INFO "Sending of status updates is enabled";
             StatusThreadStart]
          else [])
      ++ [Log DEBUG "Starting server loop..."; DsServerLoop]
  end.

(** The events after the call of [dedicatedserver.start()]. *)
Fixpoint after_start (t : list Event) : list Event :=
  match t with
  | [] => []
  | DsStart :: r => r
  | _ :: r => after_start r
  end.

(** The steps of the start sequence that precede the server loop. *)
Definition is_startup_step (e : Event) : bool :=
  match e with
  | ApiHealth | Popen _ _ _ _ | DsCheckPortsFree | InputThreadStart
  | DsStart => true
  | _ => false
  end.

(** The collaborators [env] with another answer of [dedicatedserver.start()]. *)
Definition with_ds_start {Version} (r : PyExn + bool) (env : Env Version)
  : Env Version :=
  {| parse_input := parse_input env;
     environ := environ env;
     run_process := run_process env;
     net_test_local := net_test_local env;
     net_test_nonlocal := net_test_nonlocal env;
     stats_response := stats_response env;
     version_parse := version_parse env;
     version_gt := version_gt env;
     check_api_health := check_api_health env;
     check_ports_free := check_ports_free env;
     ds_start := r;
     dl_depotdownloader := dl_depotdownloader env;
     update_app := update_app env;
     abspath := abspath env;
     which := which env;
     getcwd := getcwd env;
     ensure_toml_config := ensure_toml_config env;
     json_dumps := json_dumps env;
     new_dedicatedserver := new_dedicatedserver env |}.

(** ** The console thread *)

(** The console thread calls [on_input] once for each line it reads. *)
Definition feed {Version} (env : Env Version) (lines : list string) (s : St)
  : St :=
  fold_left (fun s line => final (on_input env line s)) lines s.

(** The command a line puts on the queue, if any. *)
Definition queued {Version} (env : Env Version) (line : string)
  : list ParsedCommand :=
  match parse_input env line with
  | ParseOk c => if is_help (cmd c) then [] else [c]
  | ParseError _ => []
  end.

(** ** What [__init__] computes *)

Section InitValues.

Context {Version : Type}.
Variable env : Env Version.

(** The configuration after the overrides of lines 202 to 213. *)
Definition configured (c : LauncherConfig) (astro_path : option string)
    (force_debug_log : bool) : LauncherConfig :=
  let c := match astro_path with
           | Some a => with_AstroServerPath a c
           | None => c
           end in
  let c := if force_debug_log then with_LogDebugMessages true c else c in
  let c := with_AstroServerPath (abspath env (AstroServerPath c)) c in
  let c := with_WinePrefixPath (abspath env (WinePrefixPath c)) c in
  with_LogPath (abspath env (LogPath c)) c.

(** The wine executables: the override when it points to a file, the ones
    on the search path otherwise. *)
Definition wine_paths (c : LauncherConfig) (d : Disk)
  : option string * option string :=
  match OverrideWinePath c with
  | Some o =>
      if path_isfile d o then
        (Some (abspath env o),
         Some (path_join (dirname (abspath env o)) "wineserver"))
      else (which env "wine", which env "wineserver")
  | None => (which env "wine", which env "wineserver")
  end.

(** The executable the [depotdl_exec] argument names. *)
Definition depotdl_given (depotdl_exec : option string) : string :=
  let given := match depotdl_exec with Some x => x | None => "" end in
  match which env given with Some w => w | None => given end.

(** The DepotDownloader argument is given and names a file. *)
Definition depotdl_accepted (d : Disk) (depotdl_exec : option string) : bool :=
  truthy_str depotdl_exec && path_isfile d (depotdl_given depotdl_exec).

Definition depotdl_final (d : Disk) (depotdl_exec : option string) : string :=
  if depotdl_accepted d depotdl_exec then
    abspath env (depotdl_given depotdl_exec)
  else abspath env DEPOTDL_PATH.

Definition depotdl_events (d : Disk) (depotdl_exec : option string)
  : list Event :=
  if truthy_str depotdl_exec then
    if path_isfile d (depotdl_given depotdl_exec) then
      [Log INFO ("DepotDownloader path overridden: "
                 ++ abspath env (depotdl_given depotdl_exec))]
    else
      [Log WARNING
         "The given DepotDownloader path doesn't point to a file, using default path";
       Makedirs (dirname (abspath env DEPOTDL_PATH))]
  else [Makedirs (dirname (abspath env DEPOTDL_PATH))].

(** The launcher a run of [__init__] that returns leaves behind. *)
Definition built (cfg_path : string) (astro_path depotdl_exec : option string)
    (force_debug_log : bool) (c : LauncherConfig)
    (hs : list NotificationHandler) (s : St) : Launcher :=
  let cfg := configured c astro_path force_debug_log in
  let l :=
    {| dedicatedserver := Bound None;
       status_thread :=
         Bound (Some {| endpoint := EndpointURL (status_cfg cfg);
                        interval := Interval (status_cfg cfg) |});
       config_path := Some (abspath env cfg_path);
       config := cfg;
       wineexec := fst (wine_paths cfg (disk s));
       wineserverexec := snd (wine_paths cfg (disk s));
       launcherPath := Some (getcwd env);
       depotdl_path := Some (depotdl_final (disk s) depotdl_exec);
       buildversion := buildversion (self s);
       cmd_queue := [];
       notifications := LoggingNotificationHandler :: hs |} in
  set_dedicatedserver (Some (new_dedicatedserver env l)) l.

End InitValues.

(** The handler a notification section asks for, a warning when its
    destination is not set, or the exception when the section is missing. *)
Definition requested_handler (n : NotificationConfig)
  : PyExn + (list NotificationHandler * list Event) :=
  match method n with
  | DISCORD =>
      match discord n with
      | None =>
          inl (AttributeError "'NoneType' object has no attribute 'webhookURL'")
      | Some dc =>
          if truthy_str (webhookURL dc) then
            inr ([DiscordNotificationHandler
                    (match webhookURL dc with Some u => u | None => "" end)
                    (name n)], [])
          else
            inr ([], [Log WARNING
                        "Discord Webhook URL is not set in config, not sending Discord notifications"])
      end
  | NTFY =>
      match ntfy n with
      | None => inl (AttributeError "'NoneType' object has no attribute 'topic'")
      | Some nc =>
          if truthy_str (topic nc) then
            inr ([NTFYNotificationHandler
                    (match topic nc with Some t => t | None => "" end)
                    (serverURL nc) (name n)], [])
          else
            inr ([], [Log WARNING
                        "ntfy topic is not set in config, not sending ntfy notifications"])
      end
  | NONE => inr ([], [])
  end.

(** The events [__init__] emits before the notification handlers. *)
Definition init_events {Version} (env : Env Version) (cfg_path : string)
    (depotdl_exec : option string) (cfg : LauncherConfig) (d : Disk)
  : list Event :=
  [LoggingSetup "prepare"; LoggingSetup "setup_console";
   Log INFO ("Configuration file path: " ++ abspath env cfg_path);
   LoggingSetup "set_log_debug"; LoggingSetup "setup_logfile"]
  ++ depotdl_events env d depotdl_exec
  ++ [Log INFO ("Working directory: " ++ getcwd env);
      Log DEBUG ("Launcher configuration (including overrides):"
                 ++ String (ascii_of_nat 10) (json_dumps env cfg))].

Definition is_makedirs (e : Event) : bool :=
  match e with Makedirs _ => true | _ => false end.

Definition is_logging_setup (e : Event) : bool :=
  match e with LoggingSetup _ => true | _ => false end.

(** The collaborators [env] with another answer of [ensure_toml_config] and
    another search path. *)
Definition with_config {Version} (r : PyExn + LauncherConfig)
    (wh : string -> option string) (env : Env Version) : Env Version :=
  {| parse_input := parse_input env;
     environ := environ env;
     run_process := run_process env;
     net_test_local := net_test_local env;
     net_test_nonlocal := net_test_nonlocal env;
     stats_response := stats_response env;
     version_parse := version_parse env;
     version_gt := version_gt env;
     check_api_health := check_api_health env;
     check_ports_free := check_ports_free env;
     ds_start := ds_start env;
     dl_depotdownloader := dl_depotdownloader env;
     update_app := update_app env;
     abspath := abspath env;
     which := wh;
     getcwd := getcwd env;
     ensure_toml_config := fun _ => r;
     json_dumps := json_dumps env;
     new_dedicatedserver := new_dedicatedserver env |}.

Definition sample_base : Env Dotted.Version :=
  sample_env (stats_with "1.3.0") (ProcExited 0) true true.

(** A configuration with an override for wine and a Discord web hook. *)
Definition sample_config : LauncherConfig :=
  {| AutoUpdateServer := true;
     CheckNetwork := true;
     OverwritePublicIP := false;
     notifications_cfg :=
       {| method := DISCORD; name := "Astro";
          discord := Some {| webhookURL := Some "https://discord.example/hook" |};
          ntfy := None |};
     status_cfg := {| SendStatus := true; Interval := 60;
                      EndpointURL := "https://status.example" |};
     LogDebugMessages := false;
     AstroServerPath := "AstroneerServer";
     OverrideWinePath := Some "/opt/wine/bin/wine";
     WinePrefixPath := "winepfx";
     WineBootTimeout := 30;
     LogPath := "logs";
     DisableEncryption := false;
     WrapperPath := None |}.

Definition blank_state : St := {| self := blank; disk := sample_disk None |}.

(** ** [LauncherConfig.ensure_toml_config] *)

(** A TOML document, as [tomli.load] returns it: a dictionary. *)
Definition toml : Type := list (string * json).

(** The files the method sees: what exists, what is a file, and what
    [tomli.load] gives for a file (an exception when it does not parse). *)
Record ConfigFiles := {
  cf_exists : string -> bool;
  cf_isfile : string -> bool;
  cf_load : string -> PyExn + toml
}.

(** [dataclasses_json]: [LauncherConfig.from_dict] and [to_dict]. *)
Record Codec := {
  from_dict : json -> PyExn + LauncherConfig;
  to_dict : LauncherConfig -> json
}.

(** [os.makedirs(d)]: the empty path is a [FileNotFoundError]. *)
Definition makedirs (d : string) (fs : ConfigFiles) : PyExn + ConfigFiles :=
  if String.eqb d "" then
    inl (OtherException "FileNotFoundError"
           "[Errno 2] No such file or directory: ''")
  else
    inr {| cf_exists := fun p => String.eqb p d || cf_exists fs p;
           cf_isfile := cf_isfile fs;
           cf_load := cf_load fs |}.

(** [tomli_w.dump(doc, open(p, "wb"))] *)
Definition dump (p : string) (doc : toml) (fs : ConfigFiles) : ConfigFiles :=
  {| cf_exists := fun q => String.eqb q p || cf_exists fs q;
     cf_isfile := fun q => String.eqb q p || cf_isfile fs q;
     cf_load := fun q => if String.eqb q p then inr doc else cf_load fs q |}.

(** ["launcher" in toml_dict.keys()] *)
Definition has_key (k : string) (doc : toml) : bool :=
  existsb (fun kv => String.eqb (fst kv) k) doc.

(** The method: the configuration or the exception, and the files after. *)
Definition LauncherConfig_ensure_toml_config (codec : Codec)
    (config_path : string) (fs : ConfigFiles)
  : (PyExn + LauncherConfig) * ConfigFiles :=
  let loaded :=
    if cf_exists fs config_path then
      (* If config file exists, read it into a config object *)
      if negb (cf_isfile fs config_path) then
        (inl (ValueError "Specified config path doesn't point to a file!"), fs)
      else
        match cf_load fs config_path with
        | inl e => (inl e, fs)
        | inr toml_dict =>
            (* If no "launcher" section is present, create it as empty *)
            let toml_dict :=
              if negb (has_key "launcher" toml_dict)
              then [("launcher", JObj [])] else toml_dict in
            match subscript (JObj toml_dict) "launcher" with
            | inl e => (inl e, fs)
            | inr section =>
                match from_dict codec section with
                | inl e => (inl e, fs)
                | inr config => (inr config, fs)
                end
            end
        end
    else
      (* If config file is not present, create directories and default config *)
      if negb (cf_exists fs (dirname config_path)) then
        match makedirs (dirname config_path) fs with
        | inl e => (inl e, fs)
        | inr fs' => (inr default_config, fs')
        end
      else (inr default_config, fs) in
  match loaded with
  | (inl e, fs') => (inl e, fs')
  | (inr config, fs') =>
      (* Write config back to file *)
      (inr config, dump config_path [("launcher", to_dict codec config)] fs')
  end.

(** Two views of the files agree. *)
Definition same_files (a b : ConfigFiles) : Prop :=
  forall p, cf_exists a p = cf_exists b p /\
            cf_isfile a p = cf_isfile b p /\
            cf_load a p = cf_load b p.

(** A codec for the samples: the server path is the only option stored. *)
Definition sample_codec : Codec :=
  {| from_dict := fun j =>
       match subscript j "AstroServerPath" with
       | inr (JStr p) => inr (with_AstroServerPath p default_config)
       | inr _ => inl (TypeError "AstroServerPath")
       | inl _ => inr default_config
       end;
     to_dict := fun c => JObj [("AstroServerPath", JStr (AstroServerPath c))] |}.

Definition sample_files : ConfigFiles :=
  {| cf_exists := fun p => String.eqb p "/srv/astro";
     cf_isfile := fun _ => false;
     cf_load := fun _ => inl (OtherException "FileNotFoundError" "") |}.

(** * Theorems *)

(** ** The helpers on concrete inputs *)

Example dotted_parse_ex :
  (Dotted.parse "1.2.0", Dotted.parse "1.32.4.0", Dotted.parse "",
   Dotted.parse "1..2", Dotted.parse "1.2.", Dotted.parse "unknown")
  = (Some [1; 2; 0]%N, Some [1; 32; 4; 0]%N, None, None, None, None).
Proof. reflexivity. Qed.

Example dotted_gt_ex :
  (Dotted.gt [1; 3; 0]%N [1; 2; 0]%N, Dotted.gt [1; 3; 0]%N [1; 3; 0]%N,
   Dotted.gt [1; 3]%N [1; 3; 0]%N, Dotted.gt [1; 10]%N [1; 9; 0]%N,
   Dotted.gt [1; 2; 0]%N [1; 3; 0]%N)
  = (true, false, false, true, false).
Proof. reflexivity. Qed.

Example path_ex :
  (dirname "/a/b/c", basename "/a/b/c", dirname "c", dirname "/c",
   dirname "a//b", path_join "a" "b", path_join "a/" "b", path_join "a" "/b")
  = ("/a/b", "c", "", "/", "a", "a/b", "a/b", "/b").
Proof. reflexivity. Qed.

Example str_of_Z_ex : (str_of_Z 7777, str_of_Z 0, str_of_Z (-3)) = ("7777", "0", "-3").
Proof. reflexivity. Qed.

Example dict_ex :
  dict_set "WINEDEBUG" "-all"
    (dict_set "WINEPREFIX" "/pfx"
       (dict_del "DISPLAY" [("DISPLAY", ":0"); ("WINEPREFIX", "/old")]))
  = [("WINEPREFIX", "/pfx"); ("WINEDEBUG", "-all")].
Proof. reflexivity. Qed.

(** ** Equations of the monad *)

Section Equations.

Context {A B : Type}.
Implicit Types (s : St) (f : A -> M B).

Lemma prepend_nil (r : Outcome A * St * list Event) : prepend [] r = r.
Proof. destruct r as [[o s] t]. reflexivity. Qed.

Lemma prepend_prepend (t u : list Event) (r : Outcome A * St * list Event) :
  prepend t (prepend u r) = prepend (t ++ u) r.
Proof. destruct r as [[o s] v]. simpl. now rewrite app_assoc. Qed.

Lemma outcome_prepend t (r : Outcome A * St * list Event) :
  outcome (prepend t r) = outcome r.
Proof. destruct r as [[o s] v]. reflexivity. Qed.

Lemma final_prepend t (r : Outcome A * St * list Event) :
  final (prepend t r) = final r.
Proof. destruct r as [[o s] v]. reflexivity. Qed.

Lemma events_prepend t (r : Outcome A * St * list Event) :
  events (prepend t r) = (t ++ events r)%list.
Proof. destruct r as [[o s] v]. reflexivity. Qed.

Lemma bind_ret (a : A) f s : bind (ret a) f s = f a s.
Proof. unfold bind, ret. destruct (f a s) as [[o s2] t2]. reflexivity. Qed.

Lemma bind_raise (e : PyExn) f s : bind (raise e) f s = (Raise e, s, []).
Proof. reflexivity. Qed.

Lemma bind_sys_exit (c : Z) f s : bind (sys_exit c) f s = (Exit c, s, []).
Proof. reflexivity. Qed.

Lemma bind_run (m : M A) f s :
  bind m f s =
  match m s with
  | (Ret a, s1, t1) => prepend t1 (f a s1)
  | (Exit c, s1, t1) => (Exit c, s1, t1)
  | (Raise e, s1, t1) => (Raise e, s1, t1)
  end.
Proof. reflexivity. Qed.

Lemma try_except_run (m : M A) (h : PyExn -> M A) s :
  try_except m h s =
  match m s with
  | (Raise e, s1, t1) => prepend t1 (h e s1)
  | r => r
  end.
Proof. reflexivity. Qed.

End Equations.

Lemma bind_emit {B} (e : Event) (f : unit -> M B) s :
  bind (emit e) f s = prepend [e] (f tt s).
Proof. reflexivity. Qed.

Lemma bind_get_self {B} (f : Launcher -> M B) s :
  bind get_self f s = f (self s) s.
Proof. unfold bind, get_self. destruct (f (self s) s) as [[o s2] t2]. reflexivity. Qed.

Lemma bind_get_disk {B} (f : Disk -> M B) s :
  bind get_disk f s = f (disk s) s.
Proof. unfold bind, get_disk. destruct (f (disk s) s) as [[o s2] t2]. reflexivity. Qed.

Lemma bind_set_self {B} (l : Launcher) (f : unit -> M B) s :
  bind (set_self l) f s = f tt {| self := l; disk := disk s |}.
Proof. unfold bind, set_self. destruct (f tt _) as [[o s2] t2]. reflexivity. Qed.

Lemma bind_set_disk {B} (d : Disk) (f : unit -> M B) s :
  bind (set_disk d) f s = f tt {| self := self s; disk := d |}.
Proof. unfold bind, set_disk. destruct (f tt _) as [[o s2] t2]. reflexivity. Qed.

Lemma bind_assoc {A B C} (m : M A) (f : A -> M B) (g : B -> M C) s :
  bind (bind m f) g s = bind m (fun x => bind (f x) g) s.
Proof.
  unfold bind. destruct (m s) as [[[a | c | e] s1] t1]; try reflexivity.
  destruct (f a s1) as [[[b | c | e] s2] t2]; try reflexivity.
  destruct (g b s2) as [[o s3] t3]. now rewrite app_assoc.
Qed.

Lemma ret_run {A} (a : A) s : ret a s = (Ret a, s, []).
Proof. reflexivity. Qed.
Lemma raise_run {A} (e : PyExn) s : @raise A e s = (Raise e, s, []).
Proof. reflexivity. Qed.
Lemma sys_exit_run {A} (c : Z) s : @sys_exit A c s = (Exit c, s, []).
Proof. reflexivity. Qed.
Lemma emit_run (e : Event) s : emit e s = (Ret tt, s, [e]).
Proof. reflexivity. Qed.
Lemma set_self_run (l : Launcher) s :
  set_self l s = (Ret tt, {| self := l; disk := disk s |}, []).
Proof. reflexivity. Qed.
Lemma set_disk_run (d : Disk) s :
  set_disk d s = (Ret tt, {| self := self s; disk := d |}, []).
Proof. reflexivity. Qed.

#[local] Arguments String.append : simpl never.
#[local] Arguments String.concat : simpl never.
#[local] Arguments str_of_Z : simpl never.

(** Symbolic execution of a run: apply the equations at the head, and split
    on the value the head is waiting for. *)
Ltac run_rewrite :=
  first
    [ rewrite bind_assoc | rewrite bind_ret | rewrite bind_emit
    | rewrite bind_raise | rewrite bind_sys_exit
    | rewrite bind_get_self | rewrite bind_get_disk
    | rewrite bind_set_self | rewrite bind_set_disk
    | rewrite ret_run | rewrite raise_run | rewrite sys_exit_run
    | rewrite emit_run | rewrite set_self_run | rewrite set_disk_run
    | rewrite outcome_prepend | rewrite final_prepend
    | rewrite events_prepend
    | progress cbn [prepend outcome final events fst snd app self disk
                    truthy negb andb orb] ].

Ltac run_split :=
  match goal with
  | H : ?x = _ |- context [?x] => first [is_var x; fail 1 | rewrite H]
  | |- context [bind (if ?c then _ else _) _ _] => destruct c eqn:?
  | |- context [bind (match ?x with _ => _ end) _ _] => destruct x eqn:?
  | |- context [(if ?c then _ else _) ?s] =>
      match type of s with St => destruct c eqn:? end
  | |- context [(match ?x with _ => _ end) ?s] =>
      match type of s with St => destruct x eqn:? end
  end.

Ltac run := repeat (repeat run_rewrite; try run_split).

Ltac unfold_ops :=
  unfold with_ds, with_status_thread, get_dedicatedserver, get_status_thread,
    when, py_and, lift, assign, log, sleep in *.


(** ** [exit] *)

Lemma truthy_some {A} (o : option A) : truthy o = true -> exists a, o = Some a.
Proof. destruct o; [eauto | discriminate]. Qed.

Lemma status_in_running_starting (st : ServerStatus) :
  status_in st [RUNNING; STARTING] = true <-> st = STARTING \/ st = RUNNING.
Proof. destruct st; simpl; intuition discriminate. Qed.

(** The forced path, as one equation. *)
Lemma exit_forced_run (s : St) (reason : option string)
    (o : option AstroDedicatedServer) (t : option StatusUpdaterThread) :
  attrs_bound (self s) o t ->
  exit false reason s =
  (Exit 1, s,
   quitting_line false reason
   :: (if truthy o then [DsKill] else [])
   ++ (if truthy t then [forced_report] else [])
   ++ [Sleep 100])%list.
Proof.
  intros [Hd Ht]. unfold exit, quitting_line, forced_report. unfold_ops.
  destruct o, t; run; reflexivity.
Qed.

(** The graceful path: kill, shut down, or leave with code 0. *)
Lemma exit_graceful_kill (s : St) (reason : option string)
    (ds : AstroDedicatedServer) :
  dedicatedserver (self s) = Bound (Some ds) ->
  status ds = STARTING \/ status ds = RUNNING ->
  connected (rcon ds) = false ->
  exit true reason s = (Ret tt, s, [quitting_line true reason; DsKill]).
Proof.
  intros Hd Hs Hc. apply status_in_running_starting in Hs.
  unfold exit, quitting_line. unfold_ops.
  run; try reflexivity; cbn [truthy] in *; congruence.
Qed.

Lemma exit_graceful_shutdown (s : St) (reason : option string)
    (ds : AstroDedicatedServer) :
  dedicatedserver (self s) = Bound (Some ds) ->
  status ds = STARTING \/ status ds = RUNNING ->
  connected (rcon ds) = true ->
  exit true reason s =
  (Ret tt, s,
   [quitting_line true reason;
    Log DEBUG "Shutting down Dedicated Server before quitting...";
    DsShutdown]).
Proof.
  intros Hd Hs Hc. apply status_in_running_starting in Hs.
  unfold exit, quitting_line. unfold_ops.
  run; try reflexivity; cbn [truthy negb] in *; congruence.
Qed.

Lemma exit_graceful_quit (s : St) (reason : option string)
    (o : option AstroDedicatedServer) :
  dedicatedserver (self s) = Bound o ->
  (o = None \/
   exists ds, o = Some ds /\ status ds <> STARTING /\ status ds <> RUNNING) ->
  exit true reason s =
  (Exit 0, s,
   [quitting_line true reason; Log INFO "Goodbye!";
    Log DEBUG "Quitting with exit code 0..."]).
Proof.
  intros Hd Hs.
  assert (Hn : forall ds, o = Some ds ->
               status_in (status ds) [RUNNING; STARTING] = false).
  { intros ds ->. destruct Hs as [Hs | (ds' & Hs & H1 & H2)]; [discriminate |].
    injection Hs as <-. destruct (status ds); simpl; congruence. }
  unfold exit, quitting_line. unfold_ops.
  run; try reflexivity; cbn [truthy] in *; try congruence;
    match goal with
    | H : status_in _ _ = true |- _ => rewrite (Hn _ eq_refl) in H
    end; discriminate.
Qed.

(** C2: a graceful exit kills the child at once when the server is starting
    or running and no remote console is connected, asks it to shut down
    when one is connected, and returns in both cases; in every other case
    it leaves with code 0 and makes no call on the child. *)
Theorem exit_graceful (s : St) (reason : option string)
    (o : option AstroDedicatedServer) :
  dedicatedserver (self s) = Bound o ->
  let r := exit true reason s in
  (forall ds, o = Some ds ->
     status ds = STARTING \/ status ds = RUNNING ->
     connected (rcon ds) = false ->
     outcome r = Ret tt /\ effects (events r) = [DsKill]) /\
  (forall ds, o = Some ds ->
     status ds = STARTING \/ status ds = RUNNING ->
     connected (rcon ds) = true ->
     outcome r = Ret tt /\ effects (events r) = [DsShutdown]) /\
  (o = None \/
   (exists ds, o = Some ds /\ status ds <> STARTING /\ status ds <> RUNNING) ->
   outcome r = Exit 0 /\ effects (events r) = []).
Proof.
  intros Hd r. subst r. repeat split.
  - subst o. now rewrite (exit_graceful_kill s reason ds).
  - subst o. rewrite (exit_graceful_kill s reason ds) by assumption.
    unfold quitting_line. now destruct (truthy_str reason).
  - subst o. now rewrite (exit_graceful_shutdown s reason ds).
  - subst o. rewrite (exit_graceful_shutdown s reason ds) by assumption.
    unfold quitting_line. now destruct (truthy_str reason).
  - now rewrite (exit_graceful_quit s reason o).
  - rewrite (exit_graceful_quit s reason o) by assumption.
    unfold quitting_line. now destruct (truthy_str reason).
Qed.

Lemma exit_graceful_witness :
  outcome (exit true (Some "Received SIGINT signal")
             (sample_state RUNNING false)) = Ret tt /\
  effects (events (exit true (Some "Received SIGINT signal")
                     (sample_state RUNNING false))) = [DsKill].
Proof.
  destruct (exit_graceful (sample_state RUNNING false)
              (Some "Received SIGINT signal")
              (Some (sample_ds RUNNING false)) eq_refl) as (H & _ & _).
  apply (H (sample_ds RUNNING false)); [reflexivity | right | ]; reflexivity.
Defined.

(** C5, as amended: a forced exit kills the child whenever the handle
    exists, whatever its status; hands the final report to the status
    thread once whenever that thread exists; waits 0.1 s; and leaves with
    code 1. *)
Theorem exit_forced (s : St) (reason : option string)
    (o : option AstroDedicatedServer) (t : option StatusUpdaterThread) :
  attrs_bound (self s) o t ->
  let r := exit false reason s in
  outcome r = Exit 1 /\
  final r = s /\
  effects (events r) =
    ((if truthy o then [DsKill] else [])
     ++ (if truthy t then [forced_report] else [])
     ++ [Sleep 100])%list.
Proof.
  intros Hb r. subst r. rewrite (exit_forced_run s reason o t Hb).
  repeat split. unfold quitting_line.
  destruct (truthy_str reason), o, t; reflexivity.
Qed.

Lemma exit_forced_witness :
  outcome (exit false (Some "Port not available") (sample_state STOPPED false))
  = Exit 1 /\
  effects (events (exit false (Some "Port not available")
                     (sample_state STOPPED false)))
  = [DsKill; forced_report; Sleep 100].
Proof.
  destruct (exit_forced (sample_state STOPPED false)
              (Some "Port not available")
              (Some (sample_ds STOPPED false)) (Some sample_thread)
              (conj eq_refl eq_refl)) as (H1 & _ & H2).
  split; [exact H1 | exact H2].
Defined.

(** C5, as stated, fails before the status thread exists: [__init__] calls
    [exit] on a configuration error, and no report is pushed. *)
Lemma forced_exit_without_reporter : ~ forced_exit_claim early_state None.
Proof.
  unfold forced_exit_claim. intros (_ & H & _).
  rewrite (exit_forced_run early_state None None None) in H
    by (split; reflexivity).
  cbn in H. unfold forced_report in H.
  repeat destruct H as [H | H]; try discriminate H; exact H.
Qed.

(** ** [on_input] *)

(** C3: a console line puts a command on the queue exactly when it parses
    to a command other than HELP; a HELP command is logged and not queued;
    a line that does not parse is logged as a warning and dropped; the
    callback returns in all three cases. *)
Theorem on_input_queue {Version} (env : Env Version) (s : St)
    (input_string : string) :
  let r := on_input env input_string s in
  let q := cmd_queue (self s) in
  let q' := cmd_queue (self (final r)) in
  outcome r = Ret tt /\
  match parse_input env input_string with
  | ParseOk c =>
      if is_help (cmd c) then q' = q /\ events r = [Log INFO (message c)]
      else q' = (q ++ [c])%list /\ events r = []
  | ParseError msg => q' = q /\ events r = [Log WARNING msg]
  end /\
  (q' <> q <->
   exists c, parse_input env input_string = ParseOk c /\ cmd c <> HELP).
Proof.
  cbv zeta. unfold on_input. unfold_ops.
  assert (Hneq : forall (l : list ParsedCommand) c, (l ++ [c])%list <> l).
  { intros l c H. apply (f_equal (@length _)) in H.
    rewrite length_app in H. simpl in H. lia. }
  destruct (parse_input env input_string) as [c | msg].
  - destruct (cmd c) eqn:Hc; cbn [is_help]; run.
    + repeat split; try tauto. intros (c' & H & Hh). congruence.
    + cbn [cmd_queue set_cmd_queue]. repeat split; auto.
      intros _. exists c. split; [reflexivity | congruence].
  - run. repeat split; try tauto. intros (c & H & _). discriminate.
Qed.

Example on_input_ex :
  let env := sample_env (stats_with "1.3.0") (ProcExited 0) true true in
  let s := sample_state RUNNING true in
  (cmd_queue (self (final (on_input env "shutdown" s))),
   events (on_input env "shutdown" s),
   on_input env "help" s,
   on_input env "dance" s)
  = ([{| cmd := Verb "shutdown"; message := ""; args := [] |}],
     [],
     (Ret tt, s, [Log INFO "Available commands: ..."]),
     (Ret tt, s, [Log WARNING "Unknown command: dance"])).
Proof. reflexivity. Qed.

(** ** [check_network_config] *)

(** The whole trace of the check. *)
Lemma check_network_config_run {Version} (env : Env Version) (s : St)
    (ds : AstroDedicatedServer) :
  dedicatedserver (self s) = Bound (Some ds) ->
  let ip := PublicIP (ds_config ds) in
  let port := Port (engine_config ds) in
  let console := ConsolePort (ds_config ds) in
  check_network_config env s =
  (Ret tt, s,
   [Log INFO "Checking Network Configuration...";
    NetTestLocal ip port false; NetTestNonlocal ip port]
   ++ game_port_lines port (net_test_local env ip port false)
        (net_test_nonlocal env ip port)
   ++ NetTestLocal ip console true
      :: (if net_test_local env ip console true then security_alert console
          else [Log INFO "RCON network configuration looks good"]))%list.
Proof.
  intros Hd. cbv zeta.
  unfold check_network_config, probe_local, probe_nonlocal, security_alert,
    game_port_lines.
  unfold_ops.
  run;
    destruct (net_test_local env _ (Port _) false),
      (net_test_nonlocal env _ _),
      (net_test_local env _ (ConsolePort _) true);
    simpl in * |-; try discriminate; reflexivity.
Qed.

(** C8: the diagnostic logged for the game port follows the table of the
    two reachability results, and the check returns in all four cases. *)
Theorem network_table {Version} (env : Env Version) (s : St)
    (ds : AstroDedicatedServer) :
  dedicatedserver (self s) = Bound (Some ds) ->
  let r := check_network_config env s in
  let ip := PublicIP (ds_config ds) in
  let port := Port (engine_config ds) in
  let d := game_port_diagnostic (events r) in
  outcome r = Ret tt /\
  match net_test_local env ip port false, net_test_nonlocal env ip port with
  | true, true =>
      d = [Log INFO "Network configuration looks good"]
  | false, true =>
      d = [Log WARNING "The Server is not accessible from the local network";
           Log WARNING "This usually indicates an issue with NAT Loopback"]
  | true, false =>
      d = [Log WARNING
             "The server can be reached locally, but not from outside of the local network";
           Log WARNING ("Make sure the Server Port (" ++ str_of_Z port
                        ++ ") is forwarded for UDP traffic")]
  | false, false =>
      d = [Log WARNING "The Server is completely unreachable";
           Log WARNING ("Make sure the Server Port (" ++ str_of_Z port
                        ++ ") is forwarded for UDP traffic and check firewall settings")]
  end.
Proof.
  intros Hd. cbv zeta. rewrite (check_network_config_run env s ds Hd).
  split; [reflexivity |].
  destruct (net_test_local env _ (Port _) false),
    (net_test_nonlocal env _ _); reflexivity.
Qed.

(** C4: the security warning and its pause of 5 s are emitted exactly when
    the probe of the remote-console port succeeds, whatever the two probes
    of the game port gave, and the check returns. *)
Theorem rcon_security_alert {Version} (env : Env Version) (s : St)
    (ds : AstroDedicatedServer) :
  dedicatedserver (self s) = Bound (Some ds) ->
  let r := check_network_config env s in
  let ip := PublicIP (ds_config ds) in
  let console := ConsolePort (ds_config ds) in
  let reachable := net_test_local env ip console true in
  outcome r = Ret tt /\
  rcon_diagnostic (events r) =
    (if reachable then security_alert console
     else [Log INFO "RCON network configuration looks good"]) /\
  (forall e, In e (security_alert console) ->
     (In e (events r) <-> reachable = true)).
Proof.
  intros Hd. cbv zeta. rewrite (check_network_config_run env s ds Hd).
  cbn [outcome events fst snd]. split; [reflexivity |]. split.
  - destruct (net_test_local env _ (Port _) false),
      (net_test_nonlocal env _ _); reflexivity.
  - intros e He.
    destruct (net_test_local env _ (ConsolePort _) true).
    + split; [reflexivity | intros _].
      destruct (net_test_local env _ (Port _) false),
        (net_test_nonlocal env _ _); simpl; tauto.
    + split; [| discriminate]. intros Hin. exfalso.
      unfold security_alert in He.
      destruct (net_test_local env _ (Port _) false),
        (net_test_nonlocal env _ _); simpl in He, Hin;
        repeat match goal with
        | H : _ \/ _ |- _ => destruct H
        | H : False |- _ => destruct H
        end; subst; discriminate.
Qed.

Lemma network_table_witness :
  game_port_diagnostic
    (events (check_network_config
               (sample_env (stats_with "1.3.0") (ProcExited 0) true true)
               (sample_state STOPPED false)))
  = [Log WARNING "The Server is not accessible from the local network";
     Log WARNING "This usually indicates an issue with NAT Loopback"].
Proof.
  exact (proj2 (network_table
                  (sample_env (stats_with "1.3.0") (ProcExited 0) true true)
                  (sample_state STOPPED false)
                  (sample_ds STOPPED false) eq_refl)).
Defined.

Lemma rcon_security_alert_witness :
  rcon_diagnostic
    (events (check_network_config
               (sample_env (stats_with "1.3.0") (ProcExited 0) true true)
               (sample_state STOPPED false)))
  = security_alert 1234.
Proof.
  exact (proj1 (proj2 (rcon_security_alert
                  (sample_env (stats_with "1.3.0") (ProcExited 0) true true)
                  (sample_state STOPPED false)
                  (sample_ds STOPPED false) eq_refl))).
Defined.

(** ** [update_wine_prefix] *)

Lemma wineboot_cmd_strings (l : Launcher) (w : string) :
  wineexec l = Some w ->
  all_strings 0 (wineboot_cmd l) = inr (wineboot_argv l).
Proof.
  intros Hw. unfold wineboot_argv, wineboot_cmd. rewrite Hw.
  destruct (WrapperPath (config l)) as [wr |]; simpl.
  - destruct (negb (String.eqb wr "")); reflexivity.
  - reflexivity.
Qed.

(** The whole run of [update_wine_prefix]. *)
Lemma update_wine_prefix_run {Version} (env : Env Version) (s : St)
    (w : string) :
  wineexec (self s) = Some w ->
  let l := self s in
  let timeout := WineBootTimeout (config l) in
  update_wine_prefix env s =
  (Ret (wineboot_ok env l), s,
   [Log DEBUG "Ensuring WINE prefix is setup...";
    Log DEBUG ("Executing command '" ++ String.concat " " (wineboot_argv l)
               ++ "' in WINE prefix '" ++ WinePrefixPath (config l)
               ++ "'...");
    Popen (wineboot_argv l) (wineboot_env env l) (AstroServerPath (config l))
      timeout]
   ++ match wineboot_result env l with
      | ProcExited _ => []
      | ProcRaises e => [wineboot_failure_line timeout e]
      end)%list.
Proof.
  intros Hw. cbv zeta.
  unfold update_wine_prefix, popen_wait, wineboot_ok, wineboot_result,
    wineboot_failure_line.
  unfold_ops. rewrite bind_emit, bind_get_self.
  rewrite (wineboot_cmd_strings _ w Hw).
  rewrite bind_emit, bind_run, try_except_run.
  rewrite bind_assoc, bind_emit.
  destruct (run_process env _ _ _ _) as [e | code]; run; reflexivity.
Qed.

(** C7: [update_wine_prefix] returns [True] exactly when the wineboot
    subprocess ends within [WineBootTimeout] seconds with exit code 0; when
    the timeout runs out or the call raises, it logs a line and returns
    [False]; it returns in every case. *)
Theorem update_wine_prefix_result {Version} (env : Env Version) (s : St)
    (w : string) :
  wineexec (self s) = Some w ->
  let r := update_wine_prefix env s in
  let p := wineboot_result env (self s) in
  let timeout := WineBootTimeout (config (self s)) in
  (exists b, outcome r = Ret b /\ (b = true <-> p = ProcExited 0)) /\
  final r = s /\
  (forall e, p = ProcRaises e ->
     outcome r = Ret false /\
     last (events r) (Sleep 0) = wineboot_failure_line timeout e /\
     is_log (wineboot_failure_line timeout e) = true).
Proof.
  intros Hw. cbv zeta. rewrite (update_wine_prefix_run env s w Hw).
  cbn [outcome final events fst snd]. unfold wineboot_ok. repeat split.
  - eexists. split; [reflexivity |].
    destruct (wineboot_result env (self s)) as [e | code].
    + split; discriminate.
    + rewrite Z.eqb_eq. split; [now intros -> | now intros [= ->]].
  - now rewrite H.
  - now rewrite H.
  - unfold wineboot_failure_line. now destruct (is_timeout_expired e).
Qed.

Lemma update_wine_prefix_result_witness :
  outcome (update_wine_prefix
             (sample_env (stats_with "1.3.0") (ProcRaises TimeoutExpired)
                true true)
             (sample_state STOPPED false)) = Ret false.
Proof.
  destruct (update_wine_prefix_result
              (sample_env (stats_with "1.3.0") (ProcRaises TimeoutExpired)
                 true true)
              (sample_state STOPPED false) "/usr/bin/wine" eq_refl)
    as (_ & _ & H).
  exact (proj1 (H TimeoutExpired eq_refl)).
Defined.

(** ** [check_server_update] *)

Ltac leaf :=
  intros [= <- <- <-]; cbn [outcome final events fst snd];
  do 2 eexists; split; [reflexivity |]; split; [reflexivity |];
  split; [reflexivity |]; split; [reflexivity |].

Ltac break_hyps :=
  repeat match goal with
  | H : _ \/ _ |- _ => destruct H
  | H : exists _, _ |- _ => destruct H
  | H : _ /\ _ |- _ => destruct H
  | H : inr _ = inr _ |- _ => injection H as H; subst
  | H : Some _ = Some _ |- _ => injection H as H; subst
  | H : ?x = _, H' : context [match ?x with _ => _ end] |- _ =>
      rewrite H in H'; cbn beta iota in H'
  end.

Ltac refute := intros; exfalso; break_hyps; congruence.

(** The first half of [check_server_update] returns its two flags, leaves
    the state alone, and decides as follows. *)
Lemma check_update_needed_run {Version} (env : Env Version) (s : St) :
  let r := check_update_needed env s in
  exists do_update installed,
    outcome r = Ret (do_update, installed) /\
    final r = s /\
    forallb is_update_event (events r) = true /\
    existsb is_update_app (events r) = false /\
    (installed = false <->
     installed_version s = None \/ executable_present s = false) /\
    (do_update = true <->
     (installed_version s = None \/ executable_present s = false)
     \/ (exists e, fetched_version env = inl e)
     \/ (exists v, fetched_version env = inr v /\ parsed env v = None)
     \/ (exists old, installed_version s = Some old /\
                     version_parse env old = None)
     \/ (exists v nv old ov,
           fetched_version env = inr v /\ parsed env v = Some nv /\
           installed_version s = Some old /\
           version_parse env old = Some ov /\
           version_gt env nv ov = true)).
Proof.
  cbv zeta.
  destruct (check_update_needed env s) as [[o s'] t] eqn:Hrun.
  revert Hrun.
  unfold check_update_needed, check_ds_executable, fetch_json, parse_version,
    installed_version, executable_present, fetched_version, parsed.
  unfold_ops.
  rewrite bind_get_self, bind_get_disk.
  destruct (read_build_version _ _) as [old |] eqn:Hold.
  2:{ run. leaf. split; [tauto |]. split; [tauto | reflexivity]. }
  repeat run_rewrite.
  destruct (path_exists _ _ && path_isfile _ _) eqn:Hexe; cbn [negb].
  2:{ run. leaf. split; [tauto |]. split; [tauto | reflexivity]. }
  rewrite bind_run, try_except_run, bind_assoc, bind_emit.
  destruct (stats_response env _) as [e | data] eqn:Hdata.
  { run. leaf. split; [split; [discriminate | refute] |].
    split; [intros _ | reflexivity]. right; left. now exists e. }
  rewrite bind_ret.
  destruct (subscript data "stats") as [e | stats] eqn:Hstats.
  { run. leaf. split; [split; [discriminate | refute] |].
    split; [intros _ | reflexivity]. right; left. now exists e. }
  rewrite bind_ret.
  destruct (subscript stats "latestVersion") as [e | newversion] eqn:Hnew.
  { run. leaf. split; [split; [discriminate | refute] |].
    split; [intros _ | reflexivity]. right; left. now exists e. }
  rewrite bind_ret.
  destruct (version_parse_json env newversion) as [e | nv] eqn:Hnv.
  { run. leaf. split; [split; [discriminate | refute] |].
    split; [intros _ | reflexivity]. right; right; left.
    exists newversion. now rewrite Hnv. }
  rewrite bind_ret. cbn [version_parse_json].
  destruct (version_parse env old) as [ov |] eqn:Hov.
  2:{ run. leaf. split; [split; [discriminate | refute] |].
      split; [intros _ | reflexivity]. do 3 right; left. now exists old. }
  rewrite bind_ret.
  destruct (version_gt env nv ov) eqn:Hgt.
  - run. leaf. split; [split; [discriminate | refute] |].
    split; [intros _ | reflexivity]. do 4 right.
    exists newversion, nv, old, ov. now rewrite Hnv.
  - run. leaf. split; [split; [discriminate | refute] |].
    split; [discriminate |]. intros H. exfalso.
    destruct H as [H | [H | [H | [H | H]]]]; break_hyps; try congruence.
    all: rewrite Hnv in *; congruence.
Qed.

(** C1, as amended: the decision is true exactly in the install case (no
    installed version, or no executable), when the remote version cannot
    be fetched, when the fetched or the installed version does not parse,
    or when the fetched version is greater than the installed one; when
    both parse and the fetched one is not greater, as for 1.3.0 against
    1.3.0, it is false. *)
Theorem update_needed {Version} (env : Env Version) (s : St) :
  (exists do_update installed,
     outcome (check_update_needed env s) = Ret (do_update, installed) /\
     (do_update = true <->
      (installed_version s = None \/ executable_present s = false)
      \/ (exists e, fetched_version env = inl e)
      \/ (exists v, fetched_version env = inr v /\ parsed env v = None)
      \/ (exists old, installed_version s = Some old /\
                      version_parse env old = None)
      \/ (exists v nv old ov,
            fetched_version env = inr v /\ parsed env v = Some nv /\
            installed_version s = Some old /\
            version_parse env old = Some ov /\
            version_gt env nv ov = true))) /\
  (forall old new nv ov,
     installed_version s = Some old ->
     executable_present s = true ->
     fetched_version env = inr (JStr new) ->
     version_parse env new = Some nv ->
     version_parse env old = Some ov ->
     version_gt env nv ov = false ->
     outcome (check_update_needed env s) = Ret (false, true)).
Proof.
  destruct (check_update_needed_run env s)
    as (du & inst & Ho & _ & _ & _ & Hinst & Hdu).
  split.
  - exists du, inst. split; [exact Ho | exact Hdu].
  - intros old new nv ov Hi Hx Hf Hn Hov Hgt. rewrite Ho.
    assert (Hp : parsed env (JStr new) = Some nv).
    { unfold parsed. cbn [version_parse_json]. now rewrite Hn. }
    destruct inst.
    2:{ destruct Hinst as [Hinst _]. destruct (Hinst eq_refl); congruence. }
    destruct du; [| reflexivity].
    destruct Hdu as [Hdu _]. specialize (Hdu eq_refl). exfalso.
    destruct Hdu as [H | [H | [H | [H | H]]]]; break_hyps; congruence.
Qed.

Lemma update_needed_witness :
  outcome (check_update_needed
             (sample_env (stats_with "1.3.0") (ProcExited 0) true true)
             (installed_state "1.3.0")) = Ret (false, true).
Proof.
  apply (proj2 (update_needed
                  (sample_env (stats_with "1.3.0") (ProcExited 0) true true)
                  (installed_state "1.3.0"))
           "1.3.0" "1.3.0" [1; 3; 0]%N [1; 3; 0]%N);
    reflexivity.
Defined.

Example update_needed_1_2_0 :
  outcome (check_update_needed
             (sample_env (stats_with "1.3.0") (ProcExited 0) true true)
             (installed_state "1.2.0")) = Ret (true, true).
Proof. reflexivity. Qed.

Example update_needed_fetch_fails :
  outcome (check_update_needed
             (sample_env (inl (OtherException "URLError" "timed out"))
                (ProcExited 0) true true)
             (installed_state "1.3.0")) = Ret (true, true).
Proof. reflexivity. Qed.

(** C1, as stated, fails when the installed version does not parse: the
    fetch succeeds, the fetched version parses, nothing is greater than
    anything, and the decision is true all the same. *)
Lemma update_needed_unparsable :
  ~ update_needed_claim
      (sample_env (stats_with "1.3.0") (ProcExited 0) true true)
      (installed_state "unknown").
Proof.
  intros H. specialize (H true true eq_refl).
  destruct H as [H _]. specialize (H eq_refl).
  destruct H as [[H | H] | [[e H] | [(v & H & Hp) | (v & nv & old & ov & _ & _ & Ho & Hov & _)]]].
  - discriminate H.
  - discriminate H.
  - discriminate H.
  - injection H as <-. discriminate Hp.
  - injection Ho as <-. discriminate Hov.
Qed.

(** [update_server] returns once the path of DepotDownloader is set; it
    calls [steam.update_app] and rebinds [buildversion] only. *)
Lemma update_server_run {Version} (env : Env Version) (s : St) (p : string) :
  depotdl_path (self s) = Some p ->
  let r := update_server env s in
  outcome r = Ret tt /\
  (exists bv, self (final r) = set_buildversion bv (self s)) /\
  forallb is_update_event (events r) = true /\
  existsb is_update_app (events r) = true.
Proof.
  intros Hp. cbv zeta.
  unfold update_server, steam_update_app, steam_dl_depotdownloader, as_path.
  unfold_ops. run; cbn [self disk]; repeat split; eauto.
Qed.

Lemma set_buildversion_same (l : Launcher) :
  l = set_buildversion (buildversion l) l.
Proof. destruct l. reflexivity. Qed.

(** The second half of [check_server_update]. *)
Lemma apply_update_decision_run {Version} (env : Env Version)
    (force_update do_update installed : bool) (s : St) (p : string) :
  depotdl_path (self s) = Some p ->
  let r := apply_update_decision env force_update do_update installed s in
  let auto := AutoUpdateServer (config (self s)) in
  outcome r = Ret tt /\
  (exists bv, self (final r) = set_buildversion bv (self s)) /\
  forallb is_update_event (events r) = true /\
  existsb is_update_app (events r) = do_update && (auto || force_update) /\
  (do_update = true -> auto = false -> force_update = false ->
   r = (Ret tt, s, [Log INFO "Not installing/updating automatically"])).
Proof.
  intros Hp. cbv zeta. unfold apply_update_decision. unfold_ops.
  destruct (update_server_run env s p Hp) as (Ho & Hs & He & Hu).
  rewrite bind_get_self.
  destruct do_update, (AutoUpdateServer (config (self s))) eqn:Hauto,
    force_update, installed; cbn [orb andb];
    repeat run_rewrite;
    try (destruct (update_server env s) as [[o s1] t1];
         cbn [outcome final events fst snd prepend app] in *; subst o;
         cbn [forallb existsb is_update_event is_update_app andb orb];
         repeat split; auto; discriminate);
    repeat split; try discriminate; try reflexivity;
    exists (buildversion (self s)); apply set_buildversion_same.
Qed.

Lemma check_server_update_run {Version} (env : Env Version)
    (force_update : bool) (s : St) (p : string) :
  depotdl_path (self s) = Some p ->
  let r := check_server_update env force_update s in
  let c := check_update_needed env s in
  let auto := AutoUpdateServer (config (self s)) in
  exists do_update installed,
    outcome c = Ret (do_update, installed) /\
    outcome r = Ret tt /\
    (exists bv, self (final r) = set_buildversion bv (self s)) /\
    forallb is_update_event (events r) = true /\
    existsb is_update_app (events r) = do_update && (auto || force_update) /\
    (do_update = true -> auto = false -> force_update = false ->
     final r = s /\
     events r =
       (events c ++ [Log INFO "Not installing/updating automatically"])%list).
Proof.
  intros Hp. cbv zeta.
  destruct (check_update_needed_run env s)
    as (du & inst & Ho & Hs & He & Hu & _).
  exists du, inst. split; [exact Ho |].
  unfold check_server_update. rewrite bind_run.
  destruct (check_update_needed env s) as [[o s1] t1].
  cbn [outcome final events fst snd] in *. subst o s1.
  destruct (apply_update_decision_run env force_update du inst s p Hp)
    as (Ho' & Hs' & He' & Hu' & Hn).
  cbn [fst snd].
  rewrite outcome_prepend, final_prepend, events_prepend.
  rewrite forallb_app, existsb_app, He, He', Hu, Hu'.
  repeat split; auto.
  - now rewrite (Hn H H0 H1).
  - now rewrite (Hn H H0 H1).
Qed.

(** C9: [update_server] runs exactly when an update is needed and either
    [AutoUpdateServer] or [force_update] is set; when an update is needed
    and both are off, nothing is installed and the second half of the
    method logs one informational line only. *)
Theorem update_server_invoked {Version} (env : Env Version)
    (force_update : bool) (s : St) (p : string) :
  depotdl_path (self s) = Some p ->
  let r := check_server_update env force_update s in
  let c := check_update_needed env s in
  let auto := AutoUpdateServer (config (self s)) in
  exists do_update installed,
    outcome c = Ret (do_update, installed) /\
    (existsb is_update_app (events r) = true <->
     do_update = true /\ (auto = true \/ force_update = true)) /\
    (do_update = true -> auto = false -> force_update = false ->
     final r = s /\
     existsb is_update_app (events r) = false /\
     events r =
       (events c ++ [Log INFO "Not installing/updating automatically"])%list).
Proof.
  intros Hp. cbv zeta.
  destruct (check_server_update_run env force_update s p Hp)
    as (du & inst & Ho & _ & _ & _ & Hu & Hn).
  exists du, inst. split; [exact Ho |]. split.
  - rewrite Hu, andb_true_iff, orb_true_iff. tauto.
  - intros H1 H2 H3. destruct (Hn H1 H2 H3) as [Hf He].
    repeat split; auto. rewrite Hu, H2, H3. now destruct du.
Qed.

Lemma update_server_invoked_witness :
  existsb is_update_app
    (events (check_server_update
               (sample_env (stats_with "1.3.0") (ProcExited 0) true true)
               true (installed_state "1.2.0"))) = true.
Proof.
  destruct (update_server_invoked
              (sample_env (stats_with "1.3.0") (ProcExited 0) true true)
              true (installed_state "1.2.0")
              "/srv/astro/libs/depotdownloader" eq_refl)
    as (du & inst & Ho & [_ H] & _).
  injection Ho as <- <-.
  apply H. split; [reflexivity | right; reflexivity].
Defined.

(** ** [start_server] *)

Lemma filter_update_events (p : Event -> bool) (t : list Event) :
  (forall e, is_update_event e = true -> p e = false) ->
  forallb is_update_event t = true ->
  filter p t = [].
Proof.
  intros Hp. induction t as [| e t IH]; [reflexivity |].
  cbn [forallb filter]. rewrite andb_true_iff. intros [He Ht].
  rewrite (Hp e He). auto.
Qed.

Lemma constructed_set_buildversion (l : Launcher) (bv : option string) :
  constructed l -> constructed (set_buildversion bv l).
Proof.
  intros (ds & t & w & ws & p & H). exists ds, t, w, ws, p. exact H.
Qed.

(** A start that fails one of its three checks: the trace is the update
    check, the checks made so far, and a forced exit. *)
Lemma start_server_fatal_run {Version} (env : Env Version) (s : St) :
  constructed (self s) ->
  check_api_health env = false \/
  wineboot_ok env (self s) = false \/
  check_ports_free env = false ->
  exists s1 t1 checks reason,
    start_server env s =
    (Exit 1, s1,
     t1 ++ checks
     ++ [quitting_line false (Some reason); DsKill; forced_report; Sleep 100])%list /\
    forallb is_update_event t1 = true /\
    let W := events (update_wine_prefix env s1) in
    wineboot_ok env (self s1) = wineboot_ok env (self s) /\
    wineexec (self s1) = wineexec (self s) /\
    ((check_api_health env = false /\
      checks =
        [ApiHealth;
         Log ERROR
           "Playfab API is unavailable. Are you connected to the internet?"] /\
      reason = "Playfab API unavailable")
     \/ (check_api_health env = true /\ wineboot_ok env (self s) = false /\
         checks = ApiHealth :: W /\
         reason = "Error while updating WINE prefix")
     \/ (check_api_health env = true /\ wineboot_ok env (self s) = true /\
         check_ports_free env = false /\
         checks = (ApiHealth :: W ++ [DsCheckPortsFree])%list /\
         reason = "Port not available")).
Proof.
  intros Hc Hfail.
  destruct Hc as (ds & th & w & ws & p & Hds & Hth & Hw & Hws & Hp).
  destruct (check_server_update_run env false s p Hp)
    as (du & inst & _ & Ho & [bv Hs] & He & _).
  unfold start_server. rewrite bind_run.
  destruct (check_server_update env false s) as [[o s1] t1].
  cbn [outcome final events fst snd] in *. subst o.
  assert (Hds1 : dedicatedserver (self s1) = Bound (Some ds))
    by (rewrite Hs; exact Hds).
  assert (Hw1 : wineexec (self s1) = Some w) by (rewrite Hs; exact Hw).
  assert (Hwb : wineboot_ok env (self s1) = wineboot_ok env (self s))
    by (rewrite Hs; reflexivity).
  assert (Hb1 : attrs_bound (self s1) (Some ds) (Some th))
    by (split; rewrite Hs; assumption).
  exists s1, t1.
  rewrite bind_assoc, bind_emit, bind_ret. unfold when.
  destruct (check_api_health env) eqn:Hh; cbn [negb].
  - rewrite bind_ret, bind_run.
    pose proof (update_wine_prefix_run env s1 w Hw1) as Hrun.
    cbv zeta in Hrun.
    assert (HW : events (update_wine_prefix env s1) = snd (update_wine_prefix env s1))
      by reflexivity.
    rewrite Hrun in HW at 2. cbn [snd] in HW. rewrite Hrun. clear Hrun.
    rewrite Hwb.
    destruct (wineboot_ok env (self s)) eqn:Hok; cbn [negb].
    + rewrite bind_ret. unfold with_ds, get_dedicatedserver.
      repeat run_rewrite. rewrite Hds1. repeat run_rewrite.
      destruct (check_ports_free env) eqn:Hpf; cbn [negb].
      * exfalso. destruct Hfail as [H | [H | H]]; discriminate H.
      * rewrite bind_run, (exit_forced_run s1 _ _ _ Hb1).
        cbn [prepend truthy app].
        exists (ApiHealth :: events (update_wine_prefix env s1)
                ++ [DsCheckPortsFree])%list, "Port not available".
        split; [| split; [exact He | split; [congruence | split;
          [congruence | right; right; repeat split;
                        cbn [events snd]; rewrite ?HW; reflexivity]]]].
        rewrite HW. cbn [app]. repeat rewrite <- app_assoc. reflexivity.
    + rewrite bind_run, (exit_forced_run s1 _ _ _ Hb1).
      cbn [prepend truthy app].
      exists (ApiHealth :: events (update_wine_prefix env s1)),
        "Error while updating WINE prefix".
      split; [| split; [exact He | split; [congruence | split;
        [congruence | right; left; repeat split;
                      cbn [events snd]; rewrite ?HW; reflexivity]]]].
      rewrite HW. cbn [app]. repeat rewrite <- app_assoc. reflexivity.
  - unfold log. rewrite bind_assoc, bind_emit, bind_run,
      (exit_forced_run s1 _ _ _ Hb1).
    cbn [prepend truthy app].
    eexists _, "Playfab API unavailable".
    split; [| split; [exact He | split; [exact Hwb | split;
      [congruence | left; repeat split; reflexivity]]]].
    reflexivity.
Qed.

Lemma wineboot_events {Version} (env : Env Version) (s : St) (w : string) :
  wineexec (self s) = Some w ->
  let W := events (update_wine_prefix env s) in
  filter is_launch W = [] /\
  filter is_api_health W = [] /\
  filter is_ports_check W = [] /\
  count is_popen W = 1%nat.
Proof.
  intros Hw. cbv zeta. unfold count.
  pose proof (update_wine_prefix_run env s w Hw) as Hrun.
  cbv zeta in Hrun. rewrite Hrun. cbn [events snd].
  destruct (wineboot_result env (self s)) as [e | code];
    [unfold wineboot_failure_line; destruct (is_timeout_expired e) |];
    repeat split; reflexivity.
Qed.

(** C6: when the Playfab API is unreachable, the WINE prefix cannot be
    prepared or a port is taken, [start_server] ends the application with
    exit code 1 after logging the reason; the child process is not started;
    none of the three checks is made twice. *)
Theorem start_server_fatal {Version} (env : Env Version) (s : St) :
  constructed (self s) ->
  check_api_health env = false \/
  wineboot_ok env (self s) = false \/
  check_ports_free env = false ->
  let r := start_server env s in
  let reason :=
    if negb (check_api_health env) then "Playfab API unavailable"
    else if negb (wineboot_ok env (self s)) then
      "Error while updating WINE prefix"
    else "Port not available" in
  outcome r = Exit 1 /\
  In (Log INFO ("Quitting... (Reason: " ++ reason ++ ")")) (events r) /\
  filter is_launch (events r) = [] /\
  (count is_api_health (events r) <= 1)%nat /\
  (count is_popen (events r) <= 1)%nat /\
  (count is_ports_check (events r) <= 1)%nat.
Proof.
  intros Hc Hfail. cbv zeta.
  destruct (start_server_fatal_run env s Hc Hfail)
    as (s1 & t1 & checks & reason & Hrun & He & Hok & Hwx & Hcases).
  destruct Hc as (ds & th & w & ws & p & Hds & Hth & Hw & Hws & Hp).
  rewrite Hw in Hwx.
  destruct (wineboot_events env s1 w Hwx) as (W1 & W2 & W3 & W4).
  rewrite Hrun. cbn [outcome events fst snd]. unfold count in *.
  rewrite !filter_app.
  rewrite (filter_update_events is_launch t1),
    (filter_update_events is_api_health t1),
    (filter_update_events is_popen t1),
    (filter_update_events is_ports_check t1)
    by (auto; now intros []).
  cbn [app].
  destruct Hcases as [(Hh & -> & ->) | [(Hh & Hk & -> & ->)
                                       | (Hh & Hk & Hpf & -> & ->)]];
    rewrite Hh, ?Hk; cbn [negb];
    (split; [reflexivity |]);
    (split; [apply in_or_app; right; apply in_or_app; right; left;
             reflexivity |]);
    cbn [filter is_launch is_api_health is_popen is_ports_check app length];
    rewrite ?filter_app, ?W1, ?W2, ?W3, ?length_app, ?W4;
    unfold quitting_line, forced_report; simpl;
    repeat split; lia.
Qed.

Lemma start_server_fatal_witness :
  outcome (start_server
             (sample_env (stats_with "1.3.0") (ProcExited 0) false true)
             (sample_state STOPPED false)) = Exit 1.
Proof.
  refine (proj1 (start_server_fatal
                   (sample_env (stats_with "1.3.0") (ProcExited 0) false true)
                   (sample_state STOPPED false) _ _)).
  - exists (sample_ds STOPPED false), sample_thread, "/usr/bin/wine",
      "/usr/bin/wineserver", "/srv/astro/libs/depotdownloader".
    repeat split; reflexivity.
  - left. reflexivity.
Defined.

(** ** [__init__] *)


(** ** Rules for [wp] *)

Section Rules.

Context {A B : Type}.
Implicit Types (Q : A -> St -> Prop) (X : PyExn -> St -> Prop) (s : St).

Lemma wp_ret (a : A) Q X s : Q a s -> wp (ret a) Q X s.
Proof. intros H. split; [reflexivity | exact H]. Qed.

Lemma wp_raise (e : PyExn) Q X s : X e s -> wp (raise e) Q X s.
Proof. intros H. split; [reflexivity | exact H]. Qed.

Lemma wp_mono (m : M A) Q (Q' : A -> St -> Prop) X s :
  wp m Q X s -> (forall a s', Q a s' -> Q' a s') -> wp m Q' X s.
Proof.
  unfold wp. intros [Ht Ho] HQ. split; [exact Ht |].
  destruct (outcome (m s)); auto.
Qed.

Lemma wp_bind (m : M A) (f : A -> M B) (R : B -> St -> Prop) X s :
  wp m (fun a s' => wp (f a) R X s') X s -> wp (bind m f) R X s.
Proof.
  unfold wp, bind, outcome, final, events.
  destruct (m s) as [[[a | c | e] s1] t1]; cbn [fst snd]; try tauto.
  intros [Ht [Hu Ho]].
  destruct (f a s1) as [[o s2] t2]; cbn [fst snd] in *.
  split; [| exact Ho]. rewrite filter_app, Ht, Hu. reflexivity.
Qed.

(** Sequencing through an intermediate assertion. *)
Lemma wp_seq (I : St -> Prop) (m : M A) (f : A -> M B)
    (R : B -> St -> Prop) X s :
  wp m (fun _ s' => I s') X s ->
  (forall a s', I s' -> wp (f a) R X s') ->
  wp (bind m f) R X s.
Proof.
  intros Hm Hf. apply wp_bind. apply (wp_mono _ _ _ _ _ Hm). auto.
Qed.

Lemma wp_try (m : M A) (h : PyExn -> M A) Q X s :
  wp m Q (fun e s' => wp (h e) Q X s') s -> wp (try_except m h) Q X s.
Proof.
  unfold wp, try_except, outcome, final, events.
  destruct (m s) as [[[a | c | e] s1] t1]; cbn [fst snd]; try tauto.
  intros [Ht [Hu Ho]].
  destruct (h e s1) as [[o s2] t2]; cbn [fst snd] in *.
  split; [| exact Ho]. rewrite filter_app, Ht, Hu. reflexivity.
Qed.

End Rules.

Lemma wp_emit (e : Event) (Q : unit -> St -> Prop) X s :
  touches_handle e = false -> Q tt s -> wp (emit e) Q X s.
Proof.
  intros He H. split; [| exact H].
  cbn [emit events snd filter]. now rewrite He.
Qed.

Lemma wp_get_self (Q : Launcher -> St -> Prop) X s :
  Q (self s) s -> wp get_self Q X s.
Proof. intros H. split; [reflexivity | exact H]. Qed.

Lemma wp_get_disk (Q : Disk -> St -> Prop) X s :
  Q (disk s) s -> wp get_disk Q X s.
Proof. intros H. split; [reflexivity | exact H]. Qed.

Lemma wp_assign (f : Launcher -> Launcher) (Q : unit -> St -> Prop) X s :
  Q tt {| self := f (self s); disk := disk s |} -> wp (assign f) Q X s.
Proof. intros H. split; [reflexivity | exact H]. Qed.

(** [exit()] while both handles are still [None]. *)
Lemma wp_exit_early (reason : option string) (Q : unit -> St -> Prop) X s :
  init_inv None None false false s -> wp (exit false reason) Q X s.
Proof.
  intros (Hd & Ht & _). unfold wp.
  rewrite (exit_forced_run s reason None None) by (split; assumption).
  cbn [outcome events fst snd truthy app]. split; [| reflexivity].
  unfold quitting_line. now destruct (truthy_str reason).
Qed.

(** One step of a [wp] goal. *)
Ltac wp_step :=
  cbv beta;
  lazymatch goal with
  | |- wp (bind _ _) _ _ _ => apply wp_bind
  | |- wp (ret _) _ _ _ => apply wp_ret
  | |- wp (raise _) _ _ _ => apply wp_raise
  | |- wp (emit _) _ _ _ => apply wp_emit; [reflexivity |]
  | |- wp (log _ _) _ _ _ => apply wp_emit; [reflexivity |]
  | |- wp get_self _ _ _ => apply wp_get_self
  | |- wp get_disk _ _ _ => apply wp_get_disk
  | |- wp (assign _) _ _ _ => apply wp_assign
  | |- wp (try_except _ _) _ _ _ => apply wp_try
  | |- wp (when ?c _) _ _ _ => unfold when
  | |- wp (lift ?r) _ _ _ => unfold lift
  | |- wp (if ?c then _ else _) _ _ _ => destruct c eqn:?
  | |- wp (match ?x with _ => _ end) _ _ _ => destruct x eqn:?
  end.

Ltac inv_tac :=
  repeat match goal with
  | H : init_inv _ _ _ _ _ |- _ => destruct H as (? & ? & ? & ?)
  end;
  unfold init_inv; cbn [self disk]; repeat split; auto; try discriminate.

(** ** [__init__] *)

Section Init.

Context {Version : Type}.
Variable env : Env Version.

Lemma init_config_wp cfg_path astro_path force_debug_log s :
  init_inv None None false false s ->
  wp (init_config env cfg_path astro_path force_debug_log)
     (fun _ => init_inv None None false false) init_raises s.
Proof.
  intros Hi. unfold init_config.
  repeat wp_step; try (apply wp_exit_early); inv_tac.
Qed.

Lemma truthy_both (a b : option string) :
  negb (truthy a) || negb (truthy b) = false ->
  exists w ws, a = Some w /\ b = Some ws.
Proof. destruct a, b; try discriminate. eauto. Qed.

Lemma init_wine_wp s :
  init_inv None None false false s ->
  wp (init_wine env) (fun _ => init_inv None None true false) init_raises s.
Proof.
  intros Hi. unfold init_wine.
  repeat wp_step; try (apply wp_exit_early; inv_tac);
    destruct Hi as (? & ? & _ & _); unfold init_inv; cbn [self disk];
    (repeat split; auto; try discriminate; intros _);
    match goal with
    | H : _ || _ = false |- _ => exact (truthy_both _ _ H)
    end.
Qed.

Lemma init_depotdl_wp depotdl_exec s :
  init_inv None None true false s ->
  wp (init_depotdl env depotdl_exec) (fun _ => init_inv None None true true) init_raises s.
Proof.
  intros (Hd & Ht & Hw & _). specialize (Hw eq_refl).
  unfold init_depotdl.
  repeat wp_step; unfold init_inv; cbn [self disk] in *;
    repeat split; auto; intros _;
    cbn [depotdl_path set_depotdl_path truthy negb] in *;
    eauto; try discriminate;
    match goal with
    | H : negb (truthy ?p) = false |- _ =>
        destruct p; [eauto | discriminate H]
    end.
Qed.

Lemma setup_notifications_wp o t s :
  init_inv o t true true s ->
  wp setup_notifications (fun _ => init_inv o t true true) init_raises s.
Proof.
  intros (Hd & Ht & Hw & Hp).
  specialize (Hw eq_refl). specialize (Hp eq_refl).
  unfold setup_notifications.
  repeat wp_step; unfold init_raises, config_error, init_inv; cbn [self disk] in *;
    auto; repeat split; auto.
Qed.

(** From any object, [__init__] returns a constructed launcher, or leaves
    with code 1, or raises for a missing notification section; it makes no
    call on the child process or on the status thread. *)
Lemma init_wp cfg_path astro_path depotdl_exec force_debug_log s :
  wp (init env cfg_path astro_path depotdl_exec force_debug_log)
     (fun _ s' => constructed (self s')) init_raises s.
Proof.
  unfold init.
  do 8 wp_step.
  apply (wp_seq (init_inv None None false false)).
  { apply init_config_wp. inv_tac. }
  intros _ s1 H1.
  apply (wp_seq (init_inv None None true false)).
  { now apply init_wine_wp. }
  intros _ s2 H2.
  do 6 wp_step.
  apply (wp_seq (init_inv None None true true)).
  { apply init_depotdl_wp. inv_tac. }
  intros _ s3 H3.
  do 10 wp_step.
  apply (wp_seq (fun s' => exists t, init_inv None (Some t) true true s')).
  { eapply wp_mono.
    - eapply (setup_notifications_wp None (Some _)).
      destruct H3 as (? & ? & ? & ?). unfold init_inv. simpl.
      repeat split; auto.
    - intros a s' H. eexists. exact H. }
  intros _ s4 (t & Hd & Ht & Hw & Hp).
  destruct (Hw eq_refl) as (w & ws & Hw1 & Hw2).
  destruct (Hp eq_refl) as (p & Hp1).
  wp_step. cbn [self].
  exists (new_dedicatedserver env (self s4)).
  eexists. exists w, ws, p. cbn. rewrite Ht. auto.
Qed.

End Init.

(** C10: [exit] is safe at every point of the launcher's life.  Once the
    two attributes are bound, to an object or to [None], [exit] returns or
    leaves with code 0 or 1 and never raises; it calls the child process
    only when the handle is there, and the status thread only when the
    thread is there.  [__init__] binds both to [None] first, so from any
    object its own calls of [exit] leave with code 1 without a call on
    either handle, and the only exceptions of [__init__] are those of a
    missing notification section. *)
Theorem exit_safe {Version} (env : Env Version) :
  (forall s graceful reason o t,
     attrs_bound (self s) o t ->
     let r := exit graceful reason s in
     (outcome r = Ret tt \/ outcome r = Exit 0 \/ outcome r = Exit 1) /\
     (In DsKill (events r) \/ In DsShutdown (events r) -> o <> None) /\
     (forall h m, In (StatusUpdate h m) (events r) -> t <> None)) /\
  (forall cfg_path astro_path depotdl_exec force_debug_log s,
     let r := init env cfg_path astro_path depotdl_exec force_debug_log s in
     filter touches_handle (events r) = [] /\
     (outcome r = Ret tt -> constructed (self (final r))) /\
     (forall code, outcome r = Exit code -> code = 1) /\
     (forall e, outcome r = Raise e -> config_error e)).
Proof.
  split.
  - intros s graceful reason o t Hb. cbv zeta. destruct graceful.
    + destruct Hb as [Hd _].
      assert (Hq : is_log (quitting_line true reason) = true)
        by (unfold quitting_line; now destruct (truthy_str reason)).
      destruct o as [ds |].
      * destruct (connected (rcon ds)) eqn:Hc, (status ds) eqn:Hs;
          first
            [ rewrite (exit_graceful_kill s reason ds) by auto
            | rewrite (exit_graceful_shutdown s reason ds) by auto
            | rewrite (exit_graceful_quit s reason (Some ds))
                by (auto; right; exists ds; rewrite Hs;
                    repeat split; discriminate) ];
          cbn [outcome events fst snd]; (split; [auto |]);
          (split; [discriminate |]);
          intros h m Hin; exfalso; destruct (quitting_line true reason);
          simpl in Hin; intuition discriminate.
      * rewrite (exit_graceful_quit s reason None) by auto.
        cbn [outcome events fst snd]. split; [auto |].
        split; intros; exfalso; destruct (quitting_line true reason);
          try discriminate; simpl in *; intuition discriminate.
    + rewrite (exit_forced_run s reason o t Hb).
      cbn [outcome events fst snd]. split; [auto |].
      assert (Hq : is_log (quitting_line false reason) = true)
        by (unfold quitting_line; now destruct (truthy_str reason)).
      destruct (quitting_line false reason); try discriminate.
      unfold forced_report.
      split; intros; destruct o, t; try discriminate;
        exfalso; simpl in *; intuition discriminate.
  - intros cfg_path astro_path depotdl_exec force_debug_log s. cbv zeta.
    destruct (init_wp env cfg_path astro_path depotdl_exec force_debug_log s)
      as [Ht Ho].
    split; [exact Ht |].
    destruct (outcome _) as [[] | c | e]; repeat split; try discriminate.
    + intros _. exact Ho.
    + intros c' [= <-]. exact Ho.
    + intros e' [= <-]. exact Ho.
Qed.

Lemma exit_safe_witness :
  outcome (exit false None early_state) = Exit 1.
Proof.
  destruct (proj1 (exit_safe
                     (sample_env (stats_with "1.3.0") (ProcExited 0) true true))
              early_state false None None None (conj eq_refl eq_refl))
    as ([H | [H | H]] & _); [discriminate H | discriminate H | exact H].
Defined.

(** A configuration file that cannot be read: [__init__] leaves with code 1
    from the blank object, where the attributes are not yet bound. *)
Example init_config_failure :
  let env :=
    {| parse_input := fun _ => ParseError "";
       environ := [];
       run_process := fun _ _ _ _ => ProcExited 0;
       net_test_local := fun _ _ _ => true;
       net_test_nonlocal := fun _ _ => true;
       stats_response := fun _ => inr JNull;
       version_parse := Dotted.parse;
       version_gt := Dotted.gt;
       check_api_health := true;
       check_ports_free := true;
       ds_start := inr true;
       dl_depotdownloader := fun _ _ d => d;
       update_app := fun _ _ _ _ d => (true, d);
       abspath := fun p => p;
       which := fun _ => None;
       getcwd := "/srv/astro";
       ensure_toml_config := fun _ =>
         inl (ValueError "Specified config path doesn't point to a file!");
       json_dumps := fun _ => "{}";
       new_dedicatedserver := fun _ => sample_ds STOPPED false |} in
  init env "/srv/astro" None None false
    {| self := blank; disk := sample_disk None |}
  = (Exit 1,
     {| self := set_config_path "/srv/astro" early_launcher;
        disk := sample_disk None |},
     [LoggingSetup "prepare"; LoggingSetup "setup_console";
      Log INFO "Configuration file path: /srv/astro";
      Log ERROR
        "Error while loading config file (ValueError): Specified config path doesn't point to a file!";
      Log ERROR "Please check the config path parameter and/or config file";
      Log INFO "Quitting..."; Sleep 100]).
Proof. reflexivity. Qed.

(** The same call of [exit] on the blank object would raise. *)
Example exit_before_binding :
  outcome (exit false None {| self := blank; disk := sample_disk None |})
  = Raise (AttributeError
             "'AstroTuxLauncher' object has no attribute 'dedicatedserver'").
Proof. reflexivity. Qed.

(** With the sample collaborators [__init__] returns a constructed launcher. *)
Example init_returns :
  let r := init (sample_env (stats_with "1.3.0") (ProcExited 0) true true)
             "launcher.toml" None None false
             {| self := blank; disk := sample_disk None |} in
  outcome r = Ret tt /\
  dedicatedserver (self (final r)) = Bound (Some (sample_ds STOPPED false)) /\
  status_thread (self (final r)) = Bound (Some sample_thread) /\
  wineexec (self (final r)) = Some "/usr/bin/wine" /\
  depotdl_path (self (final r)) = Some "libs/depotdownloader".
Proof. repeat split. Qed.

(** * The rest of the launcher *)

(** ** The wineboot call *)

Lemma dict_get_del_same (k : string) (d : dict) :
  dict_get k (dict_del k d) = None.
Proof.
  induction d as [| [k' v] d IH]; [reflexivity |].
  unfold dict_del in *. cbn [filter fst].
  destruct (String.eqb k' k) eqn:E; cbn [negb]; [exact IH |].
  cbn [dict_get]. now rewrite E.
Qed.

Lemma dict_get_del_other (k k' : string) (d : dict) :
  k' <> k -> dict_get k' (dict_del k d) = dict_get k' d.
Proof.
  intros Hk. induction d as [| [k0 v] d IH]; [reflexivity |].
  unfold dict_del in *. cbn [filter fst dict_get].
  destruct (String.eqb k0 k) eqn:E; cbn [negb dict_get].
  - apply String.eqb_eq in E. subst k0.
    destruct (String.eqb k k') eqn:E'; [| exact IH].
    apply String.eqb_eq in E'. congruence.
  - now rewrite IH.
Qed.

Lemma dict_has_get (k : string) (d : dict) :
  dict_has k d = false -> dict_get k d = None.
Proof.
  induction d as [| [k' v] d IH]; [reflexivity |].
  unfold dict_has in *. cbn [existsb fst dict_get].
  destruct (String.eqb k' k); [discriminate | exact IH].
Qed.

Lemma dict_get_set_same (k v : string) (d : dict) :
  dict_get k (dict_set k v d) = Some v.
Proof.
  unfold dict_set. destruct (dict_has k d) eqn:H.
  - induction d as [| [k' v'] d IH]; [discriminate |].
    unfold dict_has in *. cbn [existsb fst map dict_get] in *.
    destruct (String.eqb k' k) eqn:E; cbn [dict_get].
    + now rewrite String.eqb_refl.
    + rewrite E. apply IH. exact H.
  - induction d as [| [k' v'] d IH]; cbn [app dict_get].
    + now rewrite String.eqb_refl.
    + unfold dict_has in *. cbn [existsb fst] in H.
      destruct (String.eqb k' k); [discriminate |]. apply IH. exact H.
Qed.

Lemma dict_get_set_other (k k' v : string) (d : dict) :
  k' <> k -> dict_get k' (dict_set k v d) = dict_get k' d.
Proof.
  intros Hk. unfold dict_set. destruct (dict_has k d).
  - induction d as [| [k0 v0] d IH]; [reflexivity |].
    cbn [map fst dict_get].
    destruct (String.eqb k0 k) eqn:E; cbn [dict_get].
    + apply String.eqb_eq in E. subst k0.
      destruct (String.eqb k k') eqn:E'; [| exact IH].
      apply String.eqb_eq in E'. congruence.
    + now rewrite IH.
  - induction d as [| [k0 v0] d IH]; cbn [app dict_get].
    + destruct (String.eqb k k') eqn:E'; [| reflexivity].
      apply String.eqb_eq in E'. congruence.
    + now rewrite IH.
Qed.

(** Without a wine executable the method raises before it spawns. *)
Lemma update_wine_prefix_no_wine {Version} (env : Env Version) (s : St) :
  wineexec (self s) = None ->
  exists i,
    update_wine_prefix env s =
    (Raise (TypeError ("sequence item " ++ str_of_Z i
                       ++ ": expected str instance, NoneType found")),
     s, [Log DEBUG "Ensuring WINE prefix is setup..."]).
Proof.
  intros Hw. unfold update_wine_prefix. unfold_ops.
  rewrite bind_emit, bind_get_self. unfold wineboot_cmd. rewrite Hw.
  destruct (WrapperPath (config (self s))) as [wr |]; cbn [truthy_str].
  - destruct (negb (String.eqb wr "")); cbn [all_strings];
      eexists; reflexivity.
  - cbn [all_strings]. eexists. reflexivity.
Qed.

Lemma wineboot_argv_command (l : Launcher) (w : string) :
  wineexec l = Some w -> wineboot_argv l = wineboot_command l w.
Proof.
  intros Hw. unfold wineboot_argv, wineboot_cmd, wineboot_command.
  rewrite Hw. destruct (WrapperPath (config l)) as [wr |]; cbn [truthy_str].
  - destruct (negb (String.eqb wr "")); reflexivity.
  - reflexivity.
Qed.

Lemma wineboot_env_lookup {Version} (env : Env Version) (l : Launcher) :
  let e := wineboot_env env l in
  dict_get "DISPLAY" e = None /\
  dict_get "WINEPREFIX" e = Some (WinePrefixPath (config l)) /\
  dict_get "WINEDEBUG" e = Some "-all" /\
  (forall k, k <> "DISPLAY" -> k <> "WINEPREFIX" -> k <> "WINEDEBUG" ->
     dict_get k e = dict_get k (environ env)).
Proof.
  cbv zeta. unfold wineboot_env.
  assert (Hd : dict_get "DISPLAY"
                 (if dict_has "DISPLAY" (environ env)
                  then dict_del "DISPLAY" (environ env) else environ env)
               = None).
  { destruct (dict_has "DISPLAY" (environ env)) eqn:H.
    - apply dict_get_del_same.
    - now apply dict_has_get. }
  repeat split.
  - rewrite !dict_get_set_other by discriminate. exact Hd.
  - rewrite dict_get_set_other by discriminate. apply dict_get_set_same.
  - apply dict_get_set_same.
  - intros k H1 H2 H3. rewrite !dict_get_set_other by assumption.
    destruct (dict_has "DISPLAY" (environ env)); [| reflexivity].
    now apply dict_get_del_other.
Qed.

Lemma in_update_wine_prefix_popen {Version} (env : Env Version) (s : St)
    argv e cwd t :
  In (Popen argv e cwd t) (events (update_wine_prefix env s)) ->
  exists w,
    wineexec (self s) = Some w /\
    argv = wineboot_command (self s) w /\
    e = wineboot_env env (self s) /\
    cwd = AstroServerPath (config (self s)) /\
    t = WineBootTimeout (config (self s)).
Proof.
  destruct (wineexec (self s)) as [w |] eqn:Hw.
  - pose proof (update_wine_prefix_run env s w Hw) as Hrun.
    cbv zeta in Hrun. rewrite Hrun. cbn [events snd].
    rewrite (wineboot_argv_command _ w Hw).
    intros Hin. exists w. split; [reflexivity |].
    apply in_app_or in Hin. destruct Hin as [Hin | Hin].
    + simpl in Hin. destruct Hin as [H | [H | [H | []]]]; try discriminate.
      injection H as <- <- <- <-. auto.
    + exfalso. destruct (wineboot_result env (self s)) as [x | c];
        [| destruct Hin].
      unfold wineboot_failure_line in Hin.
      destruct (is_timeout_expired x); simpl in Hin;
        destruct Hin as [H | []]; discriminate.
  - destruct (update_wine_prefix_no_wine env s Hw) as [i Hrun].
    rewrite Hrun. simpl. intros [H | []]. discriminate.
Qed.

(** X1: the environment wineboot runs in has no DISPLAY, has WINEPREFIX set
    to the configured prefix and WINEDEBUG set to -all, and agrees with the
    environment of the launcher on every other variable. *)
Theorem wineboot_environment {Version} (env : Env Version) (s : St)
    argv e cwd t :
  In (Popen argv e cwd t) (events (update_wine_prefix env s)) ->
  dict_get "DISPLAY" e = None /\
  dict_get "WINEPREFIX" e = Some (WinePrefixPath (config (self s))) /\
  dict_get "WINEDEBUG" e = Some "-all" /\
  (forall k, k <> "DISPLAY" -> k <> "WINEPREFIX" -> k <> "WINEDEBUG" ->
     dict_get k e = dict_get k (environ env)).
Proof.
  intros Hin.
  destruct (in_update_wine_prefix_popen env s _ _ _ _ Hin)
    as (w & _ & _ & -> & _).
  apply wineboot_env_lookup.
Qed.

Lemma wineboot_environment_witness :
  dict_get "DISPLAY"
    (wineboot_env (sample_env (stats_with "1.3.0") (ProcExited 0) true true)
       (sample_launcher STOPPED false)) = None.
Proof.
  refine (proj1 (wineboot_environment
                   (sample_env (stats_with "1.3.0") (ProcExited 0) true true)
                   (sample_state STOPPED false)
                   ["/usr/bin/wine"; "wineboot"] _
                   "AstroneerServer" 30 _)).
  simpl. right. right. left. reflexivity.
Defined.

(** X2: with a wine executable, wineboot is spawned exactly once, as
    [wrapper] wine wineboot with the wrapper first when one is configured,
    in the server directory and with the configured timeout; without one
    the method raises a TypeError and spawns nothing. *)
Theorem wineboot_spawn {Version} (env : Env Version) (s : St) :
  (forall w, wineexec (self s) = Some w ->
     filter is_popen (events (update_wine_prefix env s)) =
     [Popen (wineboot_command (self s) w) (wineboot_env env (self s))
        (AstroServerPath (config (self s)))
        (WineBootTimeout (config (self s)))]) /\
  (wineexec (self s) = None ->
     filter is_popen (events (update_wine_prefix env s)) = [] /\
     exists msg, outcome (update_wine_prefix env s) = Raise (TypeError msg)).
Proof.
  split.
  - intros w Hw. pose proof (update_wine_prefix_run env s w Hw) as Hrun.
    cbv zeta in Hrun. rewrite Hrun. cbn [events snd].
    rewrite (wineboot_argv_command _ w Hw), filter_app.
    cbn [filter is_popen app].
    destruct (wineboot_result env (self s)) as [x | c]; [| reflexivity].
    unfold wineboot_failure_line. now destruct (is_timeout_expired x).
  - intros Hw. destruct (update_wine_prefix_no_wine env s Hw) as [i Hrun].
    rewrite Hrun. split; [reflexivity | eexists; reflexivity].
Qed.

Lemma wineboot_spawn_witness :
  filter is_popen
    (events (update_wine_prefix
               (sample_env (stats_with "1.3.0") (ProcExited 1) true true)
               (sample_state STOPPED false)))
  = [Popen ["/usr/bin/wine"; "wineboot"]
       [("HOME", "/root"); ("WINEPREFIX", "winepfx"); ("WINEDEBUG", "-all")]
       "AstroneerServer" 30].
Proof.
  exact (proj1 (wineboot_spawn
                  (sample_env (stats_with "1.3.0") (ProcExited 1) true true)
                  (sample_state STOPPED false))
           "/usr/bin/wine" eq_refl).
Defined.

(** X3: a wineboot that exits with a code other than 0 is reported by the
    return value alone, nothing is logged about it; a timeout is logged at
    level DEBUG, any other exception at level ERROR with its text. *)
Theorem wineboot_failure_logging {Version} (env : Env Version) (s : St)
    (w : string) :
  wineexec (self s) = Some w ->
  let r := update_wine_prefix env s in
  let p := wineboot_result env (self s) in
  let timeout := WineBootTimeout (config (self s)) in
  (forall code, p = ProcExited code ->
     outcome r = Ret (code =? 0) /\
     length (filter is_log (events r)) = 2%nat) /\
  (p = ProcRaises TimeoutExpired ->
     last (events r) (Sleep 0) =
     Log DEBUG ("Wine process took longer than " ++ str_of_Z timeout
                ++ " seconds, aborting")) /\
  (forall e, p = ProcRaises e -> e <> TimeoutExpired ->
     last (events r) (Sleep 0) =
     Log ERROR ("Error occurred during updating of wine prefix: "
                ++ exn_str e)).
Proof.
  intros Hw. cbv zeta.
  pose proof (update_wine_prefix_run env s w Hw) as Hrun.
  cbv zeta in Hrun. rewrite Hrun. cbn [outcome events fst snd].
  unfold wineboot_ok. repeat split.
  - now rewrite H.
  - now rewrite H.
  - intros H. now rewrite H.
  - intros e H Hne. rewrite H. unfold wineboot_failure_line.
    destruct e; try reflexivity. congruence.
Qed.

Lemma wineboot_failure_logging_witness :
  outcome (update_wine_prefix
             (sample_env (stats_with "1.3.0") (ProcExited 1) true true)
             (sample_state STOPPED false)) = Ret false.
Proof.
  exact (proj1 (proj1 (wineboot_failure_logging
                  (sample_env (stats_with "1.3.0") (ProcExited 1) true true)
                  (sample_state STOPPED false) "/usr/bin/wine" eq_refl)
                  1 eq_refl)).
Defined.

(** ** [update_server] *)

Lemma last_app_cons {A} (l m : list A) (x d : A) :
  last (l ++ x :: m)%list d = last (x :: m) d.
Proof.
  induction l as [| a l IH]; [reflexivity |].
  cbn [app]. rewrite <- IH. cbn [last].
  destruct (l ++ x :: m)%list eqn:E; [| reflexivity].
  now destruct l.
Qed.

(** The whole run of [update_server]. *)
Lemma update_server_trace {Version} (env : Env Version) (s : St) (p : string) :
  depotdl_path (self s) = Some p ->
  let astro := AstroServerPath (config (self s)) in
  let d1 := if path_exists (disk s) p then disk s
            else dl_depotdownloader env (dirname p) (basename p) (disk s) in
  let success := fst (update_app env p "728470" "windows" astro d1) in
  let d2 := snd (update_app env p "728470" "windows" astro d1) in
  let bv := read_build_version d2 astro in
  update_server env s =
  (Ret tt,
   {| self := set_buildversion bv (self s); disk := d2 |},
   (if path_exists (disk s) p then []
    else [Log INFO "DepotDownloader not found, downloading...";
          DlDepotDownloader (dirname p) (basename p)])
   ++ [Log INFO "Updating Astroneer Dedicated Server app from Steam...";
       UpdateApp p "728470" "windows" astro;
       if success && truthy bv then
         Log INFO ("Sucessfully updated Astroneer Dedicated Server to version "
                   ++ match bv with Some v => v | None => "None" end)
       else Log ERROR "Error while updating Astroneer Dedicated Server"])%list.
Proof.
  intros Hp. cbv zeta.
  unfold update_server, steam_update_app, steam_dl_depotdownloader, as_path.
  unfold_ops. rewrite bind_get_self, Hp, bind_ret, bind_get_disk.
  destruct (path_exists (disk s) p); cbn [negb]; repeat run_rewrite;
    destruct (update_app env _ _ _ _ _) as [success d2];
    repeat run_rewrite; cbn [fst snd];
    destruct (success && truthy _); repeat run_rewrite; reflexivity.
Qed.

(** X4: [update_server] downloads DepotDownloader exactly when nothing
    exists at its path, and does so before the one call of
    [steam.update_app], which is made for app 728470, platform windows,
    into the server directory. *)
Theorem update_server_calls {Version} (env : Env Version) (s : St)
    (p : string) :
  depotdl_path (self s) = Some p ->
  let t := effects (events (update_server env s)) in
  let astro := AstroServerPath (config (self s)) in
  t = ((if path_exists (disk s) p then []
        else [DlDepotDownloader (dirname p) (basename p)])
       ++ [UpdateApp p "728470" "windows" astro])%list.
Proof.
  intros Hp. cbv zeta.
  pose proof (update_server_trace env s p Hp) as Hrun. cbv zeta in Hrun.
  rewrite Hrun. cbn [events snd]. unfold effects. rewrite filter_app.
  destruct (path_exists (disk s) p); cbn [filter is_log negb app];
    destruct (_ && _); reflexivity.
Qed.

Lemma update_server_calls_witness :
  effects (events (update_server
                     (sample_env (stats_with "1.3.0") (ProcExited 0) true true)
                     {| self := sample_launcher STOPPED false;
                        disk := {| path_exists := fun _ => false;
                                   path_isfile := fun _ => false;
                                   read_build_version := fun _ => None |} |}))
  = [DlDepotDownloader "/srv/astro/libs" "depotdownloader";
     UpdateApp "/srv/astro/libs/depotdownloader" "728470" "windows"
       "AstroneerServer"].
Proof.
  exact (update_server_calls
           (sample_env (stats_with "1.3.0") (ProcExited 0) true true)
           {| self := sample_launcher STOPPED false;
              disk := {| path_exists := fun _ => false;
                         path_isfile := fun _ => false;
                         read_build_version := fun _ => None |} |}
           "/srv/astro/libs/depotdownloader" eq_refl).
Defined.

(** X5: [update_server] always returns, also when the update fails: it
    rebinds [buildversion] to what the installation reports afterwards and
    touches no other attribute; its last line reports success when
    [steam.update_app] succeeded and a build version can be read, and an
    error otherwise. *)
Theorem update_server_result {Version} (env : Env Version) (s : St)
    (p : string) :
  depotdl_path (self s) = Some p ->
  let r := update_server env s in
  let astro := AstroServerPath (config (self s)) in
  let d1 := if path_exists (disk s) p then disk s
            else dl_depotdownloader env (dirname p) (basename p) (disk s) in
  let success := fst (update_app env p "728470" "windows" astro d1) in
  let bv := read_build_version (disk (final r)) astro in
  outcome r = Ret tt /\
  disk (final r) = snd (update_app env p "728470" "windows" astro d1) /\
  self (final r) = set_buildversion bv (self s) /\
  (forall v, success = true -> bv = Some v ->
     last (events r) (Sleep 0) =
     Log INFO ("Sucessfully updated Astroneer Dedicated Server to version "
               ++ v)) /\
  (success = false \/ bv = None ->
   last (events r) (Sleep 0) =
   Log ERROR "Error while updating Astroneer Dedicated Server").
Proof.
  intros Hp. cbv zeta.
  pose proof (update_server_trace env s p Hp) as Hrun. cbv zeta in Hrun.
  rewrite Hrun. cbn [outcome final events fst snd self disk].
  rewrite !last_app_cons. cbn [last]. repeat split.
  - intros v -> ->. reflexivity.
  - intros [-> | ->]; [reflexivity |]. now rewrite andb_false_r.
Qed.

Lemma update_server_result_witness :
  last (events (update_server
                  (sample_env (stats_with "1.3.0") (ProcExited 0) true true)
                  (installed_state "1.3.0"))) (Sleep 0)
  = Log INFO "Sucessfully updated Astroneer Dedicated Server to version 1.3.0".
Proof.
  exact (proj1 (proj2 (proj2 (proj2 (update_server_result
           (sample_env (stats_with "1.3.0") (ProcExited 0) true true)
           (installed_state "1.3.0")
           "/srv/astro/libs/depotdownloader" eq_refl))))
         "1.3.0" eq_refl eq_refl).
Defined.

(** ** [check_server_update] *)

Lemma check_server_update_split {Version} (env : Env Version)
    (force_update : bool) (s : St) (do_update installed : bool) :
  outcome (check_update_needed env s) = Ret (do_update, installed) ->
  check_server_update env force_update s =
  prepend (events (check_update_needed env s))
    (apply_update_decision env force_update do_update installed s).
Proof.
  intros Ho.
  destruct (check_update_needed_run env s)
    as (du & inst & Ho' & Hs & _).
  unfold check_server_update. rewrite bind_run.
  destruct (check_update_needed env s) as [[o s1] t1].
  cbn [outcome final events fst snd] in *. subst o s1.
  injection Ho' as <- <-. reflexivity.
Qed.

Lemma check_update_needed_requests {Version} (env : Env Version) (s : St) :
  filter is_get_request (events (check_update_needed env s)) =
  match installed_version s with
  | None => []
  | Some _ =>
      if executable_present s then [GetRequest ASTRO_SERVER_STATS_URL] else []
  end.
Proof.
  unfold check_update_needed, check_ds_executable, fetch_json, parse_version,
    installed_version, executable_present.
  unfold_ops. rewrite bind_get_self, bind_get_disk.
  destruct (read_build_version _ _) as [old |]; [| run; reflexivity].
  repeat run_rewrite.
  destruct (path_exists _ _ && path_isfile _ _); cbn [negb];
    [| run; reflexivity].
  rewrite bind_run, try_except_run, bind_assoc, bind_emit.
  destruct (stats_response env _) as [e | data]; [run; reflexivity |].
  rewrite bind_ret.
  destruct (subscript data "stats") as [e | stats]; [run; reflexivity |].
  rewrite bind_ret.
  destruct (subscript stats "latestVersion") as [e | nv];
    [run; reflexivity |].
  rewrite bind_ret.
  destruct (version_parse_json env nv) as [e | v]; [run; reflexivity |].
  rewrite bind_ret.
  destruct (version_parse_json env (JStr old)) as [e | ov];
    [run; reflexivity |].
  rewrite bind_ret.
  destruct (version_gt env v ov); run; reflexivity.
Qed.

(** X6: the stats endpoint is not contacted when the server is not
    installed (no build version, or no executable); when it is installed,
    [check_server_update] sends exactly one request, to the stats URL. *)
Theorem version_request {Version} (env : Env Version) (force_update : bool)
    (s : St) (p : string) :
  depotdl_path (self s) = Some p ->
  let requests :=
    filter is_get_request (events (check_server_update env force_update s)) in
  (installed_version s = None \/ executable_present s = false ->
   requests = []) /\
  (forall v, installed_version s = Some v -> executable_present s = true ->
   requests = [GetRequest ASTRO_SERVER_STATS_URL]).
Proof.
  intros Hp. cbv zeta.
  destruct (check_update_needed_run env s) as (du & inst & Ho & _).
  rewrite (check_server_update_split env force_update s du inst Ho).
  rewrite events_prepend, filter_app, check_update_needed_requests.
  assert (Hd : filter is_get_request
                 (events (apply_update_decision env force_update du inst s))
               = []).
  { unfold apply_update_decision. unfold_ops. rewrite bind_get_self.
    pose proof (update_server_trace env s p Hp) as Hrun. cbv zeta in Hrun.
    destruct du, (AutoUpdateServer (config (self s))), force_update, inst;
      cbn [orb]; repeat run_rewrite; rewrite ?Hrun;
      cbn [events snd prepend app filter is_get_request];
      rewrite ?filter_app;
      try (destruct (path_exists (disk s) p);
           cbn [filter is_get_request app];
           destruct (_ && _)); reflexivity. }
  rewrite Hd, app_nil_r. split.
  - intros [-> | H]; [reflexivity |].
    destruct (installed_version s); [now rewrite H | reflexivity].
  - intros v -> ->. reflexivity.
Qed.

Lemma version_request_witness :
  filter is_get_request
    (events (check_server_update
               (sample_env (stats_with "1.3.0") (ProcExited 0) true true)
               false
               {| self := sample_launcher STOPPED false;
                  disk := sample_disk None |})) = [].
Proof.
  refine (proj1 (version_request
                   (sample_env (stats_with "1.3.0") (ProcExited 0) true true)
                   false
                   {| self := sample_launcher STOPPED false;
                      disk := sample_disk None |}
                   "/srv/astro/libs/depotdownloader" eq_refl) _).
  left. reflexivity.
Defined.

(** X7: when no update is needed, [check_server_update] installs nothing
    and leaves the state alone; after the version check it logs one line,
    which depends on [force_update] only. *)
Theorem no_update_needed {Version} (env : Env Version) (force_update : bool)
    (s : St) (installed : bool) :
  outcome (check_update_needed env s) = Ret (false, installed) ->
  check_server_update env force_update s =
  (Ret tt, s,
   events (check_update_needed env s)
   ++ [Log INFO (if force_update then "Noting to do"
                 else "No update available, the Astroneer Dedicated Server is on the newest version")])%list.
Proof.
  intros Ho. rewrite (check_server_update_split env force_update s _ _ Ho).
  unfold apply_update_decision. unfold_ops. rewrite bind_get_self.
  destruct force_update; repeat run_rewrite; reflexivity.
Qed.

Lemma no_update_needed_witness :
  events (check_server_update
            (sample_env (stats_with "1.3.0") (ProcExited 0) true true)
            true (installed_state "1.3.0"))
  = [GetRequest ASTRO_SERVER_STATS_URL; Log INFO "Noting to do"].
Proof.
  exact (f_equal snd
           (no_update_needed
              (sample_env (stats_with "1.3.0") (ProcExited 0) true true)
              true (installed_state "1.3.0") true eq_refl)).
Defined.

(** X8: when an update is needed and is to be made, [check_server_update]
    is the version check followed by [update_server] run from the same
    state; with [AutoUpdateServer] on, one line in between announces an
    installation when the server is not installed and an update when it
    is; with [force_update] alone there is no such line. *)
Theorem update_announced {Version} (env : Env Version) (force_update : bool)
    (s : St) (installed : bool) :
  outcome (check_update_needed env s) = Ret (true, installed) ->
  let auto := AutoUpdateServer (config (self s)) in
  auto = true \/ force_update = true ->
  check_server_update env force_update s =
  prepend
    (events (check_update_needed env s)
     ++ (if auto then
           [Log INFO (if installed then
                        "Automatically updating Astroneer Dedicated Server..."
                      else
                        "Automatically installing Astroneer Dedicated Server...")]
         else []))
    (update_server env s).
Proof.
  intros Ho. cbv zeta. intros Hor.
  rewrite (check_server_update_split env force_update s _ _ Ho).
  unfold apply_update_decision. unfold_ops. rewrite bind_get_self.
  destruct (AutoUpdateServer (config (self s))), force_update, installed;
    cbn [orb]; repeat run_rewrite; rewrite ?prepend_prepend, ?app_nil_r;
    try reflexivity; destruct Hor; discriminate.
Qed.

Lemma update_announced_witness :
  filter is_log
    (events (check_server_update
               (sample_env (stats_with "1.3.0") (ProcExited 0) true true)
               false
               {| self := sample_launcher STOPPED false;
                  disk := sample_disk None |}))
  = [Log WARNING "Astroneer Dedicated Server is not installed yet";
     Log INFO "Automatically installing Astroneer Dedicated Server...";
     Log INFO "Updating Astroneer Dedicated Server app from Steam...";
     Log ERROR "Error while updating Astroneer Dedicated Server"].
Proof.
  rewrite (update_announced
             (sample_env (stats_with "1.3.0") (ProcExited 0) true true)
             false
             {| self := sample_launcher STOPPED false;
                disk := sample_disk None |}
             false eq_refl (or_introl eq_refl)).
  reflexivity.
Defined.

(** ** [start_server] once the checks pass *)

Lemma start_server_checked_run {Version} (env : Env Version) (s : St) :
  constructed (self s) ->
  check_api_health env = true ->
  wineboot_ok env (self s) = true ->
  check_ports_free env = true ->
  exists s1 t1,
    check_server_update env false s = (Ret tt, s1, t1) /\
    (exists bv, self s1 = set_buildversion bv (self s)) /\
    forallb is_update_event t1 = true /\
    start_server env s =
    (match ds_start env with inl _ => Exit 1 | inr _ => Ret tt end, s1,
     t1 ++ ApiHealth :: events (update_wine_prefix env s1)
     ++ [DsCheckPortsFree]
     ++ (if CheckNetwork (config (self s))
         then events (check_network_config env s1) else [])
     ++ [Log DEBUG "Starting input thread..."; InputThreadStart; DsStart]
     ++ start_tail env (self s))%list.
Proof.
  intros Hc Hh Hok Hpf.
  destruct Hc as (ds & th & w & ws & p & Hds & Hth & Hw & Hws & Hp).
  destruct (check_server_update_run env false s p Hp)
    as (du & inst & _ & Ho & [bv Hs] & He & _).
  unfold start_server. rewrite bind_run.
  destruct (check_server_update env false s) as [[o s1] t1].
  cbn [outcome final events fst snd] in *. subst o.
  assert (Hds1 : dedicatedserver (self s1) = Bound (Some ds))
    by (rewrite Hs; exact Hds).
  assert (Hth1 : status_thread (self s1) = Bound (Some th))
    by (rewrite Hs; exact Hth).
  assert (Hw1 : wineexec (self s1) = Some w) by (rewrite Hs; exact Hw).
  assert (Hwb : wineboot_ok env (self s1) = true)
    by (rewrite Hs; exact Hok).
  assert (Hcfg : config (self s1) = config (self s))
    by (rewrite Hs; reflexivity).
  assert (Hb1 : attrs_bound (self s1) (Some ds) (Some th))
    by (split; assumption).
  exists s1, t1. split; [reflexivity |]. split; [eauto |]. split; [exact He |].
  rewrite bind_assoc, bind_emit, bind_ret. unfold when.
  rewrite Hh. cbn [negb]. rewrite bind_ret, bind_run.
  pose proof (update_wine_prefix_run env s1 w Hw1) as Hrun.
  cbv zeta in Hrun. rewrite Hrun. clear Hrun.
  rewrite Hwb. cbn [negb]. rewrite bind_ret.
  unfold with_ds, with_status_thread, get_dedicatedserver, get_status_thread.
  repeat run_rewrite. rewrite Hds1. repeat run_rewrite.
  rewrite Hpf. cbn [negb]. rewrite bind_ret, bind_get_self, Hcfg.
  pose proof (check_network_config_run env s1 ds Hds1) as Hnet.
  cbv zeta in Hnet. unfold start_tail.
  destruct (CheckNetwork (config (self s)));
    [rewrite bind_run, Hnet; cbn [prepend] | rewrite bind_ret];
    unfold log; repeat run_rewrite;
    rewrite bind_run, try_except_run; repeat run_rewrite;
    rewrite Hds1; repeat run_rewrite;
    (destruct (ds_start env) as [e | []]; unfold lift; repeat run_rewrite;
     [ rewrite bind_run, (exit_forced_run s1 _ _ _ Hb1)
     | rewrite Hth1; repeat run_rewrite; rewrite Hcfg;
       destruct (SendStatus (status_cfg (config (self s))));
       repeat run_rewrite; rewrite ?Hth1; repeat run_rewrite;
       rewrite ?Hds1; repeat run_rewrite
     | ]);
    cbn [prepend truthy app negb events snd];
    repeat rewrite <- app_assoc; cbn [app];
    repeat rewrite <- app_assoc; reflexivity.
Qed.

Lemma filter_none {A} (p : A -> bool) (t : list A) :
  (forall e, In e t -> p e = false) -> filter p t = [].
Proof.
  induction t as [| e t IH]; [reflexivity |]. intros H. cbn [filter].
  rewrite (H e (or_introl eq_refl)). apply IH. intros x Hx. apply H. now right.
Qed.

(** The events of the wineboot call are log lines and the spawn. *)
Lemma wine_event_kinds {Version} (env : Env Version) (s : St) (w : string) :
  wineexec (self s) = Some w ->
  forall e, In e (events (update_wine_prefix env s)) ->
    is_log e || is_popen e = true.
Proof.
  intros Hw e. pose proof (update_wine_prefix_run env s w Hw) as Hrun.
  cbv zeta in Hrun. rewrite Hrun. cbn [events snd].
  intros Hin. apply in_app_or in Hin. destruct Hin as [Hin | Hin].
  - simpl in Hin. destruct Hin as [<- | [<- | [<- | []]]]; reflexivity.
  - destruct (wineboot_result env (self s)) as [x | c]; [| destruct Hin].
    unfold wineboot_failure_line in Hin.
    destruct (is_timeout_expired x); destruct Hin as [<- | []]; reflexivity.
Qed.

(** The events of the network check are log lines, probes and the pause. *)
Lemma network_event_kinds {Version} (env : Env Version) (s : St)
    (ds : AstroDedicatedServer) :
  dedicatedserver (self s) = Bound (Some ds) ->
  forall e, In e (events (check_network_config env s)) ->
    is_log e || is_net_test e = true \/ e = Sleep 5000.
Proof.
  intros Hd e. rewrite (check_network_config_run env s ds Hd).
  cbn [events snd]. unfold game_port_lines, security_alert.
  destruct (net_test_local env _ (Port _) false),
    (net_test_nonlocal env _ _),
    (net_test_local env _ (ConsolePort _) true);
    simpl; intros Hin;
    repeat (destruct Hin as [<- | Hin]; [auto |]); destruct Hin.
Qed.

Lemma network_probes {Version} (env : Env Version) (s : St)
    (ds : AstroDedicatedServer) :
  dedicatedserver (self s) = Bound (Some ds) ->
  let ip := PublicIP (ds_config ds) in
  filter is_net_test (events (check_network_config env s)) =
  [NetTestLocal ip (Port (engine_config ds)) false;
   NetTestNonlocal ip (Port (engine_config ds));
   NetTestLocal ip (ConsolePort (ds_config ds)) true].
Proof.
  intros Hd. cbv zeta. rewrite (check_network_config_run env s ds Hd).
  cbn [events snd]. unfold game_port_lines, security_alert.
  destruct (net_test_local env _ (Port _) false),
    (net_test_nonlocal env _ _),
    (net_test_local env _ (ConsolePort _) true); reflexivity.
Qed.

Lemma start_tail_kinds {Version} (env : Env Version) (l : Launcher)
    (p : Event -> bool) :
  (forall lvl msg, p (Log lvl msg) = false) ->
  p DsKill = false -> p (Sleep 100) = false -> p DsServerLoop = false ->
  p StatusThreadStart = false ->
  (forall h m, p (StatusUpdate h m) = false) ->
  filter p (start_tail env l) = [].
Proof.
  intros Hl Hk Hsl Hloop Hts Hsu. apply filter_none. intros e.
  unfold start_tail, quitting_line, forced_report.
  destruct (ds_start env) as [x | []];
    [| destruct (SendStatus (status_cfg (config l))) |];
    simpl; intros Hin;
    repeat (destruct Hin as [<- | Hin]; [auto |]); destruct Hin.
Qed.

(** X9: [start_server] probes the network only when [CheckNetwork] is set:
    with the option off no probe is made, whatever else happens; with the
    option on and the three checks passed, the game port is probed locally
    and from outside and the remote-console port over TCP, in this order. *)
Theorem network_check_optional {Version} (env : Env Version) (s : St)
    (ds : AstroDedicatedServer) :
  constructed (self s) ->
  dedicatedserver (self s) = Bound (Some ds) ->
  let probes := filter is_net_test (events (start_server env s)) in
  let ip := PublicIP (ds_config ds) in
  (CheckNetwork (config (self s)) = false -> probes = []) /\
  (CheckNetwork (config (self s)) = true ->
   check_api_health env = true -> wineboot_ok env (self s) = true ->
   check_ports_free env = true ->
   probes = [NetTestLocal ip (Port (engine_config ds)) false;
             NetTestNonlocal ip (Port (engine_config ds));
             NetTestLocal ip (ConsolePort (ds_config ds)) true]).
Proof.
  intros Hc Hds. cbv zeta.
  assert (Hw : exists w, wineexec (self s) = Some w)
    by (destruct Hc as (_ & _ & w & _ & _ & _ & _ & Hw & _); eauto).
  destruct Hw as [w Hw].
  assert (Hwine : forall s1 bv, self s1 = set_buildversion bv (self s) ->
            filter is_net_test (events (update_wine_prefix env s1)) = []).
  { intros s1 bv Hs. apply filter_none. intros e He.
    assert (Hw1 : wineexec (self s1) = Some w) by (rewrite Hs; exact Hw).
    pose proof (wine_event_kinds env s1 w Hw1 e He) as Hk.
    destruct e; try discriminate Hk; reflexivity. }
  assert (Htail : filter is_net_test (start_tail env (self s)) = [])
    by (apply start_tail_kinds; reflexivity).
  destruct (check_api_health env) eqn:Hh;
    [destruct (wineboot_ok env (self s)) eqn:Hok;
     [destruct (check_ports_free env) eqn:Hpf |] |].
  1:{ destruct (start_server_checked_run env s Hc Hh Hok Hpf)
        as (s1 & t1 & _ & [bv Hs] & He & Hrun).
      rewrite Hrun. cbn [events snd].
      repeat first [rewrite filter_app
                   | progress cbn [filter is_net_test app]].
      rewrite (filter_update_events is_net_test t1) by (auto; now intros []).
      rewrite (Hwine s1 bv Hs), Htail. cbn [app].
      assert (Hds1 : dedicatedserver (self s1) = Bound (Some ds))
        by (rewrite Hs; exact Hds).
      split.
      - intros ->. reflexivity.
      - intros -> _ _ _. rewrite app_nil_r.
        exact (network_probes env s1 ds Hds1). }
  all: split; [intros _ | intros _; discriminate].
  all: match goal with
       | |- _ => destruct (start_server_fatal_run env s Hc)
                   as (s1 & t1 & checks & reason & Hrun & He & Hok'
                       & Hwx & Hcases); [tauto |]
       end.
  all: rewrite Hrun; cbn [events snd]; rewrite !filter_app;
    rewrite (filter_update_events is_net_test t1) by (auto; now intros []);
    unfold quitting_line, forced_report.
  all: assert (HW : filter is_net_test (events (update_wine_prefix env s1)) = [])
    by (apply filter_none; intros e Hin;
        assert (Hw1 : wineexec (self s1) = Some w) by congruence;
        pose proof (wine_event_kinds env s1 w Hw1 e Hin) as Hk;
        destruct e; try discriminate Hk; reflexivity).
  all: destruct Hcases as [(_ & -> & ->) | [(_ & _ & -> & ->)
                                          | (_ & _ & _ & -> & ->)]];
    cbn [filter is_net_test app]; rewrite ?filter_app, ?HW; reflexivity.
Qed.

Lemma network_check_optional_witness :
  filter is_net_test
    (events (start_server
               (sample_env (stats_with "1.3.0") (ProcExited 0) true true)
               (sample_state STOPPED false)))
  = [NetTestLocal "203.0.113.7" 7777 false;
     NetTestNonlocal "203.0.113.7" 7777;
     NetTestLocal "203.0.113.7" 1234 true].
Proof.
  refine (proj2 (network_check_optional
                   (sample_env (stats_with "1.3.0") (ProcExited 0) true true)
                   (sample_state STOPPED false) (sample_ds STOPPED false)
                   _ eq_refl) eq_refl eq_refl eq_refl eq_refl).
  exists (sample_ds STOPPED false), sample_thread, "/usr/bin/wine",
    "/usr/bin/wineserver", "/srv/astro/libs/depotdownloader".
  repeat split; reflexivity.
Defined.

Lemma after_start_app (pre r : list Event) :
  (forall e, In e pre -> e <> DsStart) ->
  after_start (pre ++ DsStart :: r) = r.
Proof.
  induction pre as [| e pre IH]; intros H; [reflexivity |].
  cbn [app after_start].
  assert (He : e <> DsStart) by (apply H; now left).
  assert (IH' : after_start (pre ++ DsStart :: r) = r)
    by (apply IH; intros x Hx; apply H; now right).
  destruct e; try exact IH'. congruence.
Qed.

(** A start whose checks pass: everything up to the input thread, the call
    of [dedicatedserver.start()], and what follows it. *)
Lemma start_server_checked_shape {Version} (env : Env Version) (s : St) :
  constructed (self s) ->
  check_api_health env = true ->
  wineboot_ok env (self s) = true ->
  check_ports_free env = true ->
  exists pre,
    events (start_server env s) =
      (pre ++ [InputThreadStart] ++ DsStart :: start_tail env (self s))%list /\
    outcome (start_server env s) =
      match ds_start env with inl _ => Exit 1 | inr _ => Ret tt end /\
    (forall e, In e pre -> e <> DsStart /\ e <> InputThreadStart).
Proof.
  intros Hc Hh Hok Hpf.
  destruct (start_server_checked_run env s Hc Hh Hok Hpf)
    as (s1 & t1 & _ & [bv Hs] & He & Hrun).
  destruct Hc as (ds & th & w & ws & p & Hds & Hth & Hw & Hws & Hp).
  assert (Hds1 : dedicatedserver (self s1) = Bound (Some ds))
    by (rewrite Hs; exact Hds).
  assert (Hw1 : wineexec (self s1) = Some w) by (rewrite Hs; exact Hw).
  rewrite Hrun. cbn [events outcome fst snd].
  exists (t1 ++ ApiHealth :: events (update_wine_prefix env s1)
          ++ [DsCheckPortsFree]
          ++ (if CheckNetwork (config (self s))
              then events (check_network_config env s1) else [])
          ++ [Log DEBUG "Starting input thread..."])%list.
  split; [| split; [reflexivity |]].
  - repeat (rewrite <- app_assoc; cbn [app]). reflexivity.
  - intros e Hin.
    apply in_app_or in Hin. destruct Hin as [Hin | Hin].
    { rewrite forallb_forall in He. specialize (He e Hin).
      destruct e; try discriminate He; split; discriminate. }
    destruct Hin as [<- | Hin]; [split; discriminate |].
    apply in_app_or in Hin. destruct Hin as [Hin | Hin].
    { pose proof (wine_event_kinds env s1 w Hw1 e Hin) as Hk.
      destruct e; try discriminate Hk; split; discriminate. }
    cbn [app] in Hin. destruct Hin as [<- | Hin]; [split; discriminate |].
    apply in_app_or in Hin. destruct Hin as [Hin | Hin].
    { destruct (CheckNetwork (config (self s))) eqn:Hcn; [| destruct Hin].
      destruct (network_event_kinds env s1 ds Hds1 e Hin) as [Hk | ->];
        [| split; discriminate].
      destruct e; try discriminate Hk; split; discriminate. }
    destruct Hin as [<- | []]. split; discriminate.
Qed.

Lemma after_start_checked {Version} (env : Env Version) (s : St) :
  constructed (self s) ->
  check_api_health env = true ->
  wineboot_ok env (self s) = true ->
  check_ports_free env = true ->
  after_start (events (start_server env s)) = start_tail env (self s) /\
  outcome (start_server env s) =
    match ds_start env with inl _ => Exit 1 | inr _ => Ret tt end /\
  In InputThreadStart (events (start_server env s)).
Proof.
  intros Hc Hh Hok Hpf.
  destruct (start_server_checked_shape env s Hc Hh Hok Hpf)
    as (pre & Hev & Ho & Hpre).
  rewrite Hev, Ho. repeat split.
  - rewrite app_assoc. apply after_start_app.
    intros e Hin. apply in_app_or in Hin.
    destruct Hin as [Hin | [<- | []]]; [apply (Hpre e Hin) | discriminate].
  - apply in_or_app. right. now left.
Qed.

(** X10: when [dedicatedserver.start()] answers [False], [start_server]
    returns at once: nothing is called after it, no status is reported, no
    server loop is entered, and the input thread started before it is left
    running. *)
Theorem start_refused {Version} (env : Env Version) (s : St) :
  constructed (self s) ->
  check_api_health env = true ->
  wineboot_ok env (self s) = true ->
  check_ports_free env = true ->
  ds_start env = inr false ->
  let r := start_server env s in
  outcome r = Ret tt /\
  after_start (events r) = [] /\
  In InputThreadStart (events r).
Proof.
  intros Hc Hh Hok Hpf Hst. cbv zeta.
  destruct (after_start_checked env s Hc Hh Hok Hpf) as (Ha & Ho & Hi).
  rewrite Ha, Ho. unfold start_tail. rewrite Hst. auto.
Qed.


(** X12: when [dedicatedserver.start()] answers [True], [start_server]
    reports the status "Server is running" once, starts the status thread
    exactly when [SendStatus] is set, enters the server loop last, and
    returns when the loop does. *)
Theorem start_succeeds {Version} (env : Env Version) (s : St) :
  constructed (self s) ->
  check_api_health env = true ->
  wineboot_ok env (self s) = true ->
  check_ports_free env = true ->
  ds_start env = inr true ->
  let r := start_server env s in
  outcome r = Ret tt /\
  effects (after_start (events r)) =
    (StatusUpdate true "Server is running"
     :: (if SendStatus (status_cfg (config (self s)))
         then [StatusThreadStart] else [])
     ++ [DsServerLoop])%list.
Proof.
  intros Hc Hh Hok Hpf Hst. cbv zeta.
  destruct (after_start_checked env s Hc Hh Hok Hpf) as (Ha & Ho & Hi).
  rewrite Ha, Ho. unfold start_tail. rewrite Hst.
  split; [reflexivity |].
  now destruct (SendStatus (status_cfg (config (self s)))).
Qed.

Lemma sample_constructed (st : ServerStatus) (conn : bool) :
  constructed (sample_launcher st conn).
Proof.
  exists (sample_ds st conn), sample_thread, "/usr/bin/wine",
    "/usr/bin/wineserver", "/srv/astro/libs/depotdownloader".
  repeat split; reflexivity.
Defined.

Lemma start_succeeds_witness :
  effects (after_start
             (events (start_server
                        (sample_env (stats_with "1.3.0") (ProcExited 0)
                           true true)
                        (sample_state STOPPED false))))
  = [StatusUpdate true "Server is running"; DsServerLoop].
Proof.
  exact (proj2 (start_succeeds
                  (sample_env (stats_with "1.3.0") (ProcExited 0) true true)
                  (sample_state STOPPED false)
                  (sample_constructed STOPPED false)
                  eq_refl eq_refl eq_refl eq_refl)).
Defined.

Lemma start_refused_witness :
  after_start
    (events (start_server
               (with_ds_start (inr false)
                  (sample_env (stats_with "1.3.0") (ProcExited 0) true true))
               (sample_state STOPPED false))) = [].
Proof.
  exact (proj1 (proj2 (start_refused
                  (with_ds_start (inr false)
                     (sample_env (stats_with "1.3.0") (ProcExited 0) true true))
                  (sample_state STOPPED false)
                  (sample_constructed STOPPED false)
                  eq_refl eq_refl eq_refl eq_refl))).
Defined.


(** X13: in a start whose checks pass, the steps before the server loop are
    made once each and in this order: the health check of the Playfab API,
    the wineboot call, the check of the ports, the start of the input
    thread, the start of the dedicated server. *)
Theorem startup_order {Version} (env : Env Version) (s : St) (w : string) :
  constructed (self s) ->
  wineexec (self s) = Some w ->
  check_api_health env = true ->
  wineboot_ok env (self s) = true ->
  check_ports_free env = true ->
  filter is_startup_step (events (start_server env s)) =
  [ApiHealth;
   Popen (wineboot_command (self s) w) (wineboot_env env (self s))
     (AstroServerPath (config (self s))) (WineBootTimeout (config (self s)));
   DsCheckPortsFree; InputThreadStart; DsStart].
Proof.
  intros Hc Hw Hh Hok Hpf.
  destruct (start_server_checked_run env s Hc Hh Hok Hpf)
    as (s1 & t1 & _ & [bv Hs] & He & Hrun).
  destruct Hc as (ds & th & w' & ws & p & Hds & Hth & Hw' & Hws & Hp).
  assert (Hds1 : dedicatedserver (self s1) = Bound (Some ds))
    by (rewrite Hs; exact Hds).
  assert (Hw1 : wineexec (self s1) = Some w) by (rewrite Hs; exact Hw).
  assert (Hok1 : wineboot_ok env (self s1) = true) by (rewrite Hs; exact Hok).
  rewrite Hrun. cbn [events snd].
  assert (HW : filter is_startup_step (events (update_wine_prefix env s1)) =
               [Popen (wineboot_command (self s) w) (wineboot_env env (self s))
                  (AstroServerPath (config (self s)))
                  (WineBootTimeout (config (self s)))]).
  { pose proof (update_wine_prefix_run env s1 w Hw1) as Hr.
    cbv zeta in Hr. rewrite Hr. cbn [events snd].
    unfold wineboot_ok in Hok1.
    destruct (wineboot_result env (self s1)); [discriminate |].
    rewrite (wineboot_argv_command _ w Hw1), Hs. reflexivity. }
  assert (HN : filter is_startup_step
                 (if CheckNetwork (config (self s))
                  then events (check_network_config env s1) else []) = []).
  { destruct (CheckNetwork (config (self s))); [| reflexivity].
    apply filter_none. intros e Hin.
    destruct (network_event_kinds env s1 ds Hds1 e Hin) as [Hk | ->];
      [| reflexivity].
    destruct e; try discriminate Hk; reflexivity. }
  repeat first [rewrite filter_app
               | progress cbn [filter is_startup_step app]].
  rewrite (filter_update_events is_startup_step t1) by (auto; now intros []).
  rewrite HW, HN, start_tail_kinds by reflexivity.
  reflexivity.
Qed.

Lemma startup_order_witness :
  filter is_startup_step
    (events (start_server
               (sample_env (stats_with "1.3.0") (ProcExited 0) true true)
               (sample_state STOPPED false)))
  = [ApiHealth;
     Popen ["/usr/bin/wine"; "wineboot"]
       [("HOME", "/root"); ("WINEPREFIX", "winepfx"); ("WINEDEBUG", "-all")]
       "AstroneerServer" 30;
     DsCheckPortsFree; InputThreadStart; DsStart].
Proof.
  exact (startup_order
           (sample_env (stats_with "1.3.0") (ProcExited 0) true true)
           (sample_state STOPPED false) "/usr/bin/wine"
           (sample_constructed STOPPED false)
           eq_refl eq_refl eq_refl eq_refl).
Defined.

(** ** The console thread *)

Lemma on_input_final {Version} (env : Env Version) (line : string) (s : St) :
  final (on_input env line s) =
  {| self := set_cmd_queue (cmd_queue (self s) ++ queued env line) (self s);
     disk := disk s |}.
Proof.
  unfold on_input, queued. unfold_ops.
  destruct (parse_input env line) as [c | msg].
  - destruct (is_help (cmd c)); run.
    + rewrite app_nil_r. now destruct s as [[] ?].
    + reflexivity.
  - run. rewrite app_nil_r. now destruct s as [[] ?].
Qed.

(** X14: the queue is first in, first out over any sequence of console
    lines: after the lines are processed it holds what it held before,
    followed by the commands other than HELP that the lines parse to, in
    the order of the lines; nothing else of the launcher changes. *)
Theorem feed_queue {Version} (env : Env Version) (lines : list string)
    (s : St) :
  feed env lines s =
  {| self := set_cmd_queue
               (cmd_queue (self s) ++ flat_map (queued env) lines) (self s);
     disk := disk s |}.
Proof.
  revert s. induction lines as [| line lines IH]; intros s.
  - cbn [feed fold_left flat_map]. rewrite app_nil_r. now destruct s as [[] ?].
  - unfold feed in *. cbn [fold_left flat_map].
    rewrite IH, on_input_final. cbn [self disk cmd_queue set_cmd_queue].
    now rewrite app_assoc.
Qed.

Example feed_ex :
  cmd_queue
    (self (feed (sample_env (stats_with "1.3.0") (ProcExited 0) true true)
             ["help"; "shutdown"; "dance"; "shutdown"]
             (sample_state RUNNING true)))
  = [{| cmd := Verb "shutdown"; message := ""; args := [] |};
     {| cmd := Verb "shutdown"; message := ""; args := [] |}].
Proof. reflexivity. Qed.

(** ** [__init__], phase by phase *)

Section InitRuns.

Context {Version : Type}.
Variable env : Env Version.

Lemma init_config_ok cfg_path astro_path force_debug_log s c :
  ensure_toml_config env (abspath env cfg_path) = inr c ->
  init_config env cfg_path astro_path force_debug_log s =
  (Ret tt,
   {| self := set_config (configured env c astro_path force_debug_log)
                (set_config_path (abspath env cfg_path) (self s));
      disk := disk s |},
   [Log INFO ("Configuration file path: " ++ abspath env cfg_path)]).
Proof.
  intros Hc. unfold init_config, configured. unfold_ops.
  rewrite bind_run, try_except_run. repeat run_rewrite. rewrite Hc.
  repeat run_rewrite.
  destruct astro_path, force_debug_log; repeat run_rewrite; reflexivity.
Qed.

Lemma init_config_fail cfg_path astro_path force_debug_log s e :
  ensure_toml_config env (abspath env cfg_path) = inl e ->
  dedicatedserver (self s) = Bound None ->
  status_thread (self s) = Bound None ->
  init_config env cfg_path astro_path force_debug_log s =
  (Exit 1,
   {| self := set_config_path (abspath env cfg_path) (self s);
      disk := disk s |},
   [Log INFO ("Configuration file path: " ++ abspath env cfg_path);
    Log ERROR ("Error while loading config file (" ++ exn_name e ++ "): "
               ++ exn_str e);
    Log ERROR "Please check the config path parameter and/or config file";
    Log INFO "Quitting..."; Sleep 100]).
Proof.
  intros Hc Hd Ht. unfold init_config. unfold_ops.
  rewrite bind_run, try_except_run. repeat run_rewrite. rewrite Hc.
  repeat run_rewrite.
  rewrite (exit_forced_run _ None None None) by (split; assumption).
  reflexivity.
Qed.

Lemma init_wine_run s :
  dedicatedserver (self s) = Bound None ->
  status_thread (self s) = Bound None ->
  let w := fst (wine_paths env (config (self s)) (disk s)) in
  let ws := snd (wine_paths env (config (self s)) (disk s)) in
  init_wine env s =
  (if truthy w && truthy ws then Ret tt else Exit 1,
   {| self := set_wine w ws (self s); disk := disk s |},
   if truthy w && truthy ws then []
   else [Log ERROR "Wine (or Wineserver) executable not found!";
         Log ERROR "Make sure that you have wine installed and accessible";
         Log ERROR
           "or set 'OverrideWinePath' config option to the path of the wine executable";
         Log INFO "Quitting..."; Sleep 100]).
Proof.
  intros Hd Ht. cbv zeta. unfold init_wine, wine_paths. unfold_ops.
  repeat run_rewrite. cbn [config set_wine].
  assert (Hexit : forall w ws,
            exit false None
              {| self := set_wine w ws (self s); disk := disk s |} =
            (Exit 1, {| self := set_wine w ws (self s); disk := disk s |},
             [Log INFO "Quitting..."; Sleep 100])).
  { intros w ws. rewrite (exit_forced_run _ None None None)
      by (split; assumption). reflexivity. }
  destruct (OverrideWinePath (config (self s))) as [o |];
    [destruct (path_isfile (disk s) o) |];
    repeat run_rewrite; cbn [wineexec wineserverexec set_wine fst snd truthy negb orb andb];
    try (destruct (which env "wine"), (which env "wineserver"));
    cbn [truthy negb orb andb]; repeat run_rewrite;
    try reflexivity; rewrite Hexit; reflexivity.
Qed.

Lemma init_depotdl_run depotdl_exec s :
  init_depotdl env depotdl_exec s =
  (Ret tt,
   {| self := set_depotdl_path (Some (depotdl_final env (disk s) depotdl_exec))
                (self s);
      disk := disk s |},
   depotdl_events env (disk s) depotdl_exec).
Proof.
  unfold init_depotdl, depotdl_final, depotdl_events, depotdl_accepted,
    depotdl_given.
  unfold_ops. repeat run_rewrite.
  destruct (truthy_str depotdl_exec); cbn [andb];
    [destruct (path_isfile (disk s) _) |];
    repeat run_rewrite;
    cbn [depotdl_path set_depotdl_path truthy negb];
    repeat run_rewrite; reflexivity.
Qed.

Lemma setup_notifications_run s :
  setup_notifications s =
  match requested_handler (notifications_cfg (config (self s))) with
  | inl e =>
      (Raise e,
       {| self := set_notifications [LoggingNotificationHandler] (self s);
          disk := disk s |}, [])
  | inr (hs, warnings) =>
      (Ret tt,
       {| self := set_notifications (LoggingNotificationHandler :: hs) (self s);
          disk := disk s |}, warnings)
  end.
Proof.
  unfold setup_notifications, requested_handler. unfold_ops.
  repeat run_rewrite. cbn [config set_notifications notifications app].
  destruct (method _);
    [reflexivity
    | destruct (ntfy _) as [nc |];
      [destruct (topic nc) as [t |]; cbn [truthy_str];
       [destruct (negb (String.eqb t "")) |] |]
    | destruct (discord _) as [dc |];
      [destruct (webhookURL dc) as [u |]; cbn [truthy_str];
       [destruct (negb (String.eqb u "")) |] |]];
    repeat run_rewrite; reflexivity.
Qed.

Ltac init_prefix :=
  unfold init; unfold_ops; repeat run_rewrite; rewrite bind_run.

Lemma init_config_failure_run cfg_path astro_path depotdl_exec
    force_debug_log s e :
  ensure_toml_config env (abspath env cfg_path) = inl e ->
  init env cfg_path astro_path depotdl_exec force_debug_log s =
  (Exit 1,
   {| self := set_config_path (abspath env cfg_path)
                (set_status_thread None (set_dedicatedserver None (self s)));
      disk := disk s |},
   [LoggingSetup "prepare"; LoggingSetup "setup_console";
    Log INFO ("Configuration file path: " ++ abspath env cfg_path);
    Log ERROR ("Error while loading config file (" ++ exn_name e ++ "): "
               ++ exn_str e);
    Log ERROR "Please check the config path parameter and/or config file";
    Log INFO "Quitting..."; Sleep 100]).
Proof.
  intros Hc. init_prefix.
  cbn [self disk].
  rewrite (init_config_fail _ _ _ _ e Hc) by reflexivity. reflexivity.
Qed.

Lemma init_wine_missing_run cfg_path astro_path depotdl_exec
    force_debug_log s c :
  ensure_toml_config env (abspath env cfg_path) = inr c ->
  let cfg := configured env c astro_path force_debug_log in
  let w := fst (wine_paths env cfg (disk s)) in
  let ws := snd (wine_paths env cfg (disk s)) in
  truthy w && truthy ws = false ->
  init env cfg_path astro_path depotdl_exec force_debug_log s =
  (Exit 1,
   {| self := set_wine w ws
        (set_config cfg
           (set_config_path (abspath env cfg_path)
              (set_status_thread None (set_dedicatedserver None (self s)))));
      disk := disk s |},
   [LoggingSetup "prepare"; LoggingSetup "setup_console";
    Log INFO ("Configuration file path: " ++ abspath env cfg_path);
    Log ERROR "Wine (or Wineserver) executable not found!";
    Log ERROR "Make sure that you have wine installed and accessible";
    Log ERROR
      "or set 'OverrideWinePath' config option to the path of the wine executable";
    Log INFO "Quitting..."; Sleep 100]).
Proof.
  intros Hc. cbv zeta. intros Hw. init_prefix.
  rewrite (init_config_ok _ _ _ _ c Hc). cbn [prepend self disk].
  rewrite bind_run.
  pose proof (init_wine_run
                {| self := set_config
                             (configured env c astro_path force_debug_log)
                             (set_config_path (abspath env cfg_path)
                                (set_status_thread None
                                   (set_dedicatedserver None (self s))));
                   disk := disk s |} eq_refl eq_refl) as Hrun.
  cbv zeta in Hrun. cbn [self disk config set_config] in Hrun.
  rewrite Hrun, Hw. reflexivity.
Qed.

Lemma init_after_wine cfg_path astro_path depotdl_exec force_debug_log s c :
  ensure_toml_config env (abspath env cfg_path) = inr c ->
  let cfg := configured env c astro_path force_debug_log in
  let w := fst (wine_paths env cfg (disk s)) in
  let ws := snd (wine_paths env cfg (disk s)) in
  truthy w && truthy ws = true ->
  init env cfg_path astro_path depotdl_exec force_debug_log s =
  let pre :=
    ([LoggingSetup "prepare"; LoggingSetup "setup_console";
      Log INFO ("Configuration file path: " ++ abspath env cfg_path);
      LoggingSetup "set_log_debug"; LoggingSetup "setup_logfile"]
     ++ depotdl_events env (disk s) depotdl_exec
     ++ [Log INFO ("Working directory: " ++ getcwd env);
         Log DEBUG ("Launcher configuration (including overrides):"
                    ++ String (ascii_of_nat 10) (json_dumps env cfg))])%list in
  match requested_handler (notifications_cfg cfg) with
  | inl e =>
      (Raise e,
       {| self := set_notifications [LoggingNotificationHandler]
            (set_dedicatedserver None
               (built env cfg_path astro_path depotdl_exec force_debug_log
                  c [] s));
          disk := disk s |}, pre)
  | inr (hs, warnings) =>
      (Ret tt,
       {| self := built env cfg_path astro_path depotdl_exec force_debug_log
                    c hs s;
          disk := disk s |}, (pre ++ warnings)%list)
  end.
Proof.
  intros Hc. cbv zeta. intros Hw. init_prefix.
  rewrite (init_config_ok _ _ _ _ c Hc). cbn [prepend self disk].
  rewrite bind_run.
  pose proof (init_wine_run
                {| self := set_config
                             (configured env c astro_path force_debug_log)
                             (set_config_path (abspath env cfg_path)
                                (set_status_thread None
                                   (set_dedicatedserver None (self s))));
                   disk := disk s |} eq_refl eq_refl) as Hrun.
  cbv zeta in Hrun. cbn [self disk config set_config] in Hrun.
  rewrite Hrun, Hw. clear Hrun. cbn [prepend app].
  repeat run_rewrite. rewrite bind_run, init_depotdl_run.
  cbn [prepend app self disk]. repeat run_rewrite.
  rewrite bind_run, setup_notifications_run.
  cbn [self disk config set_config set_wine set_launcherPath set_depotdl_path
       set_cmd_queue set_status_thread set_config_path set_dedicatedserver].
  destruct (requested_handler _) as [e | [hs warnings]].
  - cbn [prepend]. rewrite app_nil_r.
    repeat (rewrite <- app_assoc; cbn [app]). reflexivity.
  - cbn [prepend]. repeat run_rewrite.
    repeat (rewrite <- app_assoc; cbn [app]). rewrite ?app_nil_r.
    reflexivity.
Qed.

End InitRuns.

(** ** [__init__], as a whole *)

(** A run of [__init__] that returns: the configuration was read, both wine
    executables were found, the notification section is there. *)
Lemma init_cases {Version} (env : Env Version) cfg_path astro_path
    depotdl_exec force_debug_log s :
  outcome (init env cfg_path astro_path depotdl_exec force_debug_log s)
  = Ret tt ->
  exists c hs warnings,
    ensure_toml_config env (abspath env cfg_path) = inr c /\
    let cfg := configured env c astro_path force_debug_log in
    truthy (fst (wine_paths env cfg (disk s)))
    && truthy (snd (wine_paths env cfg (disk s))) = true /\
    requested_handler (notifications_cfg cfg) = inr (hs, warnings) /\
    init env cfg_path astro_path depotdl_exec force_debug_log s =
    (Ret tt,
     {| self := built env cfg_path astro_path depotdl_exec force_debug_log
                  c hs s;
        disk := disk s |},
     (init_events env cfg_path depotdl_exec cfg (disk s) ++ warnings)%list).
Proof.
  intros Ho.
  destruct (ensure_toml_config env (abspath env cfg_path)) as [e | c] eqn:Hc.
  { rewrite (init_config_failure_run env _ _ _ _ _ e Hc) in Ho.
    discriminate Ho. }
  destruct (truthy (fst (wine_paths env
                           (configured env c astro_path force_debug_log)
                           (disk s)))
            && truthy (snd (wine_paths env
                              (configured env c astro_path force_debug_log)
                              (disk s)))) eqn:Hw.
  2:{ rewrite (init_wine_missing_run env _ _ _ _ _ c Hc Hw) in Ho.
      discriminate Ho. }
  pose proof (init_after_wine env cfg_path astro_path depotdl_exec
                force_debug_log s c Hc Hw) as Hrun.
  cbv zeta in Hrun.
  destruct (requested_handler _) as [e | [hs warnings]] eqn:Hh.
  { rewrite Hrun in Ho. discriminate Ho. }
  exists c, hs, warnings. cbv zeta. repeat split; auto.
Qed.

(** X15: when the configuration cannot be loaded, [__init__] logs the type
    and the text of the exception and leaves with code 1 at once: it looks
    for no wine executable, sets up no log file and creates neither the
    status thread nor the dedicated server. *)
Theorem init_config_unreadable {Version} (env : Env Version) cfg_path
    astro_path depotdl_exec force_debug_log s e :
  ensure_toml_config env (abspath env cfg_path) = inl e ->
  let r := init env cfg_path astro_path depotdl_exec force_debug_log s in
  outcome r = Exit 1 /\
  events r =
    [LoggingSetup "prepare"; LoggingSetup "setup_console";
     Log INFO ("Configuration file path: " ++ abspath env cfg_path);
     Log ERROR ("Error while loading config file (" ++ exn_name e ++ "): "
                ++ exn_str e);
     Log ERROR "Please check the config path parameter and/or config file";
     Log INFO "Quitting..."; Sleep 100] /\
  dedicatedserver (self (final r)) = Bound None /\
  status_thread (self (final r)) = Bound None /\
  wineexec (self (final r)) = wineexec (self s).
Proof.
  intros Hc. cbv zeta.
  rewrite (init_config_failure_run env _ _ _ _ _ e Hc).
  repeat split.
Qed.

Lemma init_config_unreadable_witness :
  outcome
    (init (with_config (inl (ValueError "Specified config path doesn't point to a file!"))
             (fun _ => None) sample_base)
       "launcher.toml" None None false blank_state)
  = Exit 1.
Proof.
  exact (proj1 (init_config_unreadable
                  (with_config
                     (inl (ValueError "Specified config path doesn't point to a file!"))
                     (fun _ => None) sample_base)
                  "launcher.toml" None None false blank_state
                  (ValueError "Specified config path doesn't point to a file!")
                  eq_refl)).
Defined.

(** X16: when [__init__] returns, the configuration of the launcher is the
    one loaded from the file with the overrides applied: the server path is
    the command-line path when one is given, debug logging is on when the
    flag is given or the file says so, the three paths are absolute, and
    every other option is as loaded. *)
Theorem init_overrides {Version} (env : Env Version) cfg_path astro_path
    depotdl_exec force_debug_log s :
  let r := init env cfg_path astro_path depotdl_exec force_debug_log s in
  outcome r = Ret tt ->
  exists c,
    ensure_toml_config env (abspath env cfg_path) = inr c /\
    let cfg := config (self (final r)) in
    AstroServerPath cfg =
      abspath env (match astro_path with
                   | Some a => a
                   | None => AstroServerPath c
                   end) /\
    LogDebugMessages cfg = force_debug_log || LogDebugMessages c /\
    WinePrefixPath cfg = abspath env (WinePrefixPath c) /\
    LogPath cfg = abspath env (LogPath c) /\
    cfg = with_paths (AstroServerPath cfg) (WinePrefixPath cfg) (LogPath cfg)
            (LogDebugMessages cfg) c.
Proof.
  cbv zeta. intros Ho.
  destruct (init_cases env _ _ _ _ _ Ho)
    as (c & hs & warnings & Hc & _ & _ & Hrun).
  exists c. split; [exact Hc |]. rewrite Hrun.
  cbn [final fst snd self]. unfold built, configured.
  destruct astro_path, force_debug_log; repeat split.
Qed.

Lemma init_overrides_witness :
  AstroServerPath
    (config (self (final (init sample_base "launcher.toml"
                            (Some "/srv/astro/server") None true
                            blank_state))))
  = "/srv/astro/server".
Proof.
  destruct (init_overrides sample_base "launcher.toml"
              (Some "/srv/astro/server") None true blank_state eq_refl)
    as (c & _ & H & _).
  exact H.
Defined.

(** X17: the wine executables of a launcher that [__init__] returns are
    those of [OverrideWinePath] when that option names a file, wine itself
    and the wineserver beside it, and those found on the search path
    otherwise; both are always set. *)
Theorem init_wine_resolution {Version} (env : Env Version) cfg_path
    astro_path depotdl_exec force_debug_log s :
  let r := init env cfg_path astro_path depotdl_exec force_debug_log s in
  outcome r = Ret tt ->
  let l := self (final r) in
  (exists w ws, wineexec l = Some w /\ wineserverexec l = Some ws) /\
  (forall o, OverrideWinePath (config l) = Some o ->
     path_isfile (disk s) o = true ->
     wineexec l = Some (abspath env o) /\
     wineserverexec l =
       Some (path_join (dirname (abspath env o)) "wineserver")) /\
  ((OverrideWinePath (config l) = None \/
    exists o, OverrideWinePath (config l) = Some o /\
              path_isfile (disk s) o = false) ->
   wineexec l = which env "wine" /\
   wineserverexec l = which env "wineserver").
Proof.
  cbv zeta. intros Ho.
  destruct (init_cases env _ _ _ _ _ Ho)
    as (c & hs & warnings & Hc & Hw & _ & Hrun).
  rewrite Hrun. cbn [final fst snd self]. unfold built.
  cbn [wineexec wineserverexec config set_dedicatedserver].
  set (cfg := configured env c astro_path force_debug_log) in *.
  split; [| split].
  - destruct (fst (wine_paths env cfg (disk s))),
      (snd (wine_paths env cfg (disk s))); try discriminate Hw. eauto.
  - intros o Hov Hf. unfold wine_paths. rewrite Hov, Hf. auto.
  - intros [Hov | (o & Hov & Hf)]; unfold wine_paths; rewrite Hov, ?Hf; auto.
Qed.

Lemma init_wine_resolution_witness :
  wineexec
    (self (final (init (with_config (inr sample_config) (fun _ => None)
                          sample_base)
                    "launcher.toml" None None false blank_state)))
  = Some "/opt/wine/bin/wine".
Proof.
  destruct (init_wine_resolution
              (with_config (inr sample_config) (fun _ => None) sample_base)
              "launcher.toml" None None false blank_state eq_refl)
    as (_ & H & _).
  exact (proj1 (H "/opt/wine/bin/wine" eq_refl eq_refl)).
Defined.

Lemma configured_override {Version} (env : Env Version) c astro_path
    force_debug_log :
  OverrideWinePath (configured env c astro_path force_debug_log)
  = OverrideWinePath c /\
  notifications_cfg (configured env c astro_path force_debug_log)
  = notifications_cfg c /\
  status_cfg (configured env c astro_path force_debug_log) = status_cfg c.
Proof. unfold configured. destruct astro_path, force_debug_log; repeat split. Qed.

Lemma requested_handler_warnings (n : NotificationConfig) hs warnings :
  requested_handler n = inr (hs, warnings) ->
  forall e, In e warnings ->
    e = Log WARNING
          "Discord Webhook URL is not set in config, not sending Discord notifications"
    \/ e = Log WARNING
             "ntfy topic is not set in config, not sending ntfy notifications".
Proof.
  unfold requested_handler. intros Hh e He. revert Hh.
  destruct (method n).
  - intros [= <- <-]. destruct He.
  - destruct (ntfy n) as [nc |]; [| discriminate].
    destruct (truthy_str (topic nc)); intros [= <- <-];
      [destruct He | destruct He as [<- | []]; now right].
  - destruct (discord n) as [dc |]; [| discriminate].
    destruct (truthy_str (webhookURL dc)); intros [= <- <-];
      [destruct He | destruct He as [<- | []]; now left].
Qed.

(** X18: when the configuration loads but wine or wineserver is not found,
    the override naming no file and the search path lacking one of them,
    [__init__] logs three error lines and leaves with code 1 before the log
    file is set up and before any object is created. *)
Theorem init_wine_missing {Version} (env : Env Version) cfg_path astro_path
    depotdl_exec force_debug_log s c :
  ensure_toml_config env (abspath env cfg_path) = inr c ->
  (OverrideWinePath c = None \/
   exists o, OverrideWinePath c = Some o /\ path_isfile (disk s) o = false) ->
  which env "wine" = None \/ which env "wineserver" = None ->
  let r := init env cfg_path astro_path depotdl_exec force_debug_log s in
  outcome r = Exit 1 /\
  events r =
    [LoggingSetup "prepare"; LoggingSetup "setup_console";
     Log INFO ("Configuration file path: " ++ abspath env cfg_path);
     Log ERROR "Wine (or Wineserver) executable not found!";
     Log ERROR "Make sure that you have wine installed and accessible";
     Log ERROR
       "or set 'OverrideWinePath' config option to the path of the wine executable";
     Log INFO "Quitting..."; Sleep 100] /\
  dedicatedserver (self (final r)) = Bound None /\
  status_thread (self (final r)) = Bound None.
Proof.
  intros Hc Hov Hwh. cbv zeta.
  destruct (configured_override env c astro_path force_debug_log)
    as (Ho & _ & _).
  assert (Hp : wine_paths env (configured env c astro_path force_debug_log)
                 (disk s) = (which env "wine", which env "wineserver")).
  { unfold wine_paths. rewrite Ho.
    destruct Hov as [-> | (o & -> & ->)]; reflexivity. }
  rewrite (init_wine_missing_run env _ _ _ _ _ c Hc).
  - repeat split.
  - rewrite Hp. cbn [fst snd].
    destruct Hwh as [-> | ->]; [reflexivity | apply andb_false_r].
Qed.

Lemma init_wine_missing_witness :
  outcome (init (with_config (inr default_config) (fun _ => None) sample_base)
             "launcher.toml" None None false blank_state) = Exit 1.
Proof.
  refine (proj1 (init_wine_missing
                   (with_config (inr default_config) (fun _ => None)
                      sample_base)
                   "launcher.toml" None None false blank_state
                   default_config eq_refl _ _)).
  - left. reflexivity.
  - left. reflexivity.
Defined.

(** X19: the DepotDownloader path of a launcher that [__init__] returns is
    the absolute path of the executable given on the command line, looked
    up on the search path first, when that names a file; otherwise it is
    the absolute default path, whose directory is then created; a given
    path that names no file is reported by a warning. *)
Theorem init_depotdl_path {Version} (env : Env Version) cfg_path astro_path
    depotdl_exec force_debug_log s :
  let r := init env cfg_path astro_path depotdl_exec force_debug_log s in
  outcome r = Ret tt ->
  let given := match depotdl_exec with Some x => x | None => "" end in
  let resolved := match which env given with Some w => w | None => given end in
  let default := abspath env DEPOTDL_PATH in
  let warning :=
    Log WARNING
      "The given DepotDownloader path doesn't point to a file, using default path" in
  (truthy_str depotdl_exec = true ->
   path_isfile (disk s) resolved = true ->
   depotdl_path (self (final r)) = Some (abspath env resolved) /\
   filter is_makedirs (events r) = [] /\
   ~ In warning (events r)) /\
  (truthy_str depotdl_exec = true ->
   path_isfile (disk s) resolved = false ->
   depotdl_path (self (final r)) = Some default /\
   filter is_makedirs (events r) = [Makedirs (dirname default)] /\
   In warning (events r)) /\
  (truthy_str depotdl_exec = false ->
   depotdl_path (self (final r)) = Some default /\
   filter is_makedirs (events r) = [Makedirs (dirname default)] /\
   ~ In warning (events r)).
Proof.
  cbv zeta. intros Ho.
  destruct (init_cases env _ _ _ _ _ Ho)
    as (c & hs & warnings & Hc & _ & Hh & Hrun).
  rewrite Hrun. cbn [final events fst snd self]. unfold built.
  cbn [depotdl_path set_dedicatedserver].
  assert (Hwarn : forall e, In e warnings ->
            is_makedirs e = false /\
            e <> Log WARNING
                   "The given DepotDownloader path doesn't point to a file, using default path").
  { intros e He.
    destruct (requested_handler_warnings _ _ _ Hh e He) as [-> | ->];
      split; [reflexivity | discriminate | reflexivity | discriminate]. }
  assert (Hfw : filter is_makedirs warnings = [])
    by (apply filter_none; intros e He; apply (Hwarn e He)).
  unfold init_events, depotdl_final, depotdl_events, depotdl_accepted,
    depotdl_given.
  repeat split; intros; rewrite ?H, ?H0; cbn [andb];
    repeat first [rewrite filter_app
                 | progress cbn [filter is_makedirs app]];
    rewrite ?Hfw; try reflexivity.
  all: try (cbn [In app]; tauto).
  all: intros Hin; cbn [In app] in Hin;
    repeat (destruct Hin as [Hin | Hin]; [discriminate Hin |]);
    exact (proj2 (Hwarn _ Hin) eq_refl).
Qed.

Lemma init_depotdl_path_witness :
  depotdl_path
    (self (final (init sample_base "launcher.toml" None (Some "DepotDownloader")
                    false blank_state)))
  = Some "DepotDownloader".
Proof.
  destruct (init_depotdl_path sample_base "launcher.toml" None
              (Some "DepotDownloader") false blank_state eq_refl)
    as (H & _ & _).
  exact (proj1 (H eq_refl eq_refl)).
Defined.

(** X20: a launcher that [__init__] returns always has the logging handler
    first and at most one more handler: none for method NONE; for DISCORD
    and NTFY the handler of that method when its web hook or topic is set,
    and otherwise none, with a warning logged. *)
Theorem init_notification_handlers {Version} (env : Env Version) cfg_path
    astro_path depotdl_exec force_debug_log s :
  let r := init env cfg_path astro_path depotdl_exec force_debug_log s in
  outcome r = Ret tt ->
  let n := notifications_cfg (config (self (final r))) in
  exists hs,
    notifications (self (final r)) = LoggingNotificationHandler :: hs /\
    match method n with
    | NONE => hs = []
    | DISCORD =>
        exists dc, discord n = Some dc /\
          if truthy_str (webhookURL dc) then
            exists url, webhookURL dc = Some url /\
              hs = [DiscordNotificationHandler url (name n)]
          else
            hs = [] /\
            In (Log WARNING
                  "Discord Webhook URL is not set in config, not sending Discord notifications")
               (events r)
    | NTFY =>
        exists nc, ntfy n = Some nc /\
          if truthy_str (topic nc) then
            exists t, topic nc = Some t /\
              hs = [NTFYNotificationHandler t (serverURL nc) (name n)]
          else
            hs = [] /\
            In (Log WARNING
                  "ntfy topic is not set in config, not sending ntfy notifications")
               (events r)
    end.
Proof.
  cbv zeta. intros Ho.
  destruct (init_cases env _ _ _ _ _ Ho)
    as (c & hs & warnings & Hc & _ & Hh & Hrun).
  rewrite Hrun. cbn [final events fst snd self]. unfold built.
  cbn [notifications config set_dedicatedserver].
  exists hs. split; [reflexivity |].
  revert Hh. unfold requested_handler.
  set (n := notifications_cfg (configured env c astro_path force_debug_log)).
  destruct (method n).
  - now intros [= <- <-].
  - destruct (ntfy n) as [nc |]; [| discriminate]. intros Hh. exists nc.
    split; [reflexivity |]. revert Hh.
    destruct (topic nc) as [t |] eqn:Ht; cbn [truthy_str] in *;
      [destruct (negb (String.eqb t "")) |]; intros [= <- <-];
      [ eauto | split; [reflexivity |] | split; [reflexivity |] ];
      apply in_or_app; right; now left.
  - destruct (discord n) as [dc |]; [| discriminate]. intros Hh. exists dc.
    split; [reflexivity |]. revert Hh.
    destruct (webhookURL dc) as [u |] eqn:Hu; cbn [truthy_str] in *;
      [destruct (negb (String.eqb u "")) |]; intros [= <- <-];
      [ eauto | split; [reflexivity |] | split; [reflexivity |] ];
      apply in_or_app; right; now left.
Qed.

Lemma init_notification_handlers_witness :
  notifications
    (self (final (init (with_config (inr sample_config) (fun _ => None)
                          sample_base)
                    "launcher.toml" None None false blank_state)))
  = [LoggingNotificationHandler;
     DiscordNotificationHandler "https://discord.example/hook" "Astro"].
Proof.
  destruct (init_notification_handlers
              (with_config (inr sample_config) (fun _ => None) sample_base)
              "launcher.toml" None None false blank_state eq_refl)
    as (hs & H & dc & [= <-] & url & [= <-] & ->).
  exact H.
Defined.



(** ** [LauncherConfig.ensure_toml_config] *)

(** X22: a configuration path that exists and is not a file is refused with
    a ValueError, and nothing is read or written. *)
Theorem config_path_not_a_file (codec : Codec) (p : string)
    (fs : ConfigFiles) :
  cf_exists fs p = true ->
  cf_isfile fs p = false ->
  LauncherConfig_ensure_toml_config codec p fs =
  (inl (ValueError "Specified config path doesn't point to a file!"), fs).
Proof.
  intros He Hf. unfold LauncherConfig_ensure_toml_config.
  now rewrite He, Hf.
Qed.

Lemma config_path_not_a_file_witness :
  fst (LauncherConfig_ensure_toml_config sample_codec "/srv/astro" sample_files)
  = inl (ValueError "Specified config path doesn't point to a file!").
Proof.
  exact (f_equal fst
           (config_path_not_a_file sample_codec "/srv/astro" sample_files
              eq_refl eq_refl)).
Defined.



(** X24: whenever the method returns a configuration, the file at the path
    then holds that configuration as its one table, launcher, whatever else
    it held before; every other path is as it was, but for the directory of
    the file, which exists. *)
Theorem config_written_back (codec : Codec) (p : string) (fs : ConfigFiles)
    (c : LauncherConfig) :
  fst (LauncherConfig_ensure_toml_config codec p fs) = inr c ->
  let fs' := snd (LauncherConfig_ensure_toml_config codec p fs) in
  cf_load fs' p = inr [("launcher", to_dict codec c)] /\
  cf_exists fs' p = true /\
  cf_isfile fs' p = true /\
  (forall q, q <> p ->
     cf_load fs' q = cf_load fs q /\
     cf_isfile fs' q = cf_isfile fs q /\
     (q <> dirname p -> cf_exists fs' q = cf_exists fs q)).
Proof.
  unfold LauncherConfig_ensure_toml_config, makedirs.
  assert (Hne : forall q, q <> p -> String.eqb q p = false)
    by (intros q Hq; now apply String.eqb_neq).
  destruct (cf_exists fs p).
  - destruct (cf_isfile fs p); cbn [negb]; [| discriminate].
    destruct (cf_load fs p) as [x | doc]; [discriminate |].
    destruct (subscript _ "launcher") as [x | section]; [discriminate |].
    destruct (from_dict codec section); [discriminate |].
    intros [= ->]. cbn [snd dump cf_load cf_exists cf_isfile].
    rewrite String.eqb_refl. repeat split; auto;
      now rewrite (Hne q H).
  - destruct (cf_exists fs (dirname p)) eqn:Hd; cbn [negb].
    + intros [= <-]. cbn [snd dump cf_load cf_exists cf_isfile].
      rewrite String.eqb_refl. repeat split; auto; now rewrite (Hne q H).
    + destruct (String.eqb (dirname p) "") eqn:He; [discriminate |].
      intros [= <-]. cbn [snd dump cf_load cf_exists cf_isfile].
      rewrite String.eqb_refl. repeat split; auto;
        try (now rewrite (Hne q H)).
      rewrite (Hne q H). cbn [orb].
      intros Hq. apply String.eqb_neq in Hq. now rewrite Hq.
Qed.

Lemma config_written_back_witness :
  cf_load (snd (LauncherConfig_ensure_toml_config sample_codec
                  "/srv/astro/launcher.toml" sample_files))
    "/srv/astro/launcher.toml"
  = inr [("launcher", JObj [("AstroServerPath", JStr "AstroneerServer")])].
Proof.
  exact (proj1 (config_written_back sample_codec "/srv/astro/launcher.toml"
                  sample_files default_config eq_refl)).
Defined.

(** X25: the method is idempotent when the codec round-trips the returned
    configuration: called again on the files it left, it returns the same
    configuration and leaves the files as they are. *)
Theorem config_idempotent (codec : Codec) (p : string) (fs : ConfigFiles)
    (c : LauncherConfig) :
  from_dict codec (to_dict codec c) = inr c ->
  fst (LauncherConfig_ensure_toml_config codec p fs) = inr c ->
  let fs' := snd (LauncherConfig_ensure_toml_config codec p fs) in
  fst (LauncherConfig_ensure_toml_config codec p fs') = inr c /\
  same_files (snd (LauncherConfig_ensure_toml_config codec p fs')) fs'.
Proof.
  intros Hrt Hc. cbv zeta.
  destruct (config_written_back codec p fs c Hc) as (Hl & He & Hf & _).
  set (fs' := snd (LauncherConfig_ensure_toml_config codec p fs)) in *.
  clearbody fs'. unfold LauncherConfig_ensure_toml_config.
  rewrite He, Hf, Hl.
  cbn [negb has_key existsb fst orb subscript assoc_json
       String.eqb Ascii.eqb Bool.eqb andb].
  rewrite Hrt. cbn [fst snd]. split; [reflexivity |].
  intros q. cbn [dump cf_exists cf_isfile cf_load].
  destruct (String.eqb q p) eqn:E; cbn [orb]; [| auto].
  apply String.eqb_eq in E. subst q. auto.
Qed.

Lemma config_idempotent_witness :
  fst (LauncherConfig_ensure_toml_config sample_codec "/srv/astro/launcher.toml"
         (snd (LauncherConfig_ensure_toml_config sample_codec
                 "/srv/astro/launcher.toml" sample_files)))
  = inr default_config.
Proof.
  exact (proj1 (config_idempotent sample_codec "/srv/astro/launcher.toml"
                  sample_files default_config eq_refl eq_refl)).
Defined.



(** X27: a file without a launcher table is read as an empty one: the
    configuration is what the codec makes of the empty dictionary, and the
    tables the file had are not written back. *)
Theorem config_section_missing (codec : Codec) (p : string)
    (fs : ConfigFiles) (doc : toml) (c : LauncherConfig) :
  cf_exists fs p = true ->
  cf_isfile fs p = true ->
  cf_load fs p = inr doc ->
  has_key "launcher" doc = false ->
  from_dict codec (JObj []) = inr c ->
  let r := LauncherConfig_ensure_toml_config codec p fs in
  fst r = inr c /\
  cf_load (snd r) p = inr [("launcher", to_dict codec c)].
Proof.
  intros He Hf Hl Hk Hd. cbv zeta. unfold LauncherConfig_ensure_toml_config.
  rewrite He, Hf, Hl, Hk.
  cbn [negb subscript assoc_json String.eqb Ascii.eqb Bool.eqb andb].
  rewrite Hd. cbn [fst snd dump cf_load].
  now rewrite String.eqb_refl.
Qed.

Lemma config_section_missing_witness :
  fst (LauncherConfig_ensure_toml_config sample_codec "/etc/astro.toml"
         {| cf_exists := fun _ => true; cf_isfile := fun _ => true;
            cf_load := fun _ => inr [("server", JObj [("Port", JNum 7777)])] |})
  = inr default_config.
Proof.
  exact (proj1 (config_section_missing sample_codec "/etc/astro.toml"
                  {| cf_exists := fun _ => true; cf_isfile := fun _ => true;
                     cf_load := fun _ =>
                       inr [("server", JObj [("Port", JNum 7777)])] |}
                  [("server", JObj [("Port", JNum 7777)])] default_config
                  eq_refl eq_refl eq_refl eq_refl eq_refl)).
Defined.
